(** * The settings state manager of the Linux network optimizer

    A shallow embedding of [NetworkOptimizer] from [optimizer.py]: snapshot
    capture ([load_interface_settings], [load_global_defaults]), the apply
    engine ([apply_settings]) and the reset engine ([reset_to_defaults]).

    The program talks to the operating system through [subprocess] calls and
    one file write.  Here the operating system is a [world]: a function from
    each command line to its outcome.  Every operation threads a [run], the
    log of what the program did: the commands it attempted, the lines it
    printed, the dialogs it showed and, inside apply and reset, the local list
    [error_messages].  Program text is taken to be ASCII. *)

From Stdlib Require Import Ascii.
From Stdlib Require Import QArith Qround.
From stdpp Require Import gmap strings pretty list.

(** ** Python string operations used by the program *)

Module PyStr.

(** [str.isspace] on one ASCII character. *)
Definition isspace (c : ascii) : bool :=
  let n := nat_of_ascii c in
  ((9 <=? n) && (n <=? 13)) || ((28 <=? n) && (n <=? 32)).

Fixpoint lstrip (s : string) : string :=
  match s with
  | String c s' => if isspace c then lstrip s' else s
  | EmptyString => EmptyString
  end.

Definition rstrip (s : string) : string := String.rev (lstrip (String.rev s)).

(** [s.strip()] *)
Definition strip (s : string) : string := rstrip (lstrip s).

Definition lower_char (c : ascii) : ascii :=
  let n := nat_of_ascii c in
  if (65 <=? n) && (n <=? 90) then ascii_of_nat (n + 32) else c.

(** [s.lower()] *)
Fixpoint lower (s : string) : string :=
  match s with
  | String c s' => String (lower_char c) (lower s')
  | EmptyString => EmptyString
  end.

Fixpoint startswith (p s : string) : bool :=
  match p, s with
  | EmptyString, _ => true
  | String a p', String b s' => bool_decide (a = b) && startswith p' s'
  | String _ _, EmptyString => false
  end.

(** [needle in hay] *)
Fixpoint contains (needle hay : string) : bool :=
  startswith needle hay ||
  match hay with
  | String _ hay' => contains needle hay'
  | EmptyString => false
  end.

Fixpoint last_field_go (sep : ascii) (cur s : string) : string :=
  match s with
  | EmptyString => String.rev cur
  | String c s' =>
      if bool_decide (c = sep) then last_field_go sep EmptyString s'
      else last_field_go sep (String c cur) s'
  end.

(** [s.split(sep)[-1]] for a one-character separator. *)
Definition last_field (sep : ascii) (s : string) : string :=
  last_field_go sep EmptyString s.

(** The ASCII line boundaries of [str.splitlines]. *)
Definition is_linebreak (c : ascii) : bool :=
  let n := nat_of_ascii c in
  ((10 <=? n) && (n <=? 13)) || ((28 <=? n) && (n <=? 30)).

(** [after_cr] says that the previous character was a carriage return, so
    that a line feed right after it ends the same line. *)
Fixpoint splitlines_go (after_cr : bool) (cur s : string) : list string :=
  match s with
  | EmptyString =>
      match cur with EmptyString => [] | _ => [String.rev cur] end
  | String c s' =>
      if bool_decide (c = "010"%char) && after_cr then splitlines_go false cur s'
      else if is_linebreak c
      then String.rev cur :: splitlines_go (bool_decide (c = "013"%char)) EmptyString s'
      else splitlines_go false (String c cur) s'
  end.

(** [s.splitlines()] *)
Definition splitlines (s : string) : list string :=
  splitlines_go false EmptyString s.

(** The text of one line feed. *)
Definition nl : string := String "010"%char EmptyString.

(** ["\n".join(l)] *)
Fixpoint join (sep : string) (l : list string) : string :=
  match l with
  | [] => EmptyString
  | [x] => x
  | x :: l' => x +:+ sep +:+ join sep l'
  end.

Definition digit (c : ascii) : option Z :=
  let n := nat_of_ascii c in
  if (48 <=? n) && (n <=? 57) then Some (Z.of_nat (n - 48)) else None.

(** The digits of a decimal literal; a single underscore may separate two
    digits. [seen] says that the previous character was a digit. *)
Fixpoint digits (acc : Z) (seen : bool) (s : string) : option Z :=
  match s with
  | EmptyString => if seen then Some acc else None
  | String c s' =>
      match digit c with
      | Some d => digits (10 * acc + d) true s'
      | None =>
          if bool_decide (c = "_"%char) && seen then digits acc false s' else None
      end
  end.

(** [int(s)] in base 10: [None] stands for [ValueError].  The interpreter's
    configurable limit on the number of digits is not modelled. *)
Definition int (s : string) : option Z :=
  match strip s with
  | String "-"%char s' => Z.opp <$> digits 0 false s'
  | String "+"%char s' => digits 0 false s'
  | s' => digits 0 false s'
  end.

(** [str(t * 0.5)] for an integer [t] with [|t| < 2 * 10^16], the range in
    which Python prints a float positionally. *)
Definition str_half (t : Z) : string :=
  let a := Z.abs t in
  (if bool_decide (t < 0)%Z then "-" else "") +:+
  pretty (a `div` 2)%Z +:+ (if Z.even a then ".0" else ".5").

End PyStr.

(** ** The operating system and what the program does to it *)

(** An exception caught by one of the program's [except Exception] clauses. *)
Inductive exn : Type :=
| SubprocessError (detail : string)  (* raised by check_output or check_call *)
| FileError (detail : string)        (* raised by open() or f.write() *)
| ValueError (literal : string)      (* int() of a text that is no number *)
| OverflowError.                     (* a float too large *)

(** The outcome of every command the program can run.  [check_call] returns
    [None] when the command exits with status 0. *)
Record world : Type := World {
  check_output : list string -> exn + string;
  check_call : list string -> option exn;
  open_write : string -> string -> option exn
}.

(** One attempted interaction with the operating system. *)
Inductive event : Type :=
| CheckOutput (argv : list string)
| CheckCall (argv : list string)
| OpenWrite (path content : string).

#[global] Instance event_eq_dec : EqDecision event.
Proof. solve_decision. Defined.

Inductive icon : Type := Warning | Information | Critical.

(** A [QMessageBox] shown to the user. *)
Inductive dialog : Type := MessageBox (i : icon) (title text : string).

Record run : Type := Run {
  error_messages : list string;
  trace : list event;
  stdout : list string;
  dialogs : list dialog
}.

Definition run0 : run := Run [] [] [] [].

(** [error_messages.append(msg)] *)
Definition append_error (msg : string) (r : run) : run :=
  Run (error_messages r ++ [msg]) (trace r) (stdout r) (dialogs r).

Definition attempt (ev : event) (r : run) : run :=
  Run (error_messages r) (trace r ++ [ev]) (stdout r) (dialogs r).

(** [print(line)] *)
Definition print (line : string) (r : run) : run :=
  Run (error_messages r) (trace r) (stdout r ++ [line]) (dialogs r).

Definition show (d : dialog) (r : run) : run :=
  Run (error_messages r) (trace r) (stdout r) (dialogs r ++ [d]).

(** ** The widgets and the state of [NetworkOptimizer] *)

Record QCheckBox : Type := CheckBox { isChecked : bool; isEnabled : bool }.

Definition setChecked (b : bool) (c : QCheckBox) : QCheckBox :=
  CheckBox b (isEnabled c).
Definition setEnabled (b : bool) (c : QCheckBox) : QCheckBox :=
  CheckBox (isChecked c) b.

(** [bufferSlider] has minimum 1 and maximum 8 (set in [initUI]); a
    [QSlider] bounds every value it is given to its range. *)
Definition slider_bound (v : Z) : Z := Z.max 1 (Z.min 8 v).

(** The items of [tcpComboBox], in the order [initUI] adds them. *)
Definition tcp_items : list string := ["cubic"; "bbr"].

(** [tcpComboBox.findText(text)]: the index of the first item equal to
    [text]; [None] stands for -1. *)
Definition findText (text : string) : option nat :=
  fst <$> list_find (λ item, item = text) tcp_items.

(** A value stored in a per-interface dict: a [bool] or [None]. *)
Abbreviation pyval := (option bool).

(** Python truth of such a value. *)
Definition truthy (v : pyval) : bool :=
  match v with Some b => b | None => false end.

Record optimizer : Type := Optimizer {
  global_defaults : gmap string string;
  interface_defaults : gmap string (gmap string pyval);
  current_interface : option string;
  tsoCheckBox : QCheckBox;
  gsoCheckBox : QCheckBox;
  groCheckBox : QCheckBox;
  powerSaveCheckBox : QCheckBox;
  bufferSlider : Z;
  tcpComboBox : nat
}.

(** The state [initUI] builds, before any interface is loaded. *)
Definition initial : optimizer :=
  {| global_defaults := ∅;
     interface_defaults := ∅;
     current_interface := None;
     tsoCheckBox := CheckBox false true;
     gsoCheckBox := CheckBox false true;
     groCheckBox := CheckBox false true;
     powerSaveCheckBox := CheckBox false true;
     bufferSlider := 4;
     tcpComboBox := 0 |}.

(** [tcpComboBox.currentText()] *)
Definition currentText (s : optimizer) : string :=
  default "" (tcp_items !! tcpComboBox s).

(** [d.get(key, dflt)] on a per-interface dict. *)
Definition dict_get (key : string) (dflt : pyval) (d : gmap string pyval) : pyval :=
  default dflt (d !! key).

(** ["on" if v else "off"] *)
Definition on_off (v : bool) : string := if v then "on" else "off".

(** ** Snapshot capture *)

(** [int(round(n / d))] for [0 < d], computed on exact fractions: Python rounds
    a tie to the even neighbour. *)
Definition round_half_even (n d : Z) : Z :=
  let q := (n `div` d)%Z in
  let m := (2 * (n `mod` d))%Z in
  if bool_decide (m < d)%Z then q
  else if bool_decide (d < m)%Z then (q + 1)%Z
  else if Z.even q then q else (q + 1)%Z.

(** From 2^1043 - 2^989 on, [int(rmem) / 1048576 / 0.5] is infinite or the
    division itself overflows, and [round] raises. *)
Definition float_limit : Z := (2 ^ 1043 - 2 ^ 989)%Z.

(** [max(1, min(8, int(round(int(rmem) / 1048576 / 0.5))))].  Dividing by
    1048576 and by 0.5 is exact for [|n| < 2^53]; beyond that the float is
    rounded but stays far outside 1..8, so the bounded value is the same. *)
Definition slider_value (rmem : string) : exn + Z :=
  match PyStr.int rmem with
  | None => inl (ValueError rmem)
  | Some n =>
      if bool_decide (float_limit ≤ Z.abs n)%Z then inl OverflowError
      else inr (Z.max 1 (Z.min 8 (round_half_even n 524288)))
  end.

(** One turn of the loop over the lines of [ethtool -k]. *)
Definition parse_offload_line (d : gmap string pyval) (line : string)
  : gmap string pyval :=
  let line := PyStr.strip line in
  let value := PyStr.strip (PyStr.last_field ":"%char line) in
  let is_on := Some (bool_decide (PyStr.lower value = "on")) in
  if PyStr.contains "tcp-segmentation-offload:" line || PyStr.contains "tso:" line
  then <["tso" := is_on]> d
  else if PyStr.contains "generic-segmentation-offload:" line || PyStr.contains "gso:" line
  then <["gso" := is_on]> d
  else if PyStr.contains "generic-receive-offload:" line || PyStr.contains "gro:" line
  then <["gro" := is_on]> d
  else d.

Section Optimizer.

(** [str(e)], the interpreter's text for an exception. *)
Variable str : exn -> string.

Definition offload_warning (interface : string) (e : exn) : dialog :=
  MessageBox Warning "Warning"
    ("Failed to get offloading settings for " +:+ interface +:+ ":" +:+
     PyStr.nl +:+ str e).

(** Detect offloading settings via ethtool. *)
Definition detect_offload (w : world) (interface : string)
    (d : gmap string pyval) (r : run) : gmap string pyval * run :=
  let argv := ["ethtool"; "-k"; interface] in
  let r := attempt (CheckOutput argv) r in
  match check_output w argv with
  | inr output => (foldl parse_offload_line d (PyStr.splitlines output), r)
  | inl e =>
      (<["gro" := Some true]> (<["gso" := Some true]> (<["tso" := Some true]> d)),
       show (offload_warning interface e) r)
  end.

(** Detect power saving settings via iw. *)
Definition detect_power_save (w : world) (interface : string)
    (d : gmap string pyval) (r : run) : gmap string pyval * run :=
  let argv := ["iw"; "dev"; interface; "get"; "power_save"] in
  let r := attempt (CheckOutput argv) r in
  match check_output w argv with
  | inr output =>
      if PyStr.contains "off" (PyStr.lower (PyStr.strip output))
      then (<["power_save" := Some false]> d, r)
      else (<["power_save" := Some true]> d, r)
  | inl _ => (<["power_save" := None]> d, r)
  end.

(** The part of [load_interface_settings] under
    [if interface not in self.interface_defaults]. *)
Definition capture_interface (w : world) (interface : string)
    (s : optimizer) (r : run) : gmap string (gmap string pyval) * run :=
  match interface_defaults s !! interface with
  | Some _ => (interface_defaults s, r)
  | None =>
      let '(d, r) := detect_offload w interface ∅ r in
      let '(d, r) := detect_power_save w interface d r in
      (<[interface := d]> (interface_defaults s), r)
  end.

(** Update the buffer slider from the kernel's current [rmem_max]. *)
Definition load_buffer_slider (w : world) (slider : Z) (r : run) : Z * run :=
  let argv := ["sysctl"; "-n"; "net.core.rmem_max"] in
  let r := attempt (CheckOutput argv) r in
  let warn e :=
    show (MessageBox Warning "Warning"
            ("Failed to get buffer sizes:" +:+ PyStr.nl +:+ str e)) r in
  match check_output w argv with
  | inr output =>
      match slider_value (PyStr.strip output) with
      | inr v => (slider_bound v, r)
      | inl e => (slider, warn e)
      end
  | inl e => (slider, warn e)
  end.

(** Update the algorithm box from the kernel's current algorithm. *)
Definition load_tcp_combo (w : world) (index : nat) (r : run) : nat * run :=
  let argv := ["sysctl"; "-n"; "net.ipv4.tcp_congestion_control"] in
  let r := attempt (CheckOutput argv) r in
  match check_output w argv with
  | inr output =>
      match findText (PyStr.strip output) with
      | Some i => (i, r)
      | None => (index, r)
      end
  | inl e =>
      (index,
       show (MessageBox Warning "Warning"
               ("Failed to get TCP congestion control:" +:+ PyStr.nl +:+ str e)) r)
  end.

(** The block "Update UI based on detected settings": the check boxes mean
    "disable", so each starts as the negation of the detected flag. *)
Definition show_interface_defaults (defaults : gmap string pyval) (s : optimizer)
  : optimizer :=
  let power_save := dict_get "power_save" None defaults in
  {| global_defaults := global_defaults s;
     interface_defaults := interface_defaults s;
     current_interface := current_interface s;
     tsoCheckBox :=
       setChecked (negb (truthy (dict_get "tso" (Some true) defaults))) (tsoCheckBox s);
     gsoCheckBox :=
       setChecked (negb (truthy (dict_get "gso" (Some true) defaults))) (gsoCheckBox s);
     groCheckBox :=
       setChecked (negb (truthy (dict_get "gro" (Some true) defaults))) (groCheckBox s);
     powerSaveCheckBox :=
       match power_save with
       | Some _ =>
           setChecked (negb (truthy power_save)) (setEnabled true (powerSaveCheckBox s))
       | None => setChecked false (setEnabled false (powerSaveCheckBox s))
       end;
     bufferSlider := bufferSlider s;
     tcpComboBox := tcpComboBox s |}.

Definition set_interface (idefs : gmap string (gmap string pyval))
    (interface : string) (s : optimizer) : optimizer :=
  {| global_defaults := global_defaults s;
     interface_defaults := idefs;
     current_interface := Some interface;
     tsoCheckBox := tsoCheckBox s;
     gsoCheckBox := gsoCheckBox s;
     groCheckBox := groCheckBox s;
     powerSaveCheckBox := powerSaveCheckBox s;
     bufferSlider := bufferSlider s;
     tcpComboBox := tcpComboBox s |}.

Definition set_global_widgets (slider : Z) (index : nat) (s : optimizer) : optimizer :=
  {| global_defaults := global_defaults s;
     interface_defaults := interface_defaults s;
     current_interface := current_interface s;
     tsoCheckBox := tsoCheckBox s;
     gsoCheckBox := gsoCheckBox s;
     groCheckBox := groCheckBox s;
     powerSaveCheckBox := powerSaveCheckBox s;
     bufferSlider := slider;
     tcpComboBox := index |}.

Definition load_interface_settings (w : world) (interface : string)
    (s : optimizer) (r : run) : optimizer * run :=
  let '(idefs, r) := capture_interface w interface s r in
  let s := set_interface idefs interface s in
  let s := show_interface_defaults (default ∅ (idefs !! interface)) s in
  let '(slider, r) := load_buffer_slider w (bufferSlider s) r in
  let '(index, r) := load_tcp_combo w (tcpComboBox s) r in
  (set_global_widgets slider index s, r).

(** When the user selects a different interface, load its settings. *)
Definition on_interface_change (w : world) (interface : string)
    (s : optimizer) (r : run) : optimizer * run :=
  load_interface_settings w interface s r.

Definition set_global_defaults (g : gmap string string) (s : optimizer) : optimizer :=
  {| global_defaults := g;
     interface_defaults := interface_defaults s;
     current_interface := current_interface s;
     tsoCheckBox := tsoCheckBox s;
     gsoCheckBox := gsoCheckBox s;
     groCheckBox := groCheckBox s;
     powerSaveCheckBox := powerSaveCheckBox s;
     bufferSlider := bufferSlider s;
     tcpComboBox := tcpComboBox s |}.

(** Store the global settings for later reset: the three reads share one
    [try], and the three keys are stored only after all of them. *)
Definition load_global_defaults (w : world) (s : optimizer) (r : run)
  : optimizer * run :=
  if bool_decide (global_defaults s = ∅) then
    let warn e r :=
      (s, show (MessageBox Warning "Warning"
                  ("Failed to load global defaults:" +:+ PyStr.nl +:+ str e)) r) in
    let a1 := ["sysctl"; "-n"; "net.core.rmem_max"] in
    let a2 := ["sysctl"; "-n"; "net.core.wmem_max"] in
    let a3 := ["sysctl"; "-n"; "net.ipv4.tcp_congestion_control"] in
    let r := attempt (CheckOutput a1) r in
    match check_output w a1 with
    | inl e => warn e r
    | inr rmem =>
        let r := attempt (CheckOutput a2) r in
        match check_output w a2 with
        | inl e => warn e r
        | inr wmem =>
            let r := attempt (CheckOutput a3) r in
            match check_output w a3 with
            | inl e => warn e r
            | inr tcp_cc =>
                (set_global_defaults
                   (<["net.ipv4.tcp_congestion_control" := PyStr.strip tcp_cc]>
                      (<["net.core.wmem_max" := PyStr.strip wmem]>
                         (<["net.core.rmem_max" := PyStr.strip rmem]>
                            (global_defaults s)))) s, r)
            end
        end
    end
  else (s, r).

(** ** The apply engine *)

(** [current_interface] as the guard [if not interface] sees it: [None] when
    no interface is selected or its name is empty. *)
Definition selected_interface (s : optimizer) : option string :=
  match current_interface s with
  | Some interface => if bool_decide (interface = "") then None else Some interface
  | None => None
  end.

Definition clear_errors (r : run) : run :=
  Run [] (trace r) (stdout r) (dialogs r).

Definition ethtool_K (interface feature value : string) : list string :=
  ["ethtool"; "-K"; interface; feature; value].

Definition iw_set_power_save (interface value : string) : list string :=
  ["iw"; "dev"; interface; "set"; "power_save"; value].

Definition sysctl_w (key value : string) : list string :=
  ["sysctl"; "-w"; key +:+ "=" +:+ value].

Definition offload_failed (NAME interface : string) (e : exn) : string :=
  "Failed to set " +:+ NAME +:+ " for " +:+ interface +:+ ": " +:+ str e.

(** One of the three offload blocks of [apply_settings]; [feature] is the
    ethtool name (tso, gso, gro) and [NAME] its spelling in the messages. *)
Definition apply_offload (w : world) (interface feature NAME : string)
    (box : QCheckBox) (r : run) : run :=
  let argv := ethtool_K interface feature (if isChecked box then "off" else "on") in
  let r := attempt (CheckCall argv) r in
  match check_call w argv with
  | None =>
      print ("Successfully " +:+ (if isChecked box then "disabled " else "enabled ")
             +:+ NAME +:+ " on " +:+ interface +:+ ".") r
  | Some e => append_error (offload_failed NAME interface e) r
  end.

Definition nm_file_path : string :=
  "/etc/NetworkManager/conf.d/default-wifi-powersave-on.conf".

Definition nm_config_str : string :=
  "[connection]" +:+ PyStr.nl +:+ "wifi.powersave = 2" +:+ PyStr.nl.

Definition power_save_failed (interface : string) (e : exn) : string :=
  "Failed to set power saving for " +:+ interface +:+ ": " +:+ str e.

Definition power_save_fallback_failed (interface : string) (e2 : exn) : string :=
  "Failed to disable power saving for " +:+ interface +:+
  " (fallback via NM config also failed): " +:+ str e2.

(** Fallback of the power saving block: update the NM config file. *)
Definition power_save_fallback (w : world) (interface : string) (r : run) : run :=
  let r := attempt (OpenWrite nm_file_path nm_config_str) r in
  match open_write w nm_file_path nm_config_str with
  | None =>
      print ("Successfully disabled power saving via NetworkManager config on "
             +:+ interface +:+ ".") r
  | Some e2 => append_error (power_save_fallback_failed interface e2) r
  end.

Definition apply_power_save (w : world) (interface : string)
    (box : QCheckBox) (r : run) : run :=
  if isEnabled box then
    let argv := iw_set_power_save interface (if isChecked box then "off" else "on") in
    let r := attempt (CheckCall argv) r in
    match check_call w argv with
    | None =>
        print ("Successfully " +:+ (if isChecked box then "disabled" else "enabled")
               +:+ " power saving via iw on " +:+ interface +:+ ".") r
    | Some e =>
        if isChecked box then power_save_fallback w interface r
        else append_error (power_save_failed interface e) r
    end
  else r.

(** [int(tier * 0.5 * 1048576)]: both float products are exact for a slider
    value, and [int] drops the fraction towards zero. *)
Definition buffer_value (tier : Z) : Z := ((tier * 1048576) `quot` 2)%Z.

Definition buffers_failed (e : exn) : string :=
  "Failed to set buffer sizes: " +:+ str e.

Definition apply_buffers (w : world) (interface : string) (tier : Z) (r : run)
  : run :=
  let value := pretty (buffer_value tier) in
  let a1 := sysctl_w "net.core.rmem_max" value in
  let a2 := sysctl_w "net.core.wmem_max" value in
  let r := attempt (CheckCall a1) r in
  match check_call w a1 with
  | Some e => append_error (buffers_failed e) r
  | None =>
      let r := attempt (CheckCall a2) r in
      match check_call w a2 with
      | Some e => append_error (buffers_failed e) r
      | None =>
          print ("Successfully set buffer sizes to " +:+ PyStr.str_half tier
                 +:+ " MB on " +:+ interface +:+ ".") r
      end
  end.

Definition congestion_failed (e : exn) : string :=
  "Failed to set TCP congestion control: " +:+ str e.

Definition apply_congestion (w : world) (interface tcp_cc : string) (r : run)
  : run :=
  let argv := sysctl_w "net.ipv4.tcp_congestion_control" tcp_cc in
  let r := attempt (CheckCall argv) r in
  match check_call w argv with
  | None =>
      print ("Successfully set TCP congestion control to " +:+ tcp_cc +:+ " on "
             +:+ interface +:+ ".") r
  | Some e => append_error (congestion_failed e) r
  end.

(** The final feedback of apply and reset. *)
Definition feedback (failure_line success_text success_line : string) (r : run)
  : run :=
  match error_messages r with
  | [] => print success_line (show (MessageBox Information "Success" success_text) r)
  | msgs =>
      foldl (λ r msg, print msg r)
        (print failure_line
           (show (MessageBox Warning "Errors Occurred" (PyStr.join PyStr.nl msgs)) r))
        msgs
  end.

Definition no_interface (r : run) : run :=
  show (MessageBox Warning "Error" "No network interface selected.") r.

(** [apply_settings] from [error_messages = []] up to the final feedback. *)
Definition apply_steps (w : world) (interface : string) (s : optimizer) (r : run)
  : run :=
  let r := clear_errors r in
  let r := apply_offload w interface "tso" "TSO" (tsoCheckBox s) r in
  let r := apply_offload w interface "gso" "GSO" (gsoCheckBox s) r in
  let r := apply_offload w interface "gro" "GRO" (groCheckBox s) r in
  let r := apply_power_save w interface (powerSaveCheckBox s) r in
  let r := apply_buffers w interface (bufferSlider s) r in
  apply_congestion w interface (currentText s) r.

Definition apply_settings (w : world) (s : optimizer) (r : run) : run :=
  match selected_interface s with
  | None => no_interface r
  | Some interface =>
      feedback "Errors occurred during applying settings:"
        "Settings applied successfully." "All settings applied successfully."
        (apply_steps w interface s r)
  end.

(** ** The reset engine *)

Definition reset_offload (w : world) (interface feature NAME : string)
    (defaults : gmap string pyval) (r : run) : run :=
  let dflt := on_off (truthy (dict_get feature (Some true) defaults)) in
  let argv := ethtool_K interface feature dflt in
  let r := attempt (CheckCall argv) r in
  match check_call w argv with
  | None =>
      print ("Successfully reset " +:+ NAME +:+ " to default (" +:+ dflt +:+ ") on "
             +:+ interface +:+ ".") r
  | Some e =>
      append_error ("Failed to reset " +:+ NAME +:+ " for " +:+ interface +:+ ": "
                    +:+ str e) r
  end.

Definition reset_power_save (w : world) (interface : string)
    (defaults : gmap string pyval) (r : run) : run :=
  match dict_get "power_save" None defaults with
  | Some _ =>
      let ps_default := on_off (truthy (dict_get "power_save" None defaults)) in
      let argv := iw_set_power_save interface ps_default in
      let r := attempt (CheckCall argv) r in
      match check_call w argv with
      | None =>
          print ("Successfully reset power saving to default (" +:+ ps_default
                 +:+ ") on " +:+ interface +:+ ".") r
      | Some e =>
          append_error ("Failed to reset power saving for " +:+ interface +:+ ": "
                        +:+ str e) r
      end
  | None => r
  end.

(** [f"{g.get(key)}"]: a missing key is formatted as the text of [None]. *)
Definition format_get (key : string) (g : gmap string string) : string :=
  default "None" (g !! key).

Definition reset_buffers (w : world) (g : gmap string string) (r : run) : run :=
  let a1 := sysctl_w "net.core.rmem_max" (format_get "net.core.rmem_max" g) in
  let a2 := sysctl_w "net.core.wmem_max" (format_get "net.core.wmem_max" g) in
  let r := attempt (CheckCall a1) r in
  match check_call w a1 with
  | Some e => append_error ("Failed to reset buffer sizes: " +:+ str e) r
  | None =>
      let r := attempt (CheckCall a2) r in
      match check_call w a2 with
      | Some e => append_error ("Failed to reset buffer sizes: " +:+ str e) r
      | None => print "Successfully reset buffer sizes to defaults." r
      end
  end.

Definition reset_congestion (w : world) (g : gmap string string) (r : run) : run :=
  let argv := sysctl_w "net.ipv4.tcp_congestion_control"
                (format_get "net.ipv4.tcp_congestion_control" g) in
  let r := attempt (CheckCall argv) r in
  match check_call w argv with
  | None => print "Successfully reset TCP congestion control to default." r
  | Some e => append_error ("Failed to reset TCP congestion control: " +:+ str e) r
  end.

(** [reset_to_defaults] from [error_messages = []] up to the final feedback. *)
Definition reset_steps (w : world) (interface : string) (s : optimizer) (r : run)
  : run :=
  let r := clear_errors r in
  let defaults := default ∅ (interface_defaults s !! interface) in
  let r := reset_offload w interface "tso" "TSO" defaults r in
  let r := reset_offload w interface "gso" "GSO" defaults r in
  let r := reset_offload w interface "gro" "GRO" defaults r in
  let r := reset_power_save w interface defaults r in
  let r := reset_buffers w (global_defaults s) r in
  reset_congestion w (global_defaults s) r.

Definition reset_to_defaults (w : world) (s : optimizer) (r : run)
  : optimizer * run :=
  match selected_interface s with
  | None => (s, no_interface r)
  | Some interface =>
      let r := reset_steps w interface s r in
      let r' := feedback "Errors occurred during resetting to defaults:"
                  "Settings reset to defaults successfully."
                  "All settings reset to defaults successfully." r in
      match error_messages r with
      | [] => load_interface_settings w interface s r'
      | _ => (s, r')
      end
  end.

(** ** The program as a transition system *)

(** What can happen to a running optimizer: the callbacks the program
    connects in [initUI] and [__init__], and the user's edits of the widgets
    [initUI] creates.  A disabled check box ignores clicks, the slider stays
    in its range, and the algorithm box offers only its items. *)
Inductive action : Type :=
| InterfaceChange (interface : string)
| LoadGlobalDefaults
| Apply
| Reset
| ClickTso
| ClickGso
| ClickGro
| ClickPowerSave
| MoveSlider (v : Z)
| ChooseAlgorithm (index : nat).

Definition click (c : QCheckBox) : QCheckBox :=
  if isEnabled c then setChecked (negb (isChecked c)) c else c.

Definition edit (a : action) (s : optimizer) : optimizer :=
  {| global_defaults := global_defaults s;
     interface_defaults := interface_defaults s;
     current_interface := current_interface s;
     tsoCheckBox := match a with ClickTso => click (tsoCheckBox s) | _ => tsoCheckBox s end;
     gsoCheckBox := match a with ClickGso => click (gsoCheckBox s) | _ => gsoCheckBox s end;
     groCheckBox := match a with ClickGro => click (groCheckBox s) | _ => groCheckBox s end;
     powerSaveCheckBox :=
       match a with
       | ClickPowerSave => click (powerSaveCheckBox s)
       | _ => powerSaveCheckBox s
       end;
     bufferSlider :=
       match a with MoveSlider v => slider_bound v | _ => bufferSlider s end;
     tcpComboBox :=
       match a with
       | ChooseAlgorithm i => if bool_decide (i < length tcp_items) then i else tcpComboBox s
       | _ => tcpComboBox s
       end |}.

Definition step (w : world) (a : action) (s : optimizer) (r : run)
  : optimizer * run :=
  match a with
  | InterfaceChange interface => on_interface_change w interface s r
  | LoadGlobalDefaults => load_global_defaults w s r
  | Apply => (s, apply_settings w s r)
  | Reset => reset_to_defaults w s r
  | _ => (edit a s, r)
  end.

(** A session: each action meets the operating system of its moment. *)
Fixpoint session (acts : list (world * action)) (s : optimizer) (r : run)
  : optimizer * run :=
  match acts with
  | [] => (s, r)
  | (w, a) :: acts' => let '(s', r') := step w a s r in session acts' s' r'
  end.

End Optimizer.

(** ** Sample operating systems *)

(** A rendering of exceptions for the examples: the detail they carry. *)
Definition sample_str (e : exn) : string :=
  match e with
  | SubprocessError detail => detail
  | FileError detail => detail
  | ValueError literal => "invalid literal: " +:+ literal
  | OverflowError => "float overflow"
  end.

(** What a healthy machine answers to the program's reads. *)
Definition sample_read (power_save : option string) (rmem tcp_cc : string)
    (argv : list string) : exn + string :=
  match argv with
  | ["ethtool"; "-k"; _] =>
      inr ("tcp-segmentation-offload: on" +:+ PyStr.nl +:+
           "generic-segmentation-offload: off" +:+ PyStr.nl +:+
           "generic-receive-offload: on" +:+ PyStr.nl)
  | ["iw"; "dev"; _; "get"; "power_save"] =>
      match power_save with
      | Some v => inr ("Power save: " +:+ v +:+ PyStr.nl)
      | None => inl (SubprocessError "exit status 237")
      end
  | ["sysctl"; "-n"; "net.core.rmem_max"] => inr (rmem +:+ PyStr.nl)
  | ["sysctl"; "-n"; "net.core.wmem_max"] => inr (rmem +:+ PyStr.nl)
  | ["sysctl"; "-n"; "net.ipv4.tcp_congestion_control"] => inr (tcp_cc +:+ PyStr.nl)
  | _ => inl (SubprocessError "command not found")
  end.

(** Every read and every write succeeds; [power_save] is the radio's answer,
    [None] on a wired interface. *)
Definition healthy (power_save : option string) (rmem tcp_cc : string) : world :=
  {| check_output := sample_read power_save rmem tcp_cc;
     check_call := λ _, None;
     open_write := λ _ _, None |}.

(** As [healthy], but the commands in [broken] fail and, when [readonly] is
    set, so does the write of the config file. *)
Definition faulty (power_save : option string) (rmem tcp_cc : string)
    (broken : list (list string)) (readonly : bool) : world :=
  {| check_output := λ argv,
       if bool_decide (argv ∈ broken) then inl (SubprocessError "exit status 1")
       else sample_read power_save rmem tcp_cc argv;
     check_call := λ argv,
       if bool_decide (argv ∈ broken) then Some (SubprocessError "exit status 1")
       else None;
     open_write := λ _ _,
       if readonly then Some (FileError "Read-only file system") else None |}.

(** ** Sample sessions *)

(** A machine with the kernel's usual [rmem_max] of 212992 bytes and cubic. *)
Definition usual_kernel : world := healthy (Some "on") "212992" "cubic".

(** There the user selected eth0, moved the slider to 8 and chose bbr. *)
Definition eth0_heavy_bbr : optimizer :=
  (session sample_str
     [ (usual_kernel, InterfaceChange "eth0");
       (usual_kernel, MoveSlider 8);
       (usual_kernel, ChooseAlgorithm 1) ] initial run0).1.

(** A wireless machine on which the TSO write, the radio's power-save write,
    the receive-buffer write and the write of the config file all fail. *)
Definition failing_writes : world :=
  faulty (Some "on") "212992" "cubic"
    [ ["ethtool"; "-K"; "wlan0"; "tso"; "off"];
      ["iw"; "dev"; "wlan0"; "set"; "power_save"; "off"];
      ["sysctl"; "-w"; "net.core.rmem_max=2097152"] ] true.

(** The user selected wlan0, asked to disable TSO and power saving and moved
    the slider to 4. *)
Definition wlan0_tuned : optimizer :=
  (session sample_str
     [ (healthy (Some "on") "212992" "cubic", InterfaceChange "wlan0");
       (failing_writes, ClickTso);
       (failing_writes, ClickPowerSave);
       (failing_writes, MoveSlider 4) ] initial run0).1.

(** wlan0 was found with power saving off. *)
Definition wlan0_found_off : optimizer :=
  (on_interface_change sample_str (healthy (Some "off") "212992" "cubic") "wlan0"
     initial run0).1.

(** The radio refuses to have its power saving switched off. *)
Definition radio_refuses : world :=
  faulty (Some "off") "212992" "cubic"
    [ ["iw"; "dev"; "wlan0"; "set"; "power_save"; "off"] ] false.

(** [ethtool] is not installed. *)
Definition no_ethtool : world :=
  faulty None "212992" "cubic" [ ["ethtool"; "-k"; "eth0"] ] false.

(** [ethtool -k] answers, but lists none of the three offload features. *)
Definition silent_ethtool : world :=
  {| check_output := λ argv,
       match argv with
       | ["ethtool"; "-k"; interface] => inr ("Features for " +:+ interface +:+ ":")
       | _ => sample_read None "212992" "cubic" argv
       end;
     check_call := λ _, None;
     open_write := λ _ _, None |}.

(** eth0 as found on that machine. *)
Definition eth0_undetected : optimizer :=
  (on_interface_change sample_str silent_ethtool "eth0" initial run0).1.

(** The three global reads fail to complete: the kernel answers every read but
    the one of [wmem_max]. *)
Definition wmem_unreadable : world :=
  faulty None "212992" "cubic" [ ["sysctl"; "-n"; "net.core.wmem_max"] ] false.

(** Start-up on that machine: eth0 is loaded, then the global defaults. *)
Definition eth0_without_globals : optimizer :=
  (session sample_str
     [ (wmem_unreadable, InterfaceChange "eth0");
       (wmem_unreadable, LoadGlobalDefaults) ] initial run0).1.

(** ** Vocabulary of the statements *)

(** What a piece of the program attempts, records and prints when it starts
    from an empty log. *)
Definition attempts (f : run -> run) : list event := trace (f run0).
Definition failures (f : run -> run) : list string := error_messages (f run0).
Definition printed (f : run -> run) : list string := stdout (f run0).

(** The value a "disable" check box asks for. *)
Definition off_on (box : QCheckBox) : string :=
  if isChecked box then "off" else "on".

(** The writes the desired state on the widgets asks for, in program order;
    the config file is the fallback for disabling power saving. *)
Definition desired_writes (interface : string) (s : optimizer) : list event :=
  let value := pretty (buffer_value (bufferSlider s)) in
  [ CheckCall (ethtool_K interface "tso" (off_on (tsoCheckBox s)));
    CheckCall (ethtool_K interface "gso" (off_on (gsoCheckBox s)));
    CheckCall (ethtool_K interface "gro" (off_on (groCheckBox s)));
    CheckCall (iw_set_power_save interface (off_on (powerSaveCheckBox s)));
    OpenWrite nm_file_path nm_config_str;
    CheckCall (sysctl_w "net.core.rmem_max" value);
    CheckCall (sysctl_w "net.core.wmem_max" value);
    CheckCall (sysctl_w "net.ipv4.tcp_congestion_control" (currentText s)) ].

(** A piece of the program that only ever adds to the log it is given. *)
Class Appends (f : run -> run) : Prop := {
  appends_trace r : trace (f r) = trace r ++ attempts f;
  appends_errors r : error_messages (f r) = error_messages r ++ failures f;
  appends_stdout r : stdout (f r) = stdout r ++ printed f
}.

(** The writes that address the selected interface: everything apply and
    reset attempt except the kernel parameters. *)
Definition is_interface_write (ev : event) : bool :=
  match ev with
  | CheckCall ("ethtool" :: _) | CheckCall ("iw" :: _) | OpenWrite _ _ => true
  | _ => false
  end.

(** The write of the config file. *)
Definition is_fallback (ev : event) : bool :=
  match ev with OpenWrite _ _ => true | _ => false end.

(** The desired state the program derives from the snapshot of [interface]:
    what [load_interface_settings] puts on the check boxes. *)
Definition derived_state (interface : string) (s : optimizer) : optimizer :=
  show_interface_defaults (default ∅ (interface_defaults s !! interface)) s.

(** The log of [reset_to_defaults]. *)
Definition reset_run (str : exn -> string) (w : world) (s : optimizer) (r : run)
  : run := (reset_to_defaults str w s r).2.

(** The capability reads that are specific to one interface. *)
Definition interface_reads (interface : string) : list event :=
  [ CheckOutput ["ethtool"; "-k"; interface];
    CheckOutput ["iw"; "dev"; interface; "get"; "power_save"] ].

(** The reads of the kernel's current global settings. *)
Definition global_reads : list event :=
  [ CheckOutput ["sysctl"; "-n"; "net.core.rmem_max"];
    CheckOutput ["sysctl"; "-n"; "net.ipv4.tcp_congestion_control"] ].

(** An attempted read, as opposed to a write. *)
Definition is_read (ev : event) : bool :=
  match ev with CheckOutput _ => true | _ => false end.

(** How often a command was attempted. *)
Definition occurrences (ev : event) (tr : list event) : nat :=
  count_occ event_eq_dec tr ev.

(** 1 when the snapshot of [interface] is in the store, 0 otherwise. *)
Definition captured (interface : string) (s : optimizer) : nat :=
  match interface_defaults s !! interface with Some _ => 1 | None => 0 end.

(** A transition keeps the books of an interface when it leaves a stored
    snapshot alone and performs each of the interface's two capability reads
    once exactly if it stores one. *)
Definition keeps_books (interface : string)
    (s : optimizer) (r : run) (s' : optimizer) (r' : run) : Prop :=
  let ethtool_k := CheckOutput ["ethtool"; "-k"; interface] in
  let iw_get := CheckOutput ["iw"; "dev"; interface; "get"; "power_save"] in
  (∀ snap, interface_defaults s !! interface = Some snap →
           interface_defaults s' !! interface = Some snap)
  ∧ occurrences ethtool_k (trace r') + captured interface s
    = occurrences ethtool_k (trace r) + captured interface s'
  ∧ occurrences iw_get (trace r') + captured interface s
    = occurrences iw_get (trace r) + captured interface s'.

(** The read that only [load_global_defaults] performs. *)
Definition wmem_read : event := CheckOutput ["sysctl"; "-n"; "net.core.wmem_max"].

(** The global snapshot that three successful reads leave. *)
Definition global_snapshot (rmem wmem tcp_cc : string) : gmap string string :=
  <["net.ipv4.tcp_congestion_control" := PyStr.strip tcp_cc]>
    (<["net.core.wmem_max" := PyStr.strip wmem]>
       (<["net.core.rmem_max" := PyStr.strip rmem]> ∅)).

(** The warning [load_global_defaults] shows when a read fails. *)
Definition global_defaults_warning (str : exn -> string) (e : exn) : dialog :=
  MessageBox Warning "Warning"
    ("Failed to load global defaults:" +:+ PyStr.nl +:+ str e).

(** A write of a kernel parameter. *)
Definition is_kernel_write (ev : event) : bool :=
  match ev with CheckCall ("sysctl" :: _) => true | _ => false end.

(** The dialog apply and reset show when no interface is selected. *)
Definition no_interface_warning : dialog :=
  MessageBox Warning "Error" "No network interface selected.".


(** The dialog that closes apply and reset: success when nothing failed,
    otherwise the failures, one per line. *)
Definition verdict (success_text : string) (failed : list string) : dialog :=
  match failed with
  | [] => MessageBox Information "Success" success_text
  | _ => MessageBox Warning "Errors Occurred" (PyStr.join PyStr.nl failed)
  end.

(** A snapshot as capture leaves it: the power-save key is present, no other
    key than the four is, and an offload flag that is present is a [bool]. *)
Definition well_formed_snapshot (d : gmap string pyval) : Prop :=
  is_Some (d !! "power_save")
  ∧ ∀ key v, d !! key = Some v →
             key ∈ ["tso"; "gso"; "gro"; "power_save"]
             ∧ (key ≠ "power_save" → is_Some v).


(** What every state of a session satisfies. *)
Definition consistent (s : optimizer) : Prop :=
  (∀ i d, interface_defaults s !! i = Some d → well_formed_snapshot d)
  ∧ (∀ i, current_interface s = Some i →
          ∃ d, interface_defaults s !! i = Some d
               ∧ (isEnabled (powerSaveCheckBox s) = true
                  ↔ is_Some (dict_get "power_save" None d)))
  ∧ (isEnabled (powerSaveCheckBox s) = false →
     isChecked (powerSaveCheckBox s) = false)
  ∧ tcpComboBox s < length tcp_items.

(** The tier the spec reads off a byte count: [q] is the number of half
    MiB (524288 bytes) nearest to [n], and of two equally near ones the even
    one. *)
Definition nearest_tier (n q : Z) : Prop :=
  (Z.abs (2 * n - q * 1048576) ≤ 524288)%Z
  ∧ ((Z.abs (2 * n - q * 1048576) = 524288)%Z → Z.even q = true).

(** The global snapshot was captured on the usual machine. *)
Definition globals_loaded : optimizer :=
  (load_global_defaults sample_str usual_kernel initial run0).1.


(** The log of that capture. *)
Definition globals_loaded_run : run :=
  (load_global_defaults sample_str usual_kernel initial run0).2.


(** A session on the usual machine: select eth0, move the slider, apply. *)
Definition eth0_session : list (world * action) :=
  [ (usual_kernel, InterfaceChange "eth0");
    (usual_kernel, MoveSlider 8);
    (usual_kernel, Apply) ].


(** The snapshot of wlan0 in [wlan0_found_off]. *)
Definition wlan0_snapshot : gmap string pyval :=
  <["power_save" := Some false]>
    (<["gro" := Some true]> (<["gso" := Some false]> (<["tso" := Some true]> ∅))).

(** ** Dependency check and start of the program *)

(** The machine the program starts on.  [which] is [shutil.which]: what is
    installed can change only through the commands the program has run so
    far, so it takes their list.  [question] is the user's reaction to the
    install question, by button in the message box, or typed at the terminal
    prompt when there is no display.  [call] is [subprocess.check_call]. *)
Inductive call_error : Type :=
| CalledProcessError (text : string)  (* non-zero exit status; text = str(e) *)
| OtherError (text : string).         (* any exception the program lets pass *)

Inductive answer : Type :=
| Clicked (yes : bool)
| Typed (line : string)
| NoAnswer (error : string).          (* input() raised *)

Record host : Type := Host {
  which : list (list string) -> string -> option string;
  question : string -> answer;
  call : list (list string) -> list string -> option call_error
}.

(** What the start of the program has done so far: the commands it ran, the
    questions it asked and what it wrote to stderr and stdout. *)
Record shell : Type := Shell {
  commands : list (list string);
  questions : list string;
  err_lines : list string;
  out_lines : list string
}.

Definition shell0 : shell := Shell [] [] [] [].

Definition write_err (text : string) (sh : shell) : shell :=
  Shell (commands sh) (questions sh) (err_lines sh ++ [text]) (out_lines sh).

Definition write_out (text : string) (sh : shell) : shell :=
  Shell (commands sh) (questions sh) (err_lines sh) (out_lines sh ++ [text]).

Definition ask (text : string) (sh : shell) : shell :=
  Shell (commands sh) (questions sh ++ [text]) (err_lines sh) (out_lines sh).

(** [subprocess.check_call(argv)] *)
Definition run_command (h : host) (argv : list string) (sh : shell)
  : option call_error * shell :=
  (call h (commands sh) argv,
   Shell (commands sh ++ [argv]) (questions sh) (err_lines sh) (out_lines sh)).

(** A function of the program returns, or an exception passes through it. *)
Inductive outcome (A : Type) : Type :=
| Returned (a : A)
| Raised (error : string).
Arguments Returned {A} a.
Arguments Raised {A} error.

(** Ask the user whether to install the missing dependencies.  How the
    question is put (message box, or [input] when that fails) is the host's
    business; a typed line counts as yes when, in lower case, it is y, yes or
    empty. *)
Definition ask_install_missing (h : host) (missing : list string) (sh : shell)
  : outcome bool * shell :=
  let msg := "The following dependencies are missing:" +:+ PyStr.nl +:+
             PyStr.join ", " missing +:+ PyStr.nl +:+ PyStr.nl +:+
             "Do you want to install them automatically?" in
  match question h msg with
  | Clicked yes => (Returned yes, ask msg sh)
  | Typed line =>
      (Returned (bool_decide (PyStr.lower line ∈ ["y"; "yes"; ""])),
       ask (msg +:+ " [Y/n]: ") sh)
  | NoAnswer error => (Raised error, ask (msg +:+ " [Y/n]: ") sh)
  end.

Definition package_managers : list string := ["apt-get"; "dnf"; "yum"; "pacman"].

(** The first known package manager that is installed. *)
Definition detect_package_manager (h : host) (sh : shell) : option string :=
  List.find (λ mgr, bool_decide (is_Some (which h (commands sh) mgr)))
    package_managers.

(** The package that provides each required command, per package manager. *)
Definition package_map : gmap string (gmap string string) :=
  list_to_map
    [ ("ethtool", list_to_map [ ("apt-get", "ethtool"); ("dnf", "ethtool");
                                ("yum", "ethtool"); ("pacman", "ethtool") ]);
      ("iw", list_to_map [ ("apt-get", "iw"); ("dnf", "iw");
                           ("yum", "iw"); ("pacman", "iw") ]);
      ("sysctl", list_to_map [ ("apt-get", "procps"); ("dnf", "procps-ng");
                               ("yum", "procps-ng"); ("pacman", "procps-ng") ]);
      ("pkexec", list_to_map [ ("apt-get", "policykit-1"); ("dnf", "polkit");
                               ("yum", "polkit"); ("pacman", "polkit") ]) ].

(** [package_map.get(dep, {}).get(pkg_mgr)], falling back to the command
    name when there is no entry. *)
Definition package_for (pkg_mgr dep : string) : string :=
  match default ∅ (package_map !! dep) !! pkg_mgr with
  | Some pkg => if bool_decide (pkg = "") then dep else pkg
  | None => dep
  end.

(** [install_cmd] for the managers that run it; for apt-get the program
    builds a text it never runs. *)
Definition install_cmd (pkg_mgr : string) (packages : list string) : list string :=
  if bool_decide (pkg_mgr = "dnf") then ["dnf"; "install"; "-y"] ++ packages
  else if bool_decide (pkg_mgr = "yum") then ["yum"; "install"; "-y"] ++ packages
  else if bool_decide (pkg_mgr = "pacman") then ["pacman"; "-S"; "--noconfirm"] ++ packages
  else [].

(** The [except subprocess.CalledProcessError] clause of the installation. *)
Definition install_failed (error : call_error) (sh : shell) : outcome bool * shell :=
  match error with
  | CalledProcessError text =>
      (Returned false,
       write_err ("Failed to install dependencies: " +:+ text +:+ PyStr.nl) sh)
  | OtherError text => (Raised text, sh)
  end.

Definition install_succeeded (sh : shell) : outcome bool * shell :=
  (Returned true, write_out ("Installation successful." +:+ PyStr.nl) sh).

Definition install_dependencies (h : host) (missing : list string) (sh : shell)
  : outcome bool * shell :=
  match detect_package_manager h sh with
  | None =>
      (Returned false,
       write_err ("No supported package manager found. Please install the missing packages manually."
                  +:+ PyStr.nl) sh)
  | Some pkg_mgr =>
      let packages := map (package_for pkg_mgr) missing in
      let sh := write_out ("Attempting to install missing dependencies using "
                           +:+ pkg_mgr +:+ "..." +:+ PyStr.nl) sh in
      if bool_decide (pkg_mgr = "apt-get") then
        let '(updated, sh) := run_command h ["apt-get"; "update"] sh in
        match updated with
        | Some error => install_failed error sh
        | None =>
            let '(installed, sh) :=
              run_command h (["apt-get"; "install"; "-y"] ++ packages) sh in
            match installed with
            | Some error => install_failed error sh
            | None => install_succeeded sh
            end
        end
      else
        let '(installed, sh) := run_command h (install_cmd pkg_mgr packages) sh in
        match installed with
        | Some error => install_failed error sh
        | None => install_succeeded sh
        end
  end.

Definition required_commands : list string := ["ethtool"; "iw"; "sysctl"; "pkexec"].

(** [[cmd for cmd in required_commands if shutil.which(cmd) is None]] *)
Definition missing_commands (h : host) (sh : shell) : list string :=
  List.filter (λ cmd, bool_decide (which h (commands sh) cmd = None))
    required_commands.

Definition check_dependencies (h : host) (sh : shell) : outcome bool * shell :=
  match missing_commands h sh with
  | [] => (Returned true, sh)
  | missing =>
      let sh := write_err ("Missing dependencies: " +:+ PyStr.join ", " missing
                           +:+ PyStr.nl) sh in
      let '(agreed, sh) := ask_install_missing h missing sh in
      match agreed with
      | Raised error => (Raised error, sh)
      | Returned false => (Returned false, sh)
      | Returned true =>
          let '(installed, sh) := install_dependencies h missing sh in
          match installed with
          | Raised error => (Raised error, sh)
          | Returned false =>
              (Returned false,
               write_err ("Installation of dependencies failed. Exiting." +:+ PyStr.nl) sh)
          | Returned true =>
              match missing_commands h sh with
              | [] => (Returned true, sh)
              | missing =>
                  (Returned false,
                   write_err ("The following dependencies are still missing after installation: "
                              +:+ PyStr.join ", " missing +:+ PyStr.nl) sh)
              end
          end
      end
  end.

(** How [main] ends: a [sys.exit] with a status, the start of the window, or
    an exception nothing catches. *)
Inductive finish : Type :=
| Exit (status : Z)
| Window
| Crash (error : string).

(** The command [main] hands to pkexec: the same program with the same
    arguments, and the display of the caller. *)
Definition pkexec_cmd (environ : gmap string string) (executable script_path : string)
    (argv : list string) : list string :=
  ["pkexec"; "env";
   "DISPLAY=" +:+ default "" (environ !! "DISPLAY");
   "XAUTHORITY=" +:+ default "" (environ !! "XAUTHORITY");
   executable; script_path] ++ drop 1 argv.

Definition main (h : host) (euid : Z) (environ : gmap string string)
    (executable script_path : string) (argv : list string) (sh : shell)
  : finish * shell :=
  let '(ready, sh) := check_dependencies h sh in
  match ready with
  | Raised error => (Crash error, sh)
  | Returned false => (Exit 1, sh)
  | Returned true =>
      if bool_decide (euid ≠ 0%Z) then
        let '(elevated, sh) :=
          run_command h (pkexec_cmd environ executable script_path argv) sh in
        match elevated with
        | Some (OtherError text) => (Crash text, sh)
        | Some (CalledProcessError _) =>
            (Exit 0, write_out ("Failed to gain root privileges via pkexec."
                                +:+ PyStr.nl) sh)
        | None => (Exit 0, sh)
        end
      else (Window, sh)
  end.

(** ** The start of the window *)

(** [load_interfaces]: the names under /sys/class/net without the loopback;
    [listing] is what [os.listdir] returns or raises.  [addItems] then fills
    the interface box, whose [currentTextChanged] is connected to
    [on_interface_change] in [initUI]: [signalled] are the texts the box
    reports while it is filled, and each of them runs [on_interface_change]
    before [load_interfaces] returns.  When the listing raises, nothing is
    added to the box and the failure is shown. *)
Definition load_interfaces (str : exn -> string) (w : world)
    (listing : exn + list string) (signalled : list string)
    (s : optimizer) (r : run) : list string * (optimizer * run) :=
  match listing with
  | inr interfaces =>
      (List.filter (λ iface, bool_decide (iface ≠ "lo")) interfaces,
       session str (map (λ text, (w, InterfaceChange text)) signalled) s r)
  | inl e =>
      ([], (s, show (MessageBox Critical "Error"
                       ("Failed to list network interfaces:" +:+ PyStr.nl +:+ str e))
                 r))
  end.

(** [__init__] after [initUI]: [load_interfaces], then the first interface
    and the global defaults.  A text the box reported when [setCurrentIndex]
    makes the first item current would run the same callback at the same
    point, between the filling of the box and the loading of the first
    interface, so it counts among [signalled]. *)
Definition startup (str : exn -> string) (w : world) (listing : exn + list string)
    (signalled : list string) : optimizer * run :=
  let '(available_interfaces, (s, r)) :=
    load_interfaces str w listing signalled initial run0 in
  let '(s, r) :=
    match available_interfaces with
    | first :: _ => load_interface_settings str w first s r
    | [] => (s, r)
    end in
  load_global_defaults str w s r.

(** ** The label of the buffer slider *)

(** The preset [update_buffer_label] names for a slider value. *)
Definition preset (value : Z) : string :=
  if bool_decide (value ≤ 2)%Z then "Light"
  else if bool_decide (value ≤ 5)%Z then "Balanced"
  else "Heavy".

(** The text [update_buffer_label] puts on the label: [value * 0.5] with one
    decimal, which on the halves is the text [str] gives, and the preset. *)
Definition update_buffer_label (value : Z) : string :=
  PyStr.str_half value +:+ " MB (" +:+ preset value +:+ ")".

(** ** Sample machines for the start *)

(** A Debian machine without ethtool: apt-get is installed, and ethtool is
    found once [apt-get install -y ethtool] has run. *)
Definition debian_without_ethtool (reply : answer) : host :=
  {| which ran cmd :=
       if bool_decide (cmd ∈ ["apt-get"; "iw"; "sysctl"; "pkexec"])
       then Some ("/usr/bin/" +:+ cmd)
       else if bool_decide (cmd = "ethtool"
                            ∧ ["apt-get"; "install"; "-y"; "ethtool"] ∈ ran)
       then Some "/usr/sbin/ethtool"
       else None;
     question _ := reply;
     call _ _ := None |}.

(** A Fedora machine without iw on which dnf exits with status 1. *)
Definition fedora_offline : host :=
  {| which _ cmd :=
       if bool_decide (cmd ∈ ["dnf"; "yum"; "ethtool"; "sysctl"; "pkexec"])
       then Some ("/usr/bin/" +:+ cmd) else None;
     question _ := Typed "Yes";
     call _ _ := Some (CalledProcessError "Command returned non-zero exit status 1.") |}.

(** A machine that has everything. *)
Definition complete_host : host :=
  {| which _ cmd := Some ("/usr/bin/" +:+ cmd);
     question _ := Clicked false;
     call _ _ := None |}.

(** * Properties *)

(** *** The model on sample inputs *)

Example strip_lower_example :
  PyStr.lower (PyStr.strip (PyStr.last_field ":"%char "tcp-segmentation-offload: ON ")) = "on".
Proof. reflexivity. Qed.

Example splitlines_example :
  PyStr.splitlines ("a" +:+ PyStr.nl +:+ PyStr.nl +:+ "b" +:+ PyStr.nl) = ["a"; ""; "b"].
Proof. reflexivity. Qed.

Example int_example :
  PyStr.int " 212992 " = Some 212992%Z ∧ PyStr.int "-1_000" = Some (-1000)%Z
  ∧ PyStr.int "1__0" = None ∧ PyStr.int "" = None ∧ PyStr.int "4k" = None.
Proof. repeat split; reflexivity. Qed.

(** 212992 bytes are 0.40625 half-MiB steps, which rounds to 0 and is raised
    to 1; 1310720 bytes are 2.5 steps, a tie that goes to the even 2. *)
Example slider_value_example :
  slider_value "212992" = inr 1%Z ∧ slider_value "1310720" = inr 2%Z
  ∧ slider_value "16777216" = inr 8%Z ∧ slider_value "max" = inl (ValueError "max").
Proof. repeat split; reflexivity. Qed.

(** A fixed feature is reported as "on [fixed]", which is not "on". *)
Example parse_offload_line_example :
  foldl parse_offload_line ∅
    [ "tcp-segmentation-offload: on"; "generic-segmentation-offload: off";
      "generic-receive-offload: on [fixed]"; "rx-vlan-offload: on" ]
  = <["gro" := Some false]> (<["gso" := Some false]> (<["tso" := Some true]> ∅)).
Proof. reflexivity. Qed.

Example capture_example :
  interface_defaults wlan0_found_off !! "wlan0"
  = Some (<["power_save" := Some false]>
            (<["gro" := Some true]> (<["gso" := Some false]> (<["tso" := Some true]> ∅)))).
Proof. reflexivity. Qed.

Example apply_example :
  attempts (apply_settings sample_str usual_kernel eth0_heavy_bbr)
  = [ CheckCall ["ethtool"; "-K"; "eth0"; "tso"; "on"];
      CheckCall ["ethtool"; "-K"; "eth0"; "gso"; "off"];
      CheckCall ["ethtool"; "-K"; "eth0"; "gro"; "on"];
      CheckCall ["iw"; "dev"; "eth0"; "set"; "power_save"; "on"];
      CheckCall ["sysctl"; "-w"; "net.core.rmem_max=4194304"];
      CheckCall ["sysctl"; "-w"; "net.core.wmem_max=4194304"];
      CheckCall ["sysctl"; "-w"; "net.ipv4.tcp_congestion_control=bbr"] ]
  ∧ printed (apply_settings sample_str usual_kernel eth0_heavy_bbr)
    = [ "Successfully enabled TSO on eth0.";
        "Successfully disabled GSO on eth0.";
        "Successfully enabled GRO on eth0.";
        "Successfully enabled power saving via iw on eth0.";
        "Successfully set buffer sizes to 4.0 MB on eth0.";
        "Successfully set TCP congestion control to bbr on eth0.";
        "All settings applied successfully." ].
Proof. split; reflexivity. Qed.

Section Steps.

Variable str : exn -> string.
Variable w : world.

Ltac appends defn :=
  split; intros r; unfold attempts, failures, printed, defn;
  repeat case_match; simpl; rewrite ?app_nil_r; done.

#[global] Instance apply_offload_appends interface feature NAME box :
  Appends (apply_offload str w interface feature NAME box).
Proof. appends apply_offload. Qed.

#[global] Instance apply_power_save_appends interface box :
  Appends (apply_power_save str w interface box).
Proof.
  split; intros r; unfold attempts, failures, printed, apply_power_save,
    power_save_fallback; repeat case_match; simpl;
    rewrite ?app_nil_r, <- ?app_assoc; done.
Qed.

#[global] Instance apply_buffers_appends interface tier :
  Appends (apply_buffers str w interface tier).
Proof.
  split; intros r; unfold attempts, failures, printed, apply_buffers;
    repeat case_match; simpl; rewrite ?app_nil_r, <- ?app_assoc; done.
Qed.

#[global] Instance apply_congestion_appends interface tcp_cc :
  Appends (apply_congestion str w interface tcp_cc).
Proof. appends apply_congestion. Qed.

(** *** What each step of apply attempts and records *)

Lemma apply_offload_attempts interface feature NAME box :
  attempts (apply_offload str w interface feature NAME box) =
  [CheckCall (ethtool_K interface feature (off_on box))].
Proof. unfold attempts, apply_offload, off_on. by case_match. Qed.

Lemma apply_offload_failures interface feature NAME box :
  failures (apply_offload str w interface feature NAME box) =
  match check_call w (ethtool_K interface feature (off_on box)) with
  | Some e => [offload_failed str NAME interface e]
  | None => []
  end.
Proof. unfold failures, apply_offload, off_on. by case_match. Qed.

Lemma apply_power_save_attempts interface box :
  attempts (apply_power_save str w interface box) =
  if isEnabled box then
    CheckCall (iw_set_power_save interface (off_on box)) ::
    match check_call w (iw_set_power_save interface (off_on box)) with
    | Some _ => if isChecked box then [OpenWrite nm_file_path nm_config_str] else []
    | None => []
    end
  else [].
Proof.
  unfold attempts, apply_power_save, power_save_fallback, off_on.
  destruct (isEnabled box); [|done].
  destruct (check_call w _); [|done].
  destruct (isChecked box); [|done]. by case_match.
Qed.

Lemma apply_power_save_failures interface box :
  failures (apply_power_save str w interface box) =
  if isEnabled box then
    match check_call w (iw_set_power_save interface (off_on box)) with
    | None => []
    | Some e =>
        if isChecked box then
          match open_write w nm_file_path nm_config_str with
          | None => []
          | Some e2 => [power_save_fallback_failed str interface e2]
          end
        else [power_save_failed str interface e]
    end
  else [].
Proof.
  unfold failures, apply_power_save, power_save_fallback, off_on.
  destruct (isEnabled box); [|done].
  destruct (check_call w _); [|done].
  destruct (isChecked box); [|done]. by case_match.
Qed.

Lemma apply_buffers_attempts interface tier :
  attempts (apply_buffers str w interface tier) =
  CheckCall (sysctl_w "net.core.rmem_max" (pretty (buffer_value tier))) ::
  match check_call w (sysctl_w "net.core.rmem_max" (pretty (buffer_value tier))) with
  | None => [CheckCall (sysctl_w "net.core.wmem_max" (pretty (buffer_value tier)))]
  | Some _ => []
  end.
Proof. unfold attempts, apply_buffers. destruct (check_call w _); [done|]. by case_match. Qed.

Lemma apply_buffers_failures interface tier :
  failures (apply_buffers str w interface tier) =
  match check_call w (sysctl_w "net.core.rmem_max" (pretty (buffer_value tier))) with
  | Some e => [buffers_failed str e]
  | None =>
      match check_call w (sysctl_w "net.core.wmem_max" (pretty (buffer_value tier))) with
      | Some e => [buffers_failed str e]
      | None => []
      end
  end.
Proof. unfold failures, apply_buffers. destruct (check_call w _); [done|]. by case_match. Qed.

Lemma apply_congestion_attempts interface tcp_cc :
  attempts (apply_congestion str w interface tcp_cc) =
  [CheckCall (sysctl_w "net.ipv4.tcp_congestion_control" tcp_cc)].
Proof. unfold attempts, apply_congestion. by case_match. Qed.

Lemma apply_congestion_failures interface tcp_cc :
  failures (apply_congestion str w interface tcp_cc) =
  match check_call w (sysctl_w "net.ipv4.tcp_congestion_control" tcp_cc) with
  | Some e => [congestion_failed str e]
  | None => []
  end.
Proof. unfold failures, apply_congestion. by case_match. Qed.

(** *** The whole operation *)

Lemma print_all_trace msgs r :
  trace (foldl (λ r msg, print msg r) r msgs) = trace r
  ∧ error_messages (foldl (λ r msg, print msg r) r msgs) = error_messages r.
Proof.
  revert r. induction msgs as [|msg msgs IH]; intros r; [done|].
  simpl. destruct (IH (print msg r)) as [-> ->]. done.
Qed.

Lemma feedback_trace a b c r : trace (feedback a b c r) = trace r.
Proof.
  unfold feedback. destruct (error_messages r) as [|m ms]; [done|].
  by rewrite (proj1 (print_all_trace _ _)).
Qed.

Lemma feedback_errors a b c r :
  error_messages (feedback a b c r) = error_messages r.
Proof.
  unfold feedback. destruct (error_messages r) as [|m ms] eqn:E; [done|].
  by rewrite (proj2 (print_all_trace _ _)).
Qed.

Lemma apply_steps_trace interface s r :
  trace (apply_steps str w interface s r) =
  trace r ++
  attempts (apply_offload str w interface "tso" "TSO" (tsoCheckBox s)) ++
  attempts (apply_offload str w interface "gso" "GSO" (gsoCheckBox s)) ++
  attempts (apply_offload str w interface "gro" "GRO" (groCheckBox s)) ++
  attempts (apply_power_save str w interface (powerSaveCheckBox s)) ++
  attempts (apply_buffers str w interface (bufferSlider s)) ++
  attempts (apply_congestion str w interface (currentText s)).
Proof.
  unfold apply_steps.
  rewrite (appends_trace (f := apply_congestion _ _ _ _)).
  rewrite (appends_trace (f := apply_buffers _ _ _ _)).
  rewrite (appends_trace (f := apply_power_save _ _ _ _)).
  rewrite !(appends_trace (f := apply_offload _ _ _ _ _ _)).
  by rewrite <- !app_assoc.
Qed.

Lemma apply_steps_errors interface s r :
  error_messages (apply_steps str w interface s r) =
  failures (apply_offload str w interface "tso" "TSO" (tsoCheckBox s)) ++
  failures (apply_offload str w interface "gso" "GSO" (gsoCheckBox s)) ++
  failures (apply_offload str w interface "gro" "GRO" (groCheckBox s)) ++
  failures (apply_power_save str w interface (powerSaveCheckBox s)) ++
  failures (apply_buffers str w interface (bufferSlider s)) ++
  failures (apply_congestion str w interface (currentText s)).
Proof.
  unfold apply_steps.
  rewrite (appends_errors (f := apply_congestion _ _ _ _)).
  rewrite (appends_errors (f := apply_buffers _ _ _ _)).
  rewrite (appends_errors (f := apply_power_save _ _ _ _)).
  rewrite !(appends_errors (f := apply_offload _ _ _ _ _ _)).
  by rewrite <- !app_assoc.
Qed.

End Steps.

(** *** Apply: the partial-failure contract *)

Lemma apply_settings_attempts str w s interface :
  selected_interface s = Some interface →
  attempts (apply_settings str w s) =
  [ CheckCall (ethtool_K interface "tso" (off_on (tsoCheckBox s)));
    CheckCall (ethtool_K interface "gso" (off_on (gsoCheckBox s)));
    CheckCall (ethtool_K interface "gro" (off_on (groCheckBox s))) ] ++
  attempts (apply_power_save str w interface (powerSaveCheckBox s)) ++
  attempts (apply_buffers str w interface (bufferSlider s)) ++
  [ CheckCall (sysctl_w "net.ipv4.tcp_congestion_control" (currentText s)) ].
Proof.
  intros Hsel. unfold attempts at 1, apply_settings. rewrite Hsel.
  rewrite feedback_trace, apply_steps_trace.
  by rewrite !apply_offload_attempts, apply_congestion_attempts.
Qed.

Lemma apply_settings_failures str w s interface :
  selected_interface s = Some interface →
  failures (apply_settings str w s) =
  failures (apply_offload str w interface "tso" "TSO" (tsoCheckBox s)) ++
  failures (apply_offload str w interface "gso" "GSO" (gsoCheckBox s)) ++
  failures (apply_offload str w interface "gro" "GRO" (groCheckBox s)) ++
  failures (apply_power_save str w interface (powerSaveCheckBox s)) ++
  failures (apply_buffers str w interface (bufferSlider s)) ++
  failures (apply_congestion str w interface (currentText s)).
Proof.
  intros Hsel. unfold failures at 1, apply_settings. rewrite Hsel.
  by rewrite feedback_errors, apply_steps_errors.
Qed.

Lemma apply_settings_appends str w s r :
  trace (apply_settings str w s r) = trace r ++ attempts (apply_settings str w s)
  ∧ (is_Some (selected_interface s) →
     error_messages (apply_settings str w s r) = failures (apply_settings str w s)).
Proof.
  unfold attempts, failures, apply_settings.
  destruct (selected_interface s) as [interface|].
  - rewrite !feedback_trace, !feedback_errors, !apply_steps_trace, !apply_steps_errors.
    split; [reflexivity | intros _; reflexivity].
  - simpl. split; [by rewrite app_nil_r | by intros [? ?]].
Qed.

Lemma desired_writes_NoDup interface s : NoDup (desired_writes interface s).
Proof.
  unfold desired_writes, ethtool_K, iw_set_power_save, sysctl_w.
  repeat (apply NoDup_cons; split;
          [rewrite ?elem_of_cons, elem_of_nil; intros H; repeat destruct H as [H|H];
           try done; by inversion H |]).
  apply NoDup_nil_2.
Qed.

(** C1. Apply runs its field groups (the TSO, GSO and GRO writes, the
    power-save write, the buffer writes, the congestion-control write) as
    independent steps. Whatever the operating system answers to the writes,
    the first write of every group is attempted; every failed group leaves its
    own message in [error_messages]; and apply attempts nothing but the writes
    of the desired state, in program order and each at most once, so it never
    writes an earlier value back. *)
Theorem apply_steps_are_independent
    (str : exn -> string) (w : world) (s : optimizer) (interface : string) :
  selected_interface s = Some interface →
  let tso := ethtool_K interface "tso" (off_on (tsoCheckBox s)) in
  let gso := ethtool_K interface "gso" (off_on (gsoCheckBox s)) in
  let gro := ethtool_K interface "gro" (off_on (groCheckBox s)) in
  let box := powerSaveCheckBox s in
  let iw := iw_set_power_save interface (off_on box) in
  let value := pretty (buffer_value (bufferSlider s)) in
  let rmem := sysctl_w "net.core.rmem_max" value in
  let wmem := sysctl_w "net.core.wmem_max" value in
  let cc := sysctl_w "net.ipv4.tcp_congestion_control" (currentText s) in
  let tried := attempts (apply_settings str w s) in
  let failed := failures (apply_settings str w s) in
  (CheckCall tso ∈ tried ∧ CheckCall gso ∈ tried ∧ CheckCall gro ∈ tried
   ∧ (isEnabled box = true → CheckCall iw ∈ tried)
   ∧ CheckCall rmem ∈ tried ∧ CheckCall cc ∈ tried)
  ∧ ((∀ e, check_call w tso = Some e → offload_failed str "TSO" interface e ∈ failed)
     ∧ (∀ e, check_call w gso = Some e → offload_failed str "GSO" interface e ∈ failed)
     ∧ (∀ e, check_call w gro = Some e → offload_failed str "GRO" interface e ∈ failed)
     ∧ (∀ e, isEnabled box = true → isChecked box = false →
             check_call w iw = Some e → power_save_failed str interface e ∈ failed)
     ∧ (∀ e e2, isEnabled box = true → isChecked box = true →
                check_call w iw = Some e →
                open_write w nm_file_path nm_config_str = Some e2 →
                power_save_fallback_failed str interface e2 ∈ failed)
     ∧ (∀ e, check_call w rmem = Some e → buffers_failed str e ∈ failed)
     ∧ (∀ e, check_call w rmem = None → check_call w wmem = Some e →
             buffers_failed str e ∈ failed)
     ∧ (∀ e, check_call w cc = Some e → congestion_failed str e ∈ failed))
  ∧ (tried `sublist_of` desired_writes interface s
     ∧ NoDup (desired_writes interface s))
  ∧ (∀ r, trace (apply_settings str w s r) = trace r ++ tried
          ∧ error_messages (apply_settings str w s r) = failed).
Proof.
  intros Hsel tso gso gro box iw value rmem wmem cc tried failed.
  assert (Htried := apply_settings_attempts str w s interface Hsel).
  assert (Hfailed := apply_settings_failures str w s interface Hsel).
  fold tried in Htried. fold failed in Hfailed.
  rewrite apply_power_save_attempts, apply_buffers_attempts in Htried.
  rewrite !apply_offload_failures, apply_power_save_failures,
    apply_buffers_failures, apply_congestion_failures in Hfailed.
  fold tso gso gro box iw value rmem wmem cc in Htried, Hfailed.
  split; [|split; [|split]].
  - rewrite Htried. repeat split; try set_solver.
    intros ->. set_solver.
  - rewrite Hfailed.
    repeat split; intros; repeat match goal with H : _ = _ |- _ => rewrite H end;
      set_solver.
  - split; [|apply desired_writes_NoDup].
    rewrite Htried. unfold desired_writes.
    fold tso gso gro box iw value rmem wmem cc.
    destruct (isEnabled box), (check_call w iw), (isChecked box), (check_call w rmem);
      simpl;
      repeat first [apply sublist_nil | apply sublist_skip | apply sublist_cons].
  - intros r. destruct (apply_settings_appends str w s r) as [Ht He].
    split; [exact Ht|]. apply He. rewrite Hsel. by eexists.
Qed.

Lemma apply_steps_are_independent_witness :
  selected_interface wlan0_tuned = Some "wlan0"
  ∧ check_call failing_writes ["ethtool"; "-K"; "wlan0"; "tso"; "off"]
    = Some (SubprocessError "exit status 1")
  ∧ CheckCall ["sysctl"; "-w"; "net.ipv4.tcp_congestion_control=cubic"]
    ∈ attempts (apply_settings sample_str failing_writes wlan0_tuned).
Proof.
  split; [reflexivity|]. split; [reflexivity|].
  exact (proj2 (proj2 (proj2 (proj2 (proj2 (proj1
    (apply_steps_are_independent sample_str failing_writes wlan0_tuned "wlan0"
       eq_refl))))))).
Defined.

(** *** Apply: the buffer step and the power-save fallback *)

Lemma fallback_reason_is_distinct str interface interface' e e2 :
  power_save_fallback_failed str interface e2 ≠ power_save_failed str interface' e.
Proof.
  unfold power_save_fallback_failed, power_save_failed. intros H.
  by inversion H.
Qed.

(** C5 (as amended). In the buffer step of apply the receive-buffer write is
    always attempted, and the send-buffer write is attempted exactly when the
    receive-buffer write succeeded. A failure of either write is recorded as
    one "buffer sizes" entry that carries the reason of the write that failed,
    that entry reaches the result of apply, and the success line is printed
    only when both writes succeeded. *)
Theorem buffer_writes_share_one_step
    (str : exn -> string) (w : world) (s : optimizer) (interface : string) :
  selected_interface s = Some interface →
  let value := pretty (buffer_value (bufferSlider s)) in
  let rmem := sysctl_w "net.core.rmem_max" value in
  let wmem := sysctl_w "net.core.wmem_max" value in
  let step := apply_buffers str w interface (bufferSlider s) in
  let tried := attempts (apply_settings str w s) in
  CheckCall rmem ∈ tried
  ∧ (CheckCall wmem ∈ tried ↔ check_call w rmem = None)
  ∧ failures step =
      match check_call w rmem, check_call w wmem with
      | Some e, _ => [buffers_failed str e]
      | None, Some e => [buffers_failed str e]
      | None, None => []
      end
  ∧ (∀ msg, msg ∈ failures step → msg ∈ failures (apply_settings str w s))
  ∧ (printed step ≠ [] ↔ check_call w rmem = None ∧ check_call w wmem = None).
Proof.
  intros Hsel value rmem wmem step tried.
  assert (Htried := apply_settings_attempts str w s interface Hsel).
  fold tried in Htried.
  rewrite apply_power_save_attempts, apply_buffers_attempts in Htried.
  fold value rmem wmem in Htried.
  split; [|split; [|split; [|split]]].
  - rewrite Htried. set_solver.
  - rewrite Htried.
    repeat case_match; simpl; set_unfold;
      (split;
       [ intros Hin; repeat destruct Hin as [Hin|Hin]; first [done | by inversion Hin]
       | intros Hin; first [done | tauto] ]).
  - unfold step. rewrite apply_buffers_failures. fold value rmem wmem.
    by destruct (check_call w rmem), (check_call w wmem).
  - intros msg Hmsg. rewrite (apply_settings_failures str w s interface Hsel).
    fold step. set_solver.
  - unfold step, printed, apply_buffers. fold value rmem wmem.
    destruct (check_call w rmem), (check_call w wmem); simpl;
      (split; [intros Hp | intros [? ?]]; first [done | by destruct Hp]).
Qed.

Lemma buffer_writes_share_one_step_witness :
  selected_interface wlan0_tuned = Some "wlan0"
  ∧ (CheckCall ["sysctl"; "-w"; "net.core.wmem_max=2097152"]
       ∈ attempts (apply_settings sample_str failing_writes wlan0_tuned)
     ↔ check_call failing_writes ["sysctl"; "-w"; "net.core.rmem_max=2097152"] = None).
Proof.
  split; [reflexivity|].
  exact (proj1 (proj2
    (buffer_writes_share_one_step sample_str failing_writes wlan0_tuned "wlan0"
       eq_refl))).
Defined.

(** C5 as stated fails: on [failing_writes] the receive-buffer write fails and
    the send-buffer write is then never attempted; the result holds a single
    entry for the two buffers. *)
Lemma send_buffer_write_is_skipped :
  check_call failing_writes ["sysctl"; "-w"; "net.core.rmem_max=2097152"]
    = Some (SubprocessError "exit status 1")
  ∧ (CheckCall ["sysctl"; "-w"; "net.core.wmem_max=2097152"]
       ∉ attempts (apply_settings sample_str failing_writes wlan0_tuned))
  ∧ failures (apply_settings sample_str failing_writes wlan0_tuned)
    = [ "Failed to set TSO for wlan0: exit status 1";
        "Failed to disable power saving for wlan0 (fallback via NM config also failed): Read-only file system";
        "Failed to set buffer sizes: exit status 1" ].
Proof. split; [reflexivity|]. split; [compute_done | reflexivity]. Qed.

(** C7. In apply the config-file fallback is attempted exactly when the
    primary power-save write fails while the box asks to disable power saving,
    and never when it asks to re-enable it. The power-save step records no
    failure, and prints its success line, when the primary write succeeds or
    when the fallback succeeds; a failed fallback is recorded with a reason of
    its own, different from the reason of a failed primary write. *)
Theorem power_save_fallback_only_when_disabling
    (str : exn -> string) (w : world) (s : optimizer) (interface : string) :
  selected_interface s = Some interface →
  let box := powerSaveCheckBox s in
  let iw := iw_set_power_save interface (off_on box) in
  let fallback := OpenWrite nm_file_path nm_config_str in
  let step := apply_power_save str w interface box in
  let tried := attempts (apply_settings str w s) in
  (fallback ∈ tried
   ↔ isEnabled box = true ∧ isChecked box = true ∧ is_Some (check_call w iw))
  ∧ (∀ path content, OpenWrite path content ∈ tried → isChecked box = true)
  ∧ (isEnabled box = true → check_call w iw = None →
     failures step = [] ∧ printed step ≠ [])
  ∧ (isEnabled box = true → isChecked box = true → is_Some (check_call w iw) →
     open_write w nm_file_path nm_config_str = None →
     failures step = [] ∧ printed step ≠ [])
  ∧ (∀ e2, isEnabled box = true → isChecked box = true → is_Some (check_call w iw) →
           open_write w nm_file_path nm_config_str = Some e2 →
           failures step = [power_save_fallback_failed str interface e2]
           ∧ printed step = [])
  ∧ (∀ e, isEnabled box = true → isChecked box = false → check_call w iw = Some e →
          failures step = [power_save_failed str interface e] ∧ printed step = [])
  ∧ (∀ msg, msg ∈ failures step → msg ∈ failures (apply_settings str w s))
  ∧ (∀ e e2, power_save_fallback_failed str interface e2
             ≠ power_save_failed str interface e).
Proof.
  intros Hsel box iw fallback step tried.
  assert (Htried := apply_settings_attempts str w s interface Hsel).
  fold tried in Htried.
  rewrite apply_power_save_attempts, apply_buffers_attempts in Htried.
  fold box iw fallback in Htried.
  repeat lazymatch goal with |- _ ∧ _ => split end.
  - rewrite Htried.
    repeat case_match; simpl; set_unfold;
      (split;
       [ intros Hin; repeat destruct Hin as [Hin|Hin];
         first [done | by inversion Hin | by eauto]
       | intros (? & ? & Hfail); first [done | by destruct Hfail | tauto] ]).
  - intros path content. rewrite Htried.
    repeat case_match; simpl; set_unfold;
      intros Hin; repeat destruct Hin as [Hin|Hin]; first [done | by inversion Hin].
  - intros Hen Hok. unfold step, failures, printed, apply_power_save.
    fold box. rewrite Hen. fold (off_on box). fold iw. rewrite Hok. done.
  - intros Hen Hch [e He] Hw. unfold step, failures, printed, apply_power_save,
      power_save_fallback.
    fold box. rewrite Hen. fold (off_on box). fold iw. rewrite He, Hch, Hw. done.
  - intros e2 Hen Hch [e He] Hw. unfold step, failures, printed, apply_power_save,
      power_save_fallback.
    fold box. rewrite Hen. fold (off_on box). fold iw. rewrite He, Hch, Hw. done.
  - intros e Hen Hch He. unfold step, failures, printed, apply_power_save.
    fold box. rewrite Hen. fold (off_on box). fold iw. rewrite He, Hch. done.
  - intros msg Hmsg. rewrite (apply_settings_failures str w s interface Hsel).
    fold box. fold step. set_solver.
  - intros e e2. apply fallback_reason_is_distinct.
Qed.

Lemma power_save_fallback_only_when_disabling_witness :
  selected_interface wlan0_tuned = Some "wlan0"
  ∧ (OpenWrite nm_file_path nm_config_str
       ∈ attempts (apply_settings sample_str failing_writes wlan0_tuned)
     ↔ isEnabled (powerSaveCheckBox wlan0_tuned) = true
       ∧ isChecked (powerSaveCheckBox wlan0_tuned) = true
       ∧ is_Some (check_call failing_writes
                    ["iw"; "dev"; "wlan0"; "set"; "power_save"; "off"])).
Proof.
  split; [reflexivity|].
  exact (proj1
    (power_save_fallback_only_when_disabling sample_str failing_writes wlan0_tuned
       "wlan0" eq_refl)).
Defined.

(** *** Reset: what each step attempts *)

Section ResetSteps.

Variable str : exn -> string.
Variable w : world.

#[global] Instance reset_offload_appends interface feature NAME defaults :
  Appends (reset_offload str w interface feature NAME defaults).
Proof.
  split; intros r; unfold attempts, failures, printed, reset_offload;
    repeat case_match; simpl; rewrite ?app_nil_r; done.
Qed.

#[global] Instance reset_power_save_appends interface defaults :
  Appends (reset_power_save str w interface defaults).
Proof.
  split; intros r; unfold attempts, failures, printed, reset_power_save;
    repeat case_match; simpl; rewrite ?app_nil_r; done.
Qed.

#[global] Instance reset_buffers_appends g : Appends (reset_buffers str w g).
Proof.
  split; intros r; unfold attempts, failures, printed, reset_buffers;
    repeat case_match; simpl; rewrite ?app_nil_r, <- ?app_assoc; done.
Qed.

#[global] Instance reset_congestion_appends g : Appends (reset_congestion str w g).
Proof.
  split; intros r; unfold attempts, failures, printed, reset_congestion;
    repeat case_match; simpl; rewrite ?app_nil_r; done.
Qed.

Lemma reset_offload_attempts interface feature NAME defaults :
  attempts (reset_offload str w interface feature NAME defaults) =
  [CheckCall (ethtool_K interface feature
                (on_off (truthy (dict_get feature (Some true) defaults))))].
Proof. unfold attempts, reset_offload. by case_match. Qed.

Lemma reset_power_save_attempts interface defaults :
  attempts (reset_power_save str w interface defaults) =
  match dict_get "power_save" None defaults with
  | Some b => [CheckCall (iw_set_power_save interface (on_off b))]
  | None => []
  end.
Proof.
  unfold attempts, reset_power_save.
  destruct (dict_get _ _ _); [|done]. simpl. by case_match.
Qed.

Lemma reset_buffers_attempts g :
  attempts (reset_buffers str w g) =
  CheckCall (sysctl_w "net.core.rmem_max" (format_get "net.core.rmem_max" g)) ::
  match check_call w (sysctl_w "net.core.rmem_max" (format_get "net.core.rmem_max" g)) with
  | None => [CheckCall (sysctl_w "net.core.wmem_max" (format_get "net.core.wmem_max" g))]
  | Some _ => []
  end.
Proof. unfold attempts, reset_buffers. destruct (check_call w _); [done|]. by case_match. Qed.

Lemma reset_congestion_attempts g :
  attempts (reset_congestion str w g) =
  [CheckCall (sysctl_w "net.ipv4.tcp_congestion_control"
                (format_get "net.ipv4.tcp_congestion_control" g))].
Proof. unfold attempts, reset_congestion. by case_match. Qed.

Lemma reset_steps_trace interface s r :
  trace (reset_steps str w interface s r) =
  let defaults := default ∅ (interface_defaults s !! interface) in
  trace r ++
  attempts (reset_offload str w interface "tso" "TSO" defaults) ++
  attempts (reset_offload str w interface "gso" "GSO" defaults) ++
  attempts (reset_offload str w interface "gro" "GRO" defaults) ++
  attempts (reset_power_save str w interface defaults) ++
  attempts (reset_buffers str w (global_defaults s)) ++
  attempts (reset_congestion str w (global_defaults s)).
Proof.
  unfold reset_steps.
  rewrite (appends_trace (f := reset_congestion _ _ _)).
  rewrite (appends_trace (f := reset_buffers _ _ _)).
  rewrite (appends_trace (f := reset_power_save _ _ _ _)).
  rewrite !(appends_trace (f := reset_offload _ _ _ _ _ _)).
  simpl. by rewrite <- !app_assoc.
Qed.

End ResetSteps.

(** *** Snapshot capture: what it reads and what it stores *)

Section Capture.

Variable str : exn -> string.
Variable w : world.

Lemma detect_offload_run interface d r :
  trace (detect_offload str w interface d r).2
    = trace r ++ [CheckOutput ["ethtool"; "-k"; interface]]
  ∧ error_messages (detect_offload str w interface d r).2 = error_messages r.
Proof. unfold detect_offload. by case_match. Qed.

Lemma detect_power_save_run interface d r :
  trace (detect_power_save w interface d r).2
    = trace r ++ [CheckOutput ["iw"; "dev"; interface; "get"; "power_save"]]
  ∧ error_messages (detect_power_save w interface d r).2 = error_messages r.
Proof. unfold detect_power_save. by repeat case_match. Qed.

Lemma capture_interface_cached interface s r snap :
  interface_defaults s !! interface = Some snap →
  capture_interface str w interface s r = (interface_defaults s, r).
Proof. intros H. unfold capture_interface. by rewrite H. Qed.

Lemma capture_interface_fresh interface s r :
  interface_defaults s !! interface = None →
  ∃ snap,
    (capture_interface str w interface s r).1
      = <[interface := snap]> (interface_defaults s)
    ∧ trace (capture_interface str w interface s r).2
      = trace r ++ interface_reads interface
    ∧ error_messages (capture_interface str w interface s r).2 = error_messages r.
Proof.
  intros H. unfold capture_interface. rewrite H.
  destruct (detect_offload str w interface ∅ r) as [d1 r1] eqn:E1.
  destruct (detect_power_save w interface d1 r1) as [d2 r2] eqn:E2.
  exists d2. simpl.
  destruct (detect_offload_run interface ∅ r) as [T1 M1].
  destruct (detect_power_save_run interface d1 r1) as [T2 M2].
  rewrite E1 in T1, M1. rewrite E2 in T2, M2. simpl in *.
  rewrite T2, T1, M2, M1, <- app_assoc. done.
Qed.

Lemma load_buffer_slider_run slider r :
  trace (load_buffer_slider str w slider r).2
    = trace r ++ [CheckOutput ["sysctl"; "-n"; "net.core.rmem_max"]]
  ∧ error_messages (load_buffer_slider str w slider r).2 = error_messages r.
Proof. unfold load_buffer_slider. by repeat case_match. Qed.

Lemma load_tcp_combo_run index r :
  trace (load_tcp_combo str w index r).2
    = trace r ++ [CheckOutput ["sysctl"; "-n"; "net.ipv4.tcp_congestion_control"]]
  ∧ error_messages (load_tcp_combo str w index r).2 = error_messages r.
Proof. unfold load_tcp_combo. by repeat case_match. Qed.

(** The store and the log after [load_interface_settings], in terms of
    what [capture_interface] returned. *)
Lemma load_interface_settings_unfold interface s r :
  let c := capture_interface str w interface s r in
  interface_defaults (load_interface_settings str w interface s r).1 = c.1
  ∧ current_interface (load_interface_settings str w interface s r).1
    = Some interface
  ∧ global_defaults (load_interface_settings str w interface s r).1
    = global_defaults s
  ∧ trace (load_interface_settings str w interface s r).2
    = trace c.2 ++ global_reads
  ∧ error_messages (load_interface_settings str w interface s r).2
    = error_messages c.2.
Proof.
  unfold load_interface_settings.
  destruct (capture_interface str w interface s r) as [idefs r1]. simpl.
  match goal with |- context [load_buffer_slider str w ?v r1] =>
    destruct (load_buffer_slider_run v r1) as [T1 M1];
    destruct (load_buffer_slider str w v r1) as [slider r2] end.
  match goal with |- context [load_tcp_combo str w ?v r2] =>
    destruct (load_tcp_combo_run v r2) as [T2 M2];
    destruct (load_tcp_combo str w v r2) as [index r3] end.
  simpl in *. rewrite T2, T1, M2, M1, <- app_assoc. done.
Qed.

Lemma load_interface_settings_trace interface s r :
  trace (load_interface_settings str w interface s r).2 =
  trace r ++
  match interface_defaults s !! interface with
  | Some _ => []
  | None => interface_reads interface
  end ++ global_reads.
Proof.
  destruct (load_interface_settings_unfold interface s r) as (_ & _ & _ & -> & _).
  destruct (interface_defaults s !! interface) as [snap|] eqn:E.
  - by rewrite (capture_interface_cached _ _ _ _ E).
  - destruct (capture_interface_fresh interface s r E) as (snap & _ & -> & _).
    by rewrite <- app_assoc.
Qed.

Lemma load_interface_settings_keeps interface s r i snap :
  interface_defaults s !! i = Some snap →
  interface_defaults (load_interface_settings str w interface s r).1 !! i
    = Some snap.
Proof.
  intros Hi.
  destruct (load_interface_settings_unfold interface s r) as (-> & _).
  destruct (interface_defaults s !! interface) as [snap'|] eqn:E.
  - by rewrite (capture_interface_cached _ _ _ _ E).
  - destruct (capture_interface_fresh interface s r E) as (d & -> & _).
    rewrite lookup_insert_ne; [done|]. intros ->. congruence.
Qed.

Lemma load_interface_settings_stores interface s r :
  is_Some (interface_defaults (load_interface_settings str w interface s r).1
             !! interface).
Proof.
  destruct (interface_defaults s !! interface) as [snap|] eqn:E.
  - rewrite (load_interface_settings_keeps _ _ _ _ _ E). by eexists.
  - destruct (load_interface_settings_unfold interface s r) as (-> & _).
    destruct (capture_interface_fresh interface s r E) as (d & -> & _).
    rewrite lookup_insert_eq. by eexists.
Qed.

Lemma load_interface_settings_fresh_other interface s r i :
  i ≠ interface →
  interface_defaults (load_interface_settings str w interface s r).1 !! i
    = interface_defaults s !! i.
Proof.
  intros Hne.
  destruct (load_interface_settings_unfold interface s r) as (-> & _).
  destruct (interface_defaults s !! interface) as [snap'|] eqn:E.
  - by rewrite (capture_interface_cached _ _ _ _ E).
  - destruct (capture_interface_fresh interface s r E) as (d & -> & _).
    by rewrite lookup_insert_ne.
Qed.

End Capture.

(** *** Reset: the whole operation *)

Lemma reset_run_trace str w s interface r :
  selected_interface s = Some interface →
  let defaults := default ∅ (interface_defaults s !! interface) in
  ∃ reads,
    Forall (λ ev, is_read ev = true) reads
    ∧ trace (reset_run str w s r) =
      trace r ++
      [ CheckCall (ethtool_K interface "tso"
                     (on_off (truthy (dict_get "tso" (Some true) defaults))));
        CheckCall (ethtool_K interface "gso"
                     (on_off (truthy (dict_get "gso" (Some true) defaults))));
        CheckCall (ethtool_K interface "gro"
                     (on_off (truthy (dict_get "gro" (Some true) defaults)))) ] ++
      attempts (reset_power_save str w interface defaults) ++
      attempts (reset_buffers str w (global_defaults s)) ++
      attempts (reset_congestion str w (global_defaults s)) ++ reads.
Proof.
  intros Hsel defaults. unfold reset_run, reset_to_defaults. rewrite Hsel.
  destruct (error_messages (reset_steps str w interface s r)).
  - exists (match interface_defaults s !! interface with
            | Some _ => []
            | None => interface_reads interface
            end ++ global_reads).
    split.
    + case_match; repeat constructor.
    + rewrite load_interface_settings_trace, feedback_trace, reset_steps_trace.
      cbv zeta. rewrite !reset_offload_attempts. fold defaults.
      repeat first [rewrite <- app_assoc | progress simpl]. done.
  - exists []. split; [constructor|]. simpl.
    rewrite feedback_trace, reset_steps_trace. cbv zeta.
    rewrite !reset_offload_attempts. fold defaults.
    repeat first [rewrite <- app_assoc | progress simpl]. by rewrite app_nil_r.
Qed.

Lemma derived_state_selected interface s :
  selected_interface (derived_state interface s) = selected_interface s.
Proof. done. Qed.

Lemma derived_offload_value interface s :
  let defaults := default ∅ (interface_defaults s !! interface) in
  off_on (tsoCheckBox (derived_state interface s))
    = on_off (truthy (dict_get "tso" (Some true) defaults))
  ∧ off_on (gsoCheckBox (derived_state interface s))
    = on_off (truthy (dict_get "gso" (Some true) defaults))
  ∧ off_on (groCheckBox (derived_state interface s))
    = on_off (truthy (dict_get "gro" (Some true) defaults)).
Proof.
  unfold derived_state, show_interface_defaults, off_on, setChecked. simpl.
  repeat split; by destruct (truthy _).
Qed.

Lemma derived_power_save_attempts str w interface s :
  attempts (apply_power_save str w interface
              (powerSaveCheckBox (derived_state interface s))) =
  match dict_get "power_save" None (default ∅ (interface_defaults s !! interface)) with
  | Some b =>
      CheckCall (iw_set_power_save interface (on_off b)) ::
      match check_call w (iw_set_power_save interface (on_off b)) with
      | Some _ => if b then [] else [OpenWrite nm_file_path nm_config_str]
      | None => []
      end
  | None => []
  end.
Proof.
  rewrite apply_power_save_attempts.
  unfold derived_state, show_interface_defaults, off_on, setChecked, setEnabled.
  cbn [powerSaveCheckBox].
  destruct (dict_get "power_save" None _) as [[|]|]; cbn [isEnabled isChecked truthy negb on_off];
    [done| |done].
  by destruct (check_call w _).
Qed.

Lemma filter_reads (P : event → bool) reads :
  Forall (λ ev, is_read ev = true) reads →
  (∀ ev, is_read ev = true → P ev = false) →
  List.filter P reads = [].
Proof.
  intros Hreads HP. induction Hreads as [|ev reads Hev _ IH]; [done|].
  simpl. by rewrite (HP ev Hev).
Qed.

Lemma filter_kernel_writes (P : event → bool) str w tier interface g :
  (∀ key value, P (CheckCall (sysctl_w key value)) = false) →
  List.filter P (attempts (apply_buffers str w interface tier)) = []
  ∧ List.filter P (attempts (reset_buffers str w g)) = []
  ∧ List.filter P (attempts (reset_congestion str w g)) = []
  ∧ ∀ tcp_cc, List.filter P (attempts (apply_congestion str w interface tcp_cc)) = [].
Proof.
  intros HP.
  rewrite apply_buffers_attempts, reset_buffers_attempts, reset_congestion_attempts.
  repeat split; intros; rewrite ?apply_congestion_attempts;
    repeat case_match; cbn [List.filter]; by rewrite !HP.
Qed.

(** C2 (as amended). For every interface snapshot, reset issues exactly the
    primary writes that apply issues for the desired state derived from that
    snapshot: on or off per offload flag, and the radio's power-save write
    only if applicable. Reset has no fallback: it never writes the config
    file, so its interface writes are those of apply with the fallback left
    out, and they are the same as apply's whenever apply needs no fallback. *)
Theorem reset_repeats_primary_writes
    (str : exn -> string) (w : world) (s : optimizer) (interface : string) :
  selected_interface s = Some interface →
  let derived := derived_state interface s in
  let by_reset := attempts (reset_run str w s) in
  let by_apply := attempts (apply_settings str w derived) in
  List.filter is_interface_write by_reset
  = List.filter (λ ev, is_interface_write ev && negb (is_fallback ev)) by_apply
  ∧ (∀ path content, OpenWrite path content ∉ by_reset)
  ∧ (OpenWrite nm_file_path nm_config_str ∉ by_apply →
     List.filter is_interface_write by_reset
     = List.filter is_interface_write by_apply).
Proof.
  intros Hsel derived by_reset by_apply.
  destruct (reset_run_trace str w s interface run0 Hsel) as (reads & Hreads & Hreset).
  fold (attempts (reset_run str w s)) in Hreset. fold by_reset in Hreset.
  cbv zeta in Hreset. cbn [trace run0 app] in Hreset.
  assert (Happly : by_apply = _) by exact (apply_settings_attempts str w derived interface Hsel).
  destruct (derived_offload_value interface s) as (Htso & Hgso & Hgro).
  fold derived in Htso, Hgso, Hgro. cbv zeta in Htso, Hgso, Hgro.
  rewrite Htso, Hgso, Hgro in Happly. clear Htso Hgso Hgro.
  unfold derived in Happly at 1. rewrite derived_power_save_attempts in Happly.
  rewrite reset_power_save_attempts in Hreset.
  set (defaults := default ∅ (interface_defaults s !! interface)) in *.
  set (tso := CheckCall (ethtool_K interface "tso" _)) in *.
  set (gso := CheckCall (ethtool_K interface "gso" _)) in *.
  set (gro := CheckCall (ethtool_K interface "gro" _)) in *.
  assert (Hw : is_interface_write tso = true ∧ is_interface_write gso = true
               ∧ is_interface_write gro = true) by done.
  assert (Hf : is_fallback tso = false ∧ is_fallback gso = false
               ∧ is_fallback gro = false) by done.
  destruct Hw as (Hw1 & Hw2 & Hw3), Hf as (Hf1 & Hf2 & Hf3).
  destruct (filter_kernel_writes is_interface_write str w (bufferSlider derived)
              interface (global_defaults s)) as (Ka & Kb & Kc & Kd); [done|].
  destruct (filter_kernel_writes (λ ev, is_interface_write ev && negb (is_fallback ev))
              str w (bufferSlider derived) interface (global_defaults s))
    as (Ka' & _ & _ & Kd'); [done|].
  assert (Hr1 : List.filter is_interface_write reads = []).
  { apply filter_reads; [done|]. by intros []. }
  assert (Hnofile : ∀ path content, OpenWrite path content ∉ reads).
  { intros path content Hin. rewrite Forall_forall in Hreads.
    by apply Hreads in Hin. }
  split; [|split].
  - rewrite Hreset, Happly. cbn [app List.filter].
    rewrite Hw1, Hw2, Hw3, Hf1, Hf2, Hf3. cbn [andb negb].
    rewrite !List.filter_app, Ka', Kb, Kc, Hr1.
    do 3 f_equal.
    destruct (dict_get "power_save" None defaults) as [b|]; [|reflexivity].
    destruct (check_call w _); [destruct b|]; reflexivity.
  - intros path content Hin.
    assert (Hall : Forall (λ ev, is_fallback ev = false) by_reset).
    { rewrite Hreset, reset_buffers_attempts, reset_congestion_attempts.
      destruct (dict_get "power_save" None defaults) as [b|];
        destruct (check_call w (sysctl_w "net.core.rmem_max" _));
        cbn [app]; repeat (apply Forall_cons_2; [reflexivity|]);
        (eapply Forall_impl; [exact Hreads|]); by intros []. }
    rewrite Forall_forall in Hall. by apply Hall in Hin.
  - intros Hnot. rewrite Hreset, Happly. cbn [app List.filter].
    rewrite Hw1, Hw2, Hw3.
    rewrite !List.filter_app, Ka, Kb, Kc, Hr1.
    do 3 f_equal.
    destruct (dict_get "power_save" None defaults) as [b|] eqn:Hps; [|reflexivity].
    destruct (check_call w (iw_set_power_save interface (on_off b))) eqn:Hiw;
      [destruct b|]; try reflexivity.
    exfalso. apply Hnot. rewrite Happly. set_solver.
Qed.

Lemma reset_repeats_primary_writes_witness :
  selected_interface wlan0_found_off = Some "wlan0"
  ∧ List.filter is_interface_write
      (attempts (reset_run sample_str radio_refuses wlan0_found_off))
    = List.filter (λ ev, is_interface_write ev && negb (is_fallback ev))
        (attempts (apply_settings sample_str radio_refuses
                     (derived_state "wlan0" wlan0_found_off))).
Proof.
  split; [reflexivity|].
  exact (proj1
    (reset_repeats_primary_writes sample_str radio_refuses wlan0_found_off "wlan0"
       eq_refl)).
Defined.

(** C2 as stated fails: wlan0 was found with power saving off, so the derived
    value is "off"; when the radio refuses that write, apply goes on to write
    the config file and reset does not. *)
Lemma reset_has_no_fallback :
  dict_get "power_save" None
    (default ∅ (interface_defaults wlan0_found_off !! "wlan0")) = Some false
  ∧ derived_state "wlan0" wlan0_found_off = wlan0_found_off
  ∧ check_call radio_refuses ["iw"; "dev"; "wlan0"; "set"; "power_save"; "off"]
    = Some (SubprocessError "exit status 1")
  ∧ OpenWrite nm_file_path nm_config_str
      ∈ attempts (apply_settings sample_str radio_refuses
                    (derived_state "wlan0" wlan0_found_off))
  ∧ (OpenWrite nm_file_path nm_config_str
       ∉ attempts (reset_run sample_str radio_refuses wlan0_found_off))
  ∧ failures (reset_run sample_str radio_refuses wlan0_found_off)
    = ["Failed to reset power saving for wlan0: exit status 1"].
Proof.
  split; [reflexivity|]. split; [reflexivity|]. split; [reflexivity|].
  split; [compute_done|]. split; [compute_done|reflexivity].
Qed.

(** Membership in a list that is written out with [::] and [++]. *)
Ltac elem_of_list :=
  first [ apply list_elem_of_here
        | apply list_elem_of_further; elem_of_list
        | apply elem_of_app; left; elem_of_list
        | apply elem_of_app; right; elem_of_list ].

(** C3. Reset does not skip a global field that was never captured. On
    [wmem_unreadable] the three global reads do not complete, so the global
    snapshot stays empty; reset then formats each missing value as the text
    None and, whatever the operating system answers, attempts to write it to
    [rmem_max] and to the congestion-control parameter, and to [wmem_max]
    whenever the first of these writes is accepted. *)
Theorem reset_writes_uncaptured_globals :
  global_defaults eth0_without_globals = ∅
  ∧ selected_interface eth0_without_globals = Some "eth0"
  ∧ (∀ w : world,
       let tried := attempts (reset_run sample_str w eth0_without_globals) in
       CheckCall ["sysctl"; "-w"; "net.core.rmem_max=None"] ∈ tried
       ∧ CheckCall ["sysctl"; "-w"; "net.ipv4.tcp_congestion_control=None"] ∈ tried
       ∧ (check_call w ["sysctl"; "-w"; "net.core.rmem_max=None"] = None →
          CheckCall ["sysctl"; "-w"; "net.core.wmem_max=None"] ∈ tried))
  ∧ attempts (reset_run sample_str wmem_unreadable eth0_without_globals)
    = [ CheckCall ["ethtool"; "-K"; "eth0"; "tso"; "on"];
        CheckCall ["ethtool"; "-K"; "eth0"; "gso"; "off"];
        CheckCall ["ethtool"; "-K"; "eth0"; "gro"; "on"];
        CheckCall ["sysctl"; "-w"; "net.core.rmem_max=None"];
        CheckCall ["sysctl"; "-w"; "net.core.wmem_max=None"];
        CheckCall ["sysctl"; "-w"; "net.ipv4.tcp_congestion_control=None"];
        CheckOutput ["sysctl"; "-n"; "net.core.rmem_max"];
        CheckOutput ["sysctl"; "-n"; "net.ipv4.tcp_congestion_control"] ].
Proof.
  split; [reflexivity|]. split; [reflexivity|]. split; [|reflexivity].
  intros w tried.
  destruct (reset_run_trace sample_str w eth0_without_globals "eth0" run0 eq_refl)
    as (reads & _ & Htrace).
  fold (attempts (reset_run sample_str w eth0_without_globals)) in Htrace.
  fold tried in Htrace. cbv zeta in Htrace.
  rewrite reset_buffers_attempts, reset_congestion_attempts in Htrace.
  change (global_defaults eth0_without_globals) with (∅ : gmap string string) in Htrace.
  change (format_get _ ∅) with "None" in Htrace.
  change (sysctl_w "net.core.rmem_max" "None")
    with ["sysctl"; "-w"; "net.core.rmem_max=None"] in Htrace.
  change (sysctl_w "net.core.wmem_max" "None")
    with ["sysctl"; "-w"; "net.core.wmem_max=None"] in Htrace.
  change (sysctl_w "net.ipv4.tcp_congestion_control" "None")
    with ["sysctl"; "-w"; "net.ipv4.tcp_congestion_control=None"] in Htrace.
  rewrite Htrace. split; [elem_of_list|]. split; [elem_of_list|].
  intros ->. elem_of_list.
Qed.

(** C10. In reset, an offload flag that is absent from the snapshot of the
    selected interface, also because the interface has no snapshot at all, is
    treated as enabled: the write that turns it on is attempted, nothing is
    skipped, and the step records a failure only if that write itself fails. *)
Theorem reset_turns_undetected_offload_on
    (str : exn -> string) (w : world) (s : optimizer)
    (interface feature NAME : string) :
  selected_interface s = Some interface →
  (feature, NAME) ∈ [("tso", "TSO"); ("gso", "GSO"); ("gro", "GRO")] →
  default ∅ (interface_defaults s !! interface) !! feature = None →
  let defaults := default ∅ (interface_defaults s !! interface) in
  let step := reset_offload str w interface feature NAME defaults in
  let turn_on := ethtool_K interface feature "on" in
  CheckCall turn_on ∈ attempts (reset_run str w s)
  ∧ attempts step = [CheckCall turn_on]
  ∧ (check_call w turn_on = None → failures step = [] ∧ printed step ≠ [])
  ∧ (∀ e, check_call w turn_on = Some e →
          failures step
          = ["Failed to reset " +:+ NAME +:+ " for " +:+ interface +:+ ": " +:+ str e]).
Proof.
  intros Hsel Hfeature Habsent defaults step turn_on.
  assert (Hon : on_off (truthy (dict_get feature (Some true) defaults)) = "on").
  { unfold dict_get. fold defaults in Habsent. by rewrite Habsent. }
  split; [|split; [|split]].
  - destruct (reset_run_trace str w s interface run0 Hsel) as (reads & _ & Htrace).
    fold (attempts (reset_run str w s)) in Htrace. cbv zeta in Htrace.
    fold defaults in Htrace. rewrite Htrace.
    rewrite !elem_of_cons, elem_of_nil in Hfeature.
    destruct Hfeature as [Hf|[Hf|[Hf|[]]]]; inversion Hf; subst;
      unfold turn_on; rewrite <- Hon; elem_of_list.
  - unfold step. rewrite reset_offload_attempts. by rewrite Hon.
  - intros Hok. unfold step, failures, printed, reset_offload.
    rewrite Hon. fold turn_on. by rewrite Hok.
  - intros e He. unfold step, failures, reset_offload.
    rewrite Hon. fold turn_on. by rewrite He.
Qed.

Lemma reset_turns_undetected_offload_on_witness :
  selected_interface eth0_undetected = Some "eth0"
  ∧ ("gro", "GRO") ∈ [("tso", "TSO"); ("gso", "GSO"); ("gro", "GRO")]
  ∧ default ∅ (interface_defaults eth0_undetected !! "eth0") !! "gro" = None
  ∧ CheckCall ["ethtool"; "-K"; "eth0"; "gro"; "on"]
      ∈ attempts (reset_run sample_str silent_ethtool eth0_undetected).
Proof.
  assert (Hin : ("gro", "GRO") ∈ [("tso", "TSO"); ("gso", "GSO"); ("gro", "GRO")])
    by elem_of_list.
  split; [reflexivity|]. split; [exact Hin|]. split; [reflexivity|].
  exact (proj1
    (reset_turns_undetected_offload_on sample_str silent_ethtool eth0_undetected
       "eth0" "gro" "GRO" eq_refl Hin eq_refl)).
Defined.

(** *** Snapshot capture: the fail-safe default *)

(** C8. If the offload-flag read fails while the snapshot of an interface is
    captured, the stored snapshot holds [True] for tso, gso and gro, never
    [None] and never a missing key, and the warning about the failed read is
    shown. The capture does not abort: it goes on to the power-save read,
    stores the snapshot, and leaves the three "disable" boxes unchecked. *)
Theorem offload_read_failure_is_fail_safe
    (str : exn -> string) (w : world) (interface : string) (s : optimizer)
    (r : run) (e : exn) :
  interface_defaults s !! interface = None →
  check_output w ["ethtool"; "-k"; interface] = inl e →
  let s' := (load_interface_settings str w interface s r).1 in
  let r' := (load_interface_settings str w interface s r).2 in
  (∃ snap,
     interface_defaults s' !! interface = Some snap
     ∧ snap !! "tso" = Some (Some true)
     ∧ snap !! "gso" = Some (Some true)
     ∧ snap !! "gro" = Some (Some true)
     ∧ is_Some (snap !! "power_save"))
  ∧ offload_warning str interface e ∈ dialogs r'
  ∧ CheckOutput ["iw"; "dev"; interface; "get"; "power_save"] ∈ trace r'
  ∧ current_interface s' = Some interface
  ∧ isChecked (tsoCheckBox s') = false
  ∧ isChecked (gsoCheckBox s') = false
  ∧ isChecked (groCheckBox s') = false.
Proof.
  intros Hfresh Hfail s' r'. subst s' r'.
  unfold load_interface_settings, capture_interface. rewrite Hfresh.
  unfold detect_offload. rewrite Hfail.
  unfold detect_power_save, load_buffer_slider, load_tcp_combo.
  repeat case_match; simplify_eq; cbn [fst snd];
    (split; [eexists; split; [apply lookup_insert_eq|]; by simplify_map_eq|]);
    cbn; rewrite ?lookup_insert_eq; cbn;
    (split; [elem_of_list|]); (split; [elem_of_list|]); done.
Qed.

Lemma offload_read_failure_is_fail_safe_witness :
  interface_defaults initial !! "eth0" = None
  ∧ check_output no_ethtool ["ethtool"; "-k"; "eth0"]
    = inl (SubprocessError "exit status 1")
  ∧ ∃ snap,
      interface_defaults (load_interface_settings sample_str no_ethtool "eth0"
                            initial run0).1 !! "eth0" = Some snap
      ∧ snap !! "tso" = Some (Some true)
      ∧ snap !! "gso" = Some (Some true)
      ∧ snap !! "gro" = Some (Some true)
      ∧ is_Some (snap !! "power_save").
Proof.
  split; [reflexivity|]. split; [reflexivity|].
  exact (proj1
    (offload_read_failure_is_fail_safe sample_str no_ethtool "eth0" initial run0
       (SubprocessError "exit status 1") eq_refl eq_refl)).
Defined.

(** *** Interface switch and the interface-independent fields *)

Lemma load_interface_settings_widgets str w interface s r :
  bufferSlider (load_interface_settings str w interface s r).1 =
    match check_output w ["sysctl"; "-n"; "net.core.rmem_max"] with
    | inr output =>
        match slider_value (PyStr.strip output) with
        | inr v => slider_bound v
        | inl _ => bufferSlider s
        end
    | inl _ => bufferSlider s
    end
  ∧ tcpComboBox (load_interface_settings str w interface s r).1 =
    match check_output w ["sysctl"; "-n"; "net.ipv4.tcp_congestion_control"] with
    | inr output => default (tcpComboBox s) (findText (PyStr.strip output))
    | inl _ => tcpComboBox s
    end.
Proof.
  unfold load_interface_settings.
  destruct (capture_interface str w interface s r) as [idefs r1].
  unfold load_buffer_slider, load_tcp_combo. cbn [bufferSlider tcpComboBox
    show_interface_defaults set_interface].
  by repeat case_match; simplify_eq.
Qed.

Lemma slider_value_range rmem v : slider_value rmem = inr v → (1 ≤ v ≤ 8)%Z.
Proof.
  unfold slider_value. repeat case_match; intros; simplify_eq. lia.
Qed.

Lemma slider_bound_range v : (1 ≤ slider_bound v ≤ 8)%Z.
Proof. unfold slider_bound. lia. Qed.

Lemma slider_bound_id v : (1 ≤ v ≤ 8)%Z → slider_bound v = v.
Proof. unfold slider_bound. lia. Qed.

(** The rounding of [slider_value] is the spec's nearest tier. *)
Lemma round_half_even_nearest n : nearest_tier n (round_half_even n 524288).
Proof.
  unfold nearest_tier, round_half_even. cbv zeta.
  pose proof (Z.div_mod n 524288 ltac:(lia)) as Hn.
  pose proof (Z.mod_pos_bound n 524288 ltac:(lia)) as Hr.
  set (q := (n `div` 524288)%Z) in *. set (m := (n `mod` 524288)%Z) in *.
  repeat case_bool_decide.
  - split; [lia|]. intros Htie. lia.
  - split; [lia|]. intros Htie. lia.
  - destruct (Z.even q) eqn:He.
    + split; [lia|done].
    + split; [lia|]. intros _. rewrite Z.even_add, He. done.
Qed.

Lemma nearest_tier_unique n q :
  nearest_tier n q → q = round_half_even n 524288.
Proof.
  unfold nearest_tier, round_half_even. cbv zeta.
  pose proof (Z.div_mod n 524288 ltac:(lia)) as Hn.
  pose proof (Z.mod_pos_bound n 524288 ltac:(lia)) as Hr.
  set (q0 := (n `div` 524288)%Z) in *. set (m := (n `mod` 524288)%Z) in *.
  intros [Hd He].
  assert (Hq : q = q0 ∨ q = (q0 + 1)%Z) by lia.
  repeat case_bool_decide.
  - lia.
  - lia.
  - assert (Htie : (Z.abs (2 * n - q * 1048576) = 524288)%Z) by lia.
    specialize (He Htie).
    destruct Hq as [->| ->].
    + by rewrite He.
    + rewrite Z.even_add in He. destruct (Z.even q0); [done|done].
Qed.

Lemma slider_value_nearest rmem n :
  PyStr.int rmem = Some n → (Z.abs n < float_limit)%Z →
  ∃ q, nearest_tier n q
       ∧ (∀ q', nearest_tier n q' → q' = q)
       ∧ slider_value rmem = inr (Z.max 1 (Z.min 8 q)).
Proof.
  intros Hn Hlim. exists (round_half_even n 524288).
  split; [apply round_half_even_nearest|]. split.
  - intros q' Hq'. by apply nearest_tier_unique.
  - unfold slider_value. rewrite Hn. by rewrite bool_decide_eq_false_2 by lia.
Qed.

Lemma slider_value_unreadable rmem :
  (PyStr.int rmem = None
   ∨ ∃ n, PyStr.int rmem = Some n ∧ (float_limit ≤ Z.abs n)%Z) →
  ∃ e, slider_value rmem = inl e.
Proof.
  unfold slider_value. intros [->|(n & -> & Hn)]; [by eexists|].
  rewrite bool_decide_eq_true_2 by done. by eexists.
Qed.

Lemma slider_value_clamps rmem n :
  PyStr.int rmem = Some n → (Z.abs n < float_limit)%Z →
  (slider_value rmem = inr 8%Z ↔ (3932160 ≤ n)%Z)
  ∧ (slider_value rmem = inr 1%Z ↔ (n < 786432)%Z).
Proof.
  intros Hn Hlim.
  destruct (slider_value_nearest rmem n Hn Hlim) as (q & [Hd He] & _ & ->).
  assert (H7 : q = 7%Z → (Z.abs (2 * n - q * 1048576) ≠ 524288)%Z).
  { intros -> Htie. by specialize (He Htie). }
  assert (H1 : q = 1%Z → (Z.abs (2 * n - q * 1048576) ≠ 524288)%Z).
  { intros -> Htie. by specialize (He Htie). }
  split; split.
  - intros [= Hv]. lia.
  - intros Hge. f_equal. lia.
  - intros [= Hv]. lia.
  - intros Hlt. f_equal. lia.
Qed.

Lemma findText_spec text :
  (text ∈ tcp_items →
   ∃ i, findText text = Some i ∧ tcp_items !! i = Some text)
  ∧ (text ∉ tcp_items → findText text = None).
Proof.
  unfold findText. split.
  - intros Hin.
    destruct (list_find (λ item, item = text) tcp_items) as [[i x]|] eqn:E.
    + apply list_find_Some in E as (Hl & -> & _). by exists i.
    + apply list_find_None in E. rewrite Forall_forall in E.
      by destruct (E text Hin).
  - intros Hnot.
    destruct (list_find (λ item, item = text) tcp_items) as [[i x]|] eqn:E;
      [|done].
    apply list_find_Some in E as (Hl & -> & _).
    destruct Hnot. by eapply list_elem_of_lookup_2.
Qed.

(** C4 (as amended). Selecting interface B after interface A reloads the two
    interface-independent fields from the kernel's current settings. The
    buffer tier becomes the tier of the current [rmem_max]: the number of
    half MiB nearest to the byte count, a tie going to the even neighbour,
    bounded to 1..8. It stays as it was only when that read fails, when its
    text is no integer, or when the integer is too large for a float. The
    congestion algorithm becomes the kernel's current one when the box
    offers it, and stays as it was only when that read fails or names an
    algorithm the box does not offer. Neither result depends on which
    interfaces A and B are. *)
Theorem interface_change_reloads_global_fields
    (str : exn -> string) (wA w : world) (A B : string) (s : optimizer) (r : run) :
  let at_A := on_interface_change str wA A s r in
  let at_B := on_interface_change str w B at_A.1 at_A.2 in
  let rmem := check_output w ["sysctl"; "-n"; "net.core.rmem_max"] in
  let tcp_cc := check_output w ["sysctl"; "-n"; "net.ipv4.tcp_congestion_control"] in
  bufferSlider at_B.1 =
    match rmem with
    | inr output =>
        match slider_value (PyStr.strip output) with
        | inr v => v
        | inl _ => bufferSlider at_A.1
        end
    | inl _ => bufferSlider at_A.1
    end
  ∧ tcpComboBox at_B.1 =
    match tcp_cc with
    | inr output => default (tcpComboBox at_A.1) (findText (PyStr.strip output))
    | inl _ => tcpComboBox at_A.1
    end
  ∧ (∀ output n,
       rmem = inr output → PyStr.int (PyStr.strip output) = Some n →
       (Z.abs n < float_limit)%Z →
       ∃ q, nearest_tier n q
            ∧ (∀ q', nearest_tier n q' → q' = q)
            ∧ bufferSlider at_B.1 = Z.max 1 (Z.min 8 q))
  ∧ ((∃ e, rmem = inl e)
     ∨ (∃ output, rmem = inr output
                  ∧ (PyStr.int (PyStr.strip output) = None
                     ∨ ∃ n, PyStr.int (PyStr.strip output) = Some n
                            ∧ (float_limit ≤ Z.abs n)%Z)) →
     bufferSlider at_B.1 = bufferSlider at_A.1)
  ∧ (∀ output, tcp_cc = inr output →
       (PyStr.strip output ∈ tcp_items → currentText at_B.1 = PyStr.strip output)
       ∧ (PyStr.strip output ∉ tcp_items → tcpComboBox at_B.1 = tcpComboBox at_A.1))
  ∧ (∀ e, tcp_cc = inl e → tcpComboBox at_B.1 = tcpComboBox at_A.1)
  ∧ (∀ A' B',
       let at_A' := on_interface_change str wA A' s r in
       bufferSlider (on_interface_change str w B' at_A'.1 at_A'.2).1
       = bufferSlider at_B.1
       ∧ tcpComboBox (on_interface_change str w B' at_A'.1 at_A'.2).1
         = tcpComboBox at_B.1).
Proof.
  intros at_A at_B rmem tcp_cc. unfold at_B, on_interface_change.
  destruct (load_interface_settings_widgets str w B at_A.1 at_A.2) as [Hs Hc].
  fold rmem in Hs. fold tcp_cc in Hc.
  assert (Htier : bufferSlider (load_interface_settings str w B at_A.1 at_A.2).1 =
    match rmem with
    | inr output =>
        match slider_value (PyStr.strip output) with
        | inr v => v
        | inl _ => bufferSlider at_A.1
        end
    | inl _ => bufferSlider at_A.1
    end).
  { rewrite Hs. destruct rmem as [|output]; [done|].
    destruct (slider_value _) as [|v] eqn:Hv; [done|].
    apply slider_bound_id. by eapply slider_value_range. }
  split; [exact Htier|]. split; [exact Hc|].
  split; [|split; [|split; [|split; [|]]]].
  - intros output n Hr Hn Hlim. rewrite Htier, Hr.
    destruct (slider_value_nearest _ n Hn Hlim) as (q & Hq & Hu & ->).
    by exists q.
  - rewrite Htier. intros [[e ->]|(output & -> & Hbad)]; [done|].
    by destruct (slider_value_unreadable _ Hbad) as [e ->].
  - intros output Ho.
    destruct (findText_spec (PyStr.strip output)) as [Hin Hnot]. split.
    + intros H. unfold currentText. rewrite Hc, Ho.
      destruct (Hin H) as (i & -> & Hi).
      change (default (tcpComboBox at_A.1) (Some i)) with i. by rewrite Hi.
    + intros H. by rewrite Hc, Ho, (Hnot H).
  - intros e He. by rewrite Hc, He.
  - intros A' B'. set (at_A' := load_interface_settings str wA A' s r).
    destruct (load_interface_settings_widgets str w B' at_A'.1 at_A'.2)
      as [Hs' Hc'].
    fold rmem in Hs'. fold tcp_cc in Hc'.
    destruct (load_interface_settings_widgets str wA A s r) as [HsA HcA].
    destruct (load_interface_settings_widgets str wA A' s r) as [HsA' HcA'].
    assert (Hsl : bufferSlider at_A'.1 = bufferSlider at_A.1)
      by (unfold at_A', at_A, on_interface_change; by rewrite HsA, HsA').
    assert (Htc : tcpComboBox at_A'.1 = tcpComboBox at_A.1)
      by (unfold at_A', at_A, on_interface_change; by rewrite HcA, HcA').
    fold at_A' in Hs', Hc'.
    by rewrite Hs, Hc, Hs', Hc', Hsl, Htc.
Qed.

(** C4 as stated fails: with eth0 selected, the slider at 8 and bbr chosen,
    selecting wlan0 puts the slider back to the tier of the kernel's 212992
    bytes, which is 1, and the algorithm back to the kernel's cubic. *)
Lemma interface_change_resets_tier_and_algorithm :
  current_interface eth0_heavy_bbr = Some "eth0"
  ∧ bufferSlider eth0_heavy_bbr = 8%Z
  ∧ currentText eth0_heavy_bbr = "bbr"
  ∧ bufferSlider (on_interface_change sample_str usual_kernel "wlan0"
                    eth0_heavy_bbr run0).1 = 1%Z
  ∧ currentText (on_interface_change sample_str usual_kernel "wlan0"
                   eth0_heavy_bbr run0).1 = "cubic"
  ∧ bufferSlider (on_interface_change sample_str usual_kernel "wlan0"
                    eth0_heavy_bbr run0).1 ≠ bufferSlider eth0_heavy_bbr
  ∧ tcpComboBox (on_interface_change sample_str usual_kernel "wlan0"
                   eth0_heavy_bbr run0).1 ≠ tcpComboBox eth0_heavy_bbr.
Proof. repeat split; first [reflexivity | compute_done]. Qed.

(** *** The buffer tier *)

Lemma step_keeps_slider_in_range str w a s r :
  (1 ≤ bufferSlider s ≤ 8)%Z → (1 ≤ bufferSlider (step str w a s r).1 ≤ 8)%Z.
Proof.
  intros Hs.
  assert (Hload : ∀ interface r0,
    (1 ≤ bufferSlider (load_interface_settings str w interface s r0).1 ≤ 8)%Z).
  { intros interface r0.
    destruct (load_interface_settings_widgets str w interface s r0) as [-> _].
    repeat case_match; auto using slider_bound_range. }
  destruct a; cbn [step fst edit bufferSlider];
    auto using slider_bound_range;
    first [ apply Hload
          | unfold load_global_defaults; by repeat case_match
          | unfold reset_to_defaults; repeat case_match; cbn [fst]; by auto ].
Qed.

Lemma session_keeps_slider_in_range str acts s r :
  (1 ≤ bufferSlider s ≤ 8)%Z → (1 ≤ bufferSlider (session str acts s r).1 ≤ 8)%Z.
Proof.
  revert s r. induction acts as [|[w a] acts IH]; intros s r Hs; [done|].
  cbn [session].
  pose proof (step_keeps_slider_in_range str w a s r Hs).
  destruct (step str w a s r) as [s' r']. by apply IH.
Qed.

(** C9. The byte value apply writes for a buffer tier is
    floor(tier * 0.5 * 1048576), that is tier * 524288: 2097152 for tier 4 and
    4194304 for tier 8. A tier outside 1..8 is clamped before it is used. The
    tier read off the kernel's [rmem_max] is the nearest number of half MiB,
    and it becomes 8 when that number is above 8 and 1 when it is below 1:
    the result is 8 exactly from 3932160 bytes on and 1 exactly below 786432
    bytes. A value given to the slider is clamped in the same way. So the
    slider is within 1..8 in every state of a session, and apply writes the
    byte value of that tier to [rmem_max] and to nothing else under
    [rmem_max] or [wmem_max]. *)
Theorem buffer_value_of_bounded_tier :
  (∀ tier : Z,
     buffer_value tier = Qfloor (inject_Z tier * (1 # 2) * inject_Z 1048576)
     ∧ buffer_value tier = (tier * 524288)%Z)
  ∧ buffer_value 4 = 2097152%Z
  ∧ buffer_value 8 = 4194304%Z
  ∧ (∀ (rmem : string) (v : Z), slider_value rmem = inr v → (1 ≤ v ≤ 8)%Z)
  ∧ (∀ (rmem : string) (n : Z),
       PyStr.int rmem = Some n → (Z.abs n < float_limit)%Z →
       ∃ q, nearest_tier n q
            ∧ (∀ q', nearest_tier n q' → q' = q)
            ∧ slider_value rmem = inr (Z.max 1 (Z.min 8 q))
            ∧ ((8 < q)%Z → slider_value rmem = inr 8%Z)
            ∧ ((q < 1)%Z → slider_value rmem = inr 1%Z)
            ∧ ((1 ≤ q ≤ 8)%Z → slider_value rmem = inr q))
  ∧ (∀ (rmem : string) (n : Z),
       PyStr.int rmem = Some n → (Z.abs n < float_limit)%Z →
       (slider_value rmem = inr 8%Z ↔ (3932160 ≤ n)%Z)
       ∧ (slider_value rmem = inr 1%Z ↔ (n < 786432)%Z))
  ∧ (∀ v : Z, (1 ≤ slider_bound v ≤ 8)%Z
              ∧ ((v < 1)%Z → slider_bound v = 1%Z)
              ∧ ((8 < v)%Z → slider_bound v = 8%Z)
              ∧ ((1 ≤ v ≤ 8)%Z → slider_bound v = v))
  ∧ (∀ str w interface s r output n,
       check_output w ["sysctl"; "-n"; "net.core.rmem_max"] = inr output →
       PyStr.int (PyStr.strip output) = Some n → (Z.abs n < float_limit)%Z →
       let tier := bufferSlider (load_interface_settings str w interface s r).1 in
       ((8 * 524288 + 262144 < n)%Z → tier = 8%Z)
       ∧ ((n < 524288 - 262144)%Z → tier = 1%Z)
       ∧ ∃ q, nearest_tier n q ∧ tier = Z.max 1 (Z.min 8 q))
  ∧ (∀ str acts, (1 ≤ bufferSlider (session str acts initial run0).1 ≤ 8)%Z)
  ∧ (∀ str w s interface,
       selected_interface s = Some interface →
       let value := pretty (buffer_value (bufferSlider s)) in
       let tried := attempts (apply_settings str w s) in
       CheckCall (sysctl_w "net.core.rmem_max" value) ∈ tried
       ∧ (check_call w (sysctl_w "net.core.rmem_max" value) = None →
          CheckCall (sysctl_w "net.core.wmem_max" value) ∈ tried)
       ∧ ∀ key other,
           key ∈ ["net.core.rmem_max"; "net.core.wmem_max"] →
           CheckCall (sysctl_w key other) ∈ tried → other = value).
Proof.
  split; [|split; [|split; [|split; [|split; [|split; [|split; [|split; [|split]]]]]]]].
  - intros tier. unfold buffer_value. split.
    + unfold Qfloor. cbn. change (Z.pos (1 * 2 * 1)) with 2%Z.
      replace (tier * 1 * 1048576)%Z with (tier * 524288 * 2)%Z by lia.
      replace (tier * 1048576)%Z with (tier * 524288 * 2)%Z by lia.
      by rewrite Z.quot_mul, Z.div_mul by lia.
    + replace (tier * 1048576)%Z with (tier * 524288 * 2)%Z by lia.
      by rewrite Z.quot_mul by lia.
  - reflexivity.
  - reflexivity.
  - apply slider_value_range.
  - intros rmem n Hn Hlim.
    destruct (slider_value_nearest rmem n Hn Hlim) as (q & Hq & Hu & Hv).
    exists q. split; [exact Hq|]. split; [exact Hu|]. split; [exact Hv|].
    rewrite Hv. repeat split; intros; f_equal; lia.
  - apply slider_value_clamps.
  - intros v. unfold slider_bound. lia.
  - intros str w interface s r output n Hout Hn Hlim tier.
    destruct (load_interface_settings_widgets str w interface s r) as [Hs _].
    fold tier in Hs. rewrite Hout in Hs.
    destruct (slider_value_nearest _ n Hn Hlim) as (q & Hq & _ & Hv).
    rewrite Hv in Hs. rewrite Hs. unfold slider_bound.
    pose proof Hq as [Hd _].
    split; [intros; lia|]. split; [intros; lia|].
    exists q. split; [exact Hq|lia].
  - intros str acts. apply session_keeps_slider_in_range. cbn. lia.
  - intros str w s interface Hsel value tried.
    assert (Htried := apply_settings_attempts str w s interface Hsel).
    fold tried in Htried. rewrite apply_buffers_attempts in Htried.
    fold value in Htried.
    split; [|split].
    + rewrite Htried. elem_of_list.
    + intros Hok. rewrite Htried, Hok. elem_of_list.
    + intros key other Hkey. rewrite Htried.
      rewrite apply_power_save_attempts.
      rewrite !elem_of_app, !elem_of_cons, elem_of_nil.
      assert (Hinj : ∀ k, sysctl_w k other = sysctl_w k value → other = value).
      { intros k Heq. unfold sysctl_w in Heq. simplify_eq.
        by repeat match goal with
                  | H : _ +:+ _ = _ +:+ _ |- _ => apply (inj (String.app _)) in H
                  end. }
      rewrite !elem_of_cons, elem_of_nil in Hkey.
      destruct Hkey as [->|[->|[]]];
        (intros [Hin|[Hin|[Hin|Hin]]];
         [ repeat destruct Hin as [Hin|Hin]; first [done | by inversion Hin]
         | repeat case_match; set_unfold;
           repeat destruct Hin as [Hin|Hin]; first [done | by inversion Hin]
         | destruct Hin as [Hin|Hin];
           [ first [by inversion Hin | injection Hin as Hin; eauto]
           | repeat case_match; set_unfold;
             repeat destruct Hin as [Hin|Hin];
             first [done | by inversion Hin | injection Hin as Hin; eauto] ]
         | repeat destruct Hin as [Hin|Hin]; first [done | by inversion Hin] ]).
Qed.

(** *** The snapshot store over a whole session *)

Section Store.

Variable str : exn -> string.
Variable i : string.

(** The two capability reads of interface [i]. *)
Let ethtool_k : event := CheckOutput ["ethtool"; "-k"; i].
Let iw_get : event := CheckOutput ["iw"; "dev"; i; "get"; "power_save"].

Lemma keeps_books_refl s r : keeps_books i s r s r.
Proof. done. Qed.

Lemma keeps_books_trans s1 r1 s2 r2 s3 r3 :
  keeps_books i s1 r1 s2 r2 → keeps_books i s2 r2 s3 r3 →
  keeps_books i s1 r1 s3 r3.
Proof.
  intros (K1 & E1 & I1) (K2 & E2 & I2). split; [by auto|]. split; lia.
Qed.

Lemma occurrences_app ev l1 l2 :
  occurrences ev (l1 ++ l2) = occurrences ev l1 + occurrences ev l2.
Proof. apply count_occ_app. Qed.

Lemma occurrences_writes ev l :
  is_read ev = true → Forall (λ x, is_read x = false) l → occurrences ev l = 0.
Proof.
  intros Hev Hl. apply count_occ_not_In. intros Hin.
  rewrite Forall_forall in Hl. apply list_elem_of_In, Hl in Hin. congruence.
Qed.

(** Commands other than the two reads of [i] keep the books, as long as the
    store is left alone. *)
Lemma keeps_books_foreign s r s' r' evs :
  interface_defaults s' = interface_defaults s →
  trace r' = trace r ++ evs →
  occurrences ethtool_k evs = 0 →
  occurrences iw_get evs = 0 →
  keeps_books i s r s' r'.
Proof.
  intros Hs Ht He Hi. unfold keeps_books, captured. cbv zeta.
  fold ethtool_k iw_get. rewrite Ht, Hs.
  split; [done|]. rewrite !occurrences_app, He, Hi. split; lia.
Qed.

Lemma keeps_books_writes s r r' writes :
  trace r' = trace r ++ writes →
  Forall (λ x, is_read x = false) writes →
  keeps_books i s r s r'.
Proof.
  intros Ht Hw.
  apply keeps_books_foreign with writes; [done|done|..];
    by apply occurrences_writes.
Qed.

Lemma occurrences_global_reads :
  occurrences ethtool_k global_reads = 0 ∧ occurrences iw_get global_reads = 0.
Proof.
  split; apply count_occ_not_In; intros Hin; cbn in Hin;
    repeat destruct Hin as [Hin|Hin]; first [done | by inversion Hin].
Qed.

Lemma occurrences_interface_reads j :
  occurrences ethtool_k (interface_reads j) = (if decide (j = i) then 1 else 0)
  ∧ occurrences iw_get (interface_reads j) = (if decide (j = i) then 1 else 0).
Proof.
  unfold occurrences, interface_reads, ethtool_k, iw_get.
  destruct (decide (j = i)) as [->|Hne].
  - split.
    + rewrite count_occ_cons_eq by done. by rewrite count_occ_cons_neq by done.
    + rewrite count_occ_cons_neq by done. by rewrite count_occ_cons_eq by done.
  - split; apply count_occ_not_In; intros Hin; cbn in Hin;
      repeat destruct Hin as [Hin|Hin]; first [done | by simplify_eq].
Qed.

Lemma keeps_books_load w j s r :
  keeps_books i s r (load_interface_settings str w j s r).1
    (load_interface_settings str w j s r).2.
Proof.
  unfold keeps_books. cbv zeta. fold ethtool_k iw_get.
  split; [intros snap; apply load_interface_settings_keeps|].
  rewrite load_interface_settings_trace, !occurrences_app.
  destruct occurrences_global_reads as [-> ->].
  destruct (occurrences_interface_reads j) as [He Hi].
  unfold captured.
  destruct (interface_defaults s !! j) as [snapj|] eqn:Hj.
  - assert (Hsame : interface_defaults (load_interface_settings str w j s r).1 !! i
                    = interface_defaults s !! i).
    { destruct (load_interface_settings_unfold str w j s r) as (-> & _).
      by rewrite (capture_interface_cached _ _ _ _ _ _ Hj). }
    rewrite Hsame. cbn. split; lia.
  - rewrite He, Hi. destruct (decide (j = i)) as [->|Hne].
    + rewrite Hj. destruct (load_interface_settings_stores str w i s r) as [? ->].
      split; lia.
    + rewrite (load_interface_settings_fresh_other str w j s r i) by done.
      split; lia.
Qed.

Lemma apply_settings_writes w s :
  Forall (λ x, is_read x = false) (attempts (apply_settings str w s)).
Proof.
  destruct (selected_interface s) as [interface|] eqn:Hsel.
  - rewrite (apply_settings_attempts str w s interface Hsel).
    rewrite apply_power_save_attempts, apply_buffers_attempts.
    repeat case_match; repeat constructor.
  - unfold attempts, apply_settings. rewrite Hsel. constructor.
Qed.

Lemma reset_steps_writes w interface s :
  Forall (λ x, is_read x = false) (attempts (reset_steps str w interface s)).
Proof.
  unfold attempts. rewrite reset_steps_trace. cbv zeta.
  rewrite !reset_offload_attempts, reset_power_save_attempts,
    reset_buffers_attempts, reset_congestion_attempts.
  repeat case_match; repeat constructor.
Qed.

Lemma keeps_books_reset w s r :
  keeps_books i s r (reset_to_defaults str w s r).1
    (reset_to_defaults str w s r).2.
Proof.
  unfold reset_to_defaults.
  destruct (selected_interface s) as [interface|]; cbv zeta; cbn [fst snd].
  - set (r1 := reset_steps str w interface s r).
    set (r2 := feedback _ _ _ r1).
    assert (Hw : keeps_books i s r s r2).
    { apply keeps_books_writes with (attempts (reset_steps str w interface s));
        [|apply reset_steps_writes].
      unfold r2, r1. rewrite feedback_trace. unfold attempts.
      rewrite !reset_steps_trace. reflexivity. }
    destruct (error_messages r1); [|exact Hw].
    eapply keeps_books_trans; [exact Hw|apply keeps_books_load].
  - apply keeps_books_writes with []; [|constructor].
    cbn. by rewrite app_nil_r.
Qed.

Lemma keeps_books_step w a s r :
  keeps_books i s r (step str w a s r).1 (step str w a s r).2.
Proof.
  destruct a; cbn [step fst snd];
    try (apply keeps_books_foreign with [];
         [reflexivity | by rewrite app_nil_r | reflexivity | reflexivity]).
  - apply keeps_books_load.
  - unfold load_global_defaults.
    repeat case_match; cbn [fst snd]; try apply keeps_books_refl;
      (eapply keeps_books_foreign;
       [ reflexivity
       | cbn; rewrite <- ?app_assoc; reflexivity
       | apply count_occ_not_In; cbn; intros Hin;
         repeat destruct Hin as [Hin|Hin]; first [done | by inversion Hin] .. ]).
  - apply keeps_books_writes with (attempts (apply_settings str w s));
      [|apply apply_settings_writes].
    by destruct (apply_settings_appends str w s r).
  - apply keeps_books_reset.
Qed.

Lemma keeps_books_session acts s r :
  keeps_books i s r (session str acts s r).1 (session str acts s r).2.
Proof.
  revert s r. induction acts as [|[w a] acts IH]; intros s r; [done|].
  cbn [session].
  pose proof (keeps_books_step w a s r) as Hstep.
  destruct (step str w a s r) as [s' r'].
  eapply keeps_books_trans; [exact Hstep|apply IH].
Qed.

End Store.

(** C6. The snapshot of an interface is captured at most once per process.
    At any point of any session, selecting an interface leaves its snapshot
    in the store; that selection performs the two capability reads of the
    interface exactly if the snapshot was not stored before; and whatever
    follows (selecting it again, switching away and back, apply, reset, edits)
    the store returns the identical snapshot and the process has read the
    interface's offload flags and power-save state exactly once. *)
Theorem snapshot_is_captured_once
    (str : exn -> string) (before : list (world * action)) (w : world)
    (interface : string) (after : list (world * action)) :
  let ethtool_k := CheckOutput ["ethtool"; "-k"; interface] in
  let iw_get := CheckOutput ["iw"; "dev"; interface; "get"; "power_save"] in
  let s0 := (session str before initial run0).1 in
  let r0 := (session str before initial run0).2 in
  let s1 := (on_interface_change str w interface s0 r0).1 in
  let r1 := (on_interface_change str w interface s0 r0).2 in
  let s2 := (session str after s1 r1).1 in
  let r2 := (session str after s1 r1).2 in
  occurrences ethtool_k (trace r0) = captured interface s0
  ∧ occurrences iw_get (trace r0) = captured interface s0
  ∧ is_Some (interface_defaults s1 !! interface)
  ∧ (∀ snap, interface_defaults s0 !! interface = Some snap →
             interface_defaults s1 !! interface = Some snap)
  ∧ occurrences ethtool_k (trace r1) = 1
  ∧ occurrences iw_get (trace r1) = 1
  ∧ interface_defaults s2 !! interface = interface_defaults s1 !! interface
  ∧ occurrences ethtool_k (trace r2) = 1
  ∧ occurrences iw_get (trace r2) = 1.
Proof.
  intros ethtool_k iw_get s0 r0 s1 r1 s2 r2.
  destruct (keeps_books_session str interface before initial run0)
    as (_ & E0 & I0).
  fold s0 r0 ethtool_k iw_get in E0, I0.
  destruct (keeps_books_load str interface w interface s0 r0) as (K1 & E1 & I1).
  fold (on_interface_change str w interface s0 r0) in K1, E1, I1.
  fold s1 r1 ethtool_k iw_get in K1, E1, I1.
  destruct (keeps_books_session str interface after s1 r1) as (K2 & E2 & I2).
  fold s2 r2 ethtool_k iw_get in K2, E2, I2.
  assert (Hstored : is_Some (interface_defaults s1 !! interface))
    by apply load_interface_settings_stores.
  assert (C0 : captured interface initial = 0) by done.
  assert (T0 : occurrences ethtool_k (trace run0) = 0
               ∧ occurrences iw_get (trace run0) = 0) by done.
  destruct T0 as [T0 T0'].
  assert (C1 : captured interface s1 = 1).
  { unfold captured. by destruct Hstored as [? ->]. }
  assert (C2 : interface_defaults s2 !! interface = interface_defaults s1 !! interface).
  { destruct Hstored as [snap Hsnap]. rewrite Hsnap. by apply K2. }
  assert (C2' : captured interface s2 = 1).
  { unfold captured. rewrite C2. by destruct Hstored as [? ->]. }
  repeat split; try done; lia.
Qed.

(** * Further properties of the state manager *)

(** *** The global snapshot *)

(** X1. The global snapshot is never partially filled. Starting from an empty
    snapshot, [load_global_defaults] stores the three stripped texts exactly
    when all three reads succeed; when a read fails it leaves the whole state
    as it was, shows one warning with that failure, and does not attempt the
    reads after the failed one. *)
Theorem global_snapshot_is_all_or_nothing
    (str : exn -> string) (w : world) (s : optimizer) (r : run) :
  global_defaults s = ∅ →
  let s' := (load_global_defaults str w s r).1 in
  let r' := (load_global_defaults str w s r).2 in
  let rmem := check_output w ["sysctl"; "-n"; "net.core.rmem_max"] in
  let wmem := check_output w ["sysctl"; "-n"; "net.core.wmem_max"] in
  let tcp_cc := check_output w ["sysctl"; "-n"; "net.ipv4.tcp_congestion_control"] in
  (∀ a b c, rmem = inr a → wmem = inr b → tcp_cc = inr c →
            global_defaults s' = global_snapshot a b c
            ∧ dialogs r' = dialogs r
            ∧ trace r' = trace r ++ [ CheckOutput ["sysctl"; "-n"; "net.core.rmem_max"];
                                      wmem_read;
                                      CheckOutput ["sysctl"; "-n";
                                                   "net.ipv4.tcp_congestion_control"] ])
  ∧ (∀ e, rmem = inl e →
          s' = s ∧ dialogs r' = dialogs r ++ [global_defaults_warning str e]
          ∧ trace r' = trace r ++ [CheckOutput ["sysctl"; "-n"; "net.core.rmem_max"]])
  ∧ (∀ a e, rmem = inr a → wmem = inl e →
            s' = s ∧ dialogs r' = dialogs r ++ [global_defaults_warning str e]
            ∧ trace r' = trace r ++ [ CheckOutput ["sysctl"; "-n"; "net.core.rmem_max"];
                                      wmem_read ])
  ∧ (∀ a b e, rmem = inr a → wmem = inr b → tcp_cc = inl e →
              s' = s ∧ dialogs r' = dialogs r ++ [global_defaults_warning str e])
  ∧ (global_defaults s' = ∅
     ∨ ∃ a b c, global_defaults s' = global_snapshot a b c)
  ∧ interface_defaults s' = interface_defaults s
  ∧ current_interface s' = current_interface s.
Proof.
  intros Hempty s' r' rmem wmem tcp_cc. subst s' r'.
  unfold load_global_defaults. rewrite bool_decide_eq_true_2 by done.
  fold rmem wmem tcp_cc. rewrite Hempty.
  repeat lazymatch goal with |- _ ∧ _ => split end.
  - intros a b c -> -> ->. cbn. by rewrite <- !app_assoc.
  - by intros e ->.
  - intros a e -> ->. cbn. by rewrite <- !app_assoc.
  - by intros a b e -> -> ->.
  - destruct rmem as [|a]; [by left|]. destruct wmem as [|b]; [by left|].
    destruct tcp_cc as [|c]; [by left|]. right. by exists a, b, c.
  - by destruct rmem, wmem, tcp_cc.
  - by destruct rmem, wmem, tcp_cc.
Qed.

Lemma global_snapshot_is_all_or_nothing_witness :
  global_defaults initial = ∅
  ∧ global_defaults (load_global_defaults sample_str usual_kernel initial run0).1
    = global_snapshot ("212992" +:+ PyStr.nl) ("212992" +:+ PyStr.nl)
        ("cubic" +:+ PyStr.nl).
Proof.
  split; [reflexivity|].
  exact (proj1 (proj1
    (global_snapshot_is_all_or_nothing sample_str usual_kernel initial run0 eq_refl)
    _ _ _ eq_refl eq_refl eq_refl)).
Defined.

(** What reset leaves in the log and in the store, whatever was selected. *)
Lemma reset_to_defaults_run str w s r :
  ∃ writes reads,
    trace (reset_to_defaults str w s r).2 = trace r ++ writes ++ reads
    ∧ Forall (λ x, is_read x = false) writes
    ∧ (reads = []
       ∨ ∃ interface,
           reads = match interface_defaults s !! interface with
                   | Some _ => []
                   | None => interface_reads interface
                   end ++ global_reads)
    ∧ global_defaults (reset_to_defaults str w s r).1 = global_defaults s.
Proof.
  unfold reset_to_defaults.
  destruct (selected_interface s) as [interface|]; cbv zeta.
  - exists (attempts (reset_steps str w interface s)).
    assert (Ht : ∀ a b c, trace (feedback a b c (reset_steps str w interface s r))
                 = trace r ++ attempts (reset_steps str w interface s)).
    { intros. rewrite feedback_trace. unfold attempts.
      rewrite !reset_steps_trace. reflexivity. }
    destruct (error_messages (reset_steps str w interface s r)).
    + eexists. split; [|split; [apply reset_steps_writes|split]].
      * rewrite load_interface_settings_trace, Ht, <- app_assoc. reflexivity.
      * right. by exists interface.
      * by destruct (load_interface_settings_unfold str w interface s
                       (feedback "Errors occurred during resetting to defaults:"
                          "Settings reset to defaults successfully."
                          "All settings reset to defaults successfully."
                          (reset_steps str w interface s r))) as (_ & _ & -> & _).
    + exists []. split; [|split; [apply reset_steps_writes|split]].
      * cbn [snd]. by rewrite Ht, app_nil_r.
      * by left.
      * done.
  - exists [], []. cbn. rewrite !app_nil_r. repeat split; [constructor|by left].
Qed.

Lemma wmem_read_is_foreign interface :
  occurrences wmem_read (interface_reads interface) = 0
  ∧ occurrences wmem_read global_reads = 0.
Proof.
  split; apply count_occ_not_In; intros Hin; cbn in Hin;
    repeat destruct Hin as [Hin|Hin]; first [done | by inversion Hin].
Qed.

Lemma step_keeps_global_snapshot str w a s r :
  global_defaults s ≠ ∅ →
  global_defaults (step str w a s r).1 = global_defaults s
  ∧ occurrences wmem_read (trace (step str w a s r).2)
    = occurrences wmem_read (trace r).
Proof.
  intros Hfull.
  destruct a; cbn [step fst snd edit global_defaults]; try done.
  - unfold on_interface_change.
    destruct (load_interface_settings_unfold str w interface s r)
      as (_ & _ & -> & _).
    split; [done|].
    rewrite load_interface_settings_trace, !occurrences_app.
    destruct (wmem_read_is_foreign interface) as [Hi ->].
    destruct (interface_defaults s !! interface); [cbn; lia|]. rewrite Hi. lia.
  - unfold load_global_defaults. by rewrite bool_decide_eq_false_2.
  - split; [done|].
    destruct (apply_settings_appends str w s r) as [-> _].
    rewrite occurrences_app.
    rewrite (occurrences_writes wmem_read (attempts (apply_settings str w s)));
      [lia | done | apply apply_settings_writes].
  - destruct (reset_to_defaults_run str w s r)
      as (writes & reads & -> & Hw & Hr & ->).
    split; [done|].
    rewrite !occurrences_app, (occurrences_writes wmem_read writes) by done.
    destruct Hr as [->|[interface ->]]; [cbn; lia|].
    rewrite occurrences_app.
    destruct (wmem_read_is_foreign interface) as [Hi ->].
    destruct (interface_defaults s !! interface); [cbn; lia|]. rewrite Hi. lia.
Qed.

Lemma session_keeps_global_snapshot str acts s r :
  global_defaults s ≠ ∅ →
  global_defaults (session str acts s r).1 = global_defaults s
  ∧ occurrences wmem_read (trace (session str acts s r).2)
    = occurrences wmem_read (trace r).
Proof.
  revert s r. induction acts as [|[w a] acts IH]; intros s r Hfull; [done|].
  cbn [session].
  destruct (step_keeps_global_snapshot str w a s r Hfull) as [Hg Ho].
  destruct (step str w a s r) as [s' r']. cbn [fst snd] in Hg, Ho.
  destruct (IH s' r') as [Hg' Ho']; [by rewrite Hg|].
  by rewrite Hg', Ho', Hg, Ho.
Qed.

Lemma load_global_defaults_snapshot str w s r a b c :
  global_defaults s = ∅ →
  check_output w ["sysctl"; "-n"; "net.core.rmem_max"] = inr a →
  check_output w ["sysctl"; "-n"; "net.core.wmem_max"] = inr b →
  check_output w ["sysctl"; "-n"; "net.ipv4.tcp_congestion_control"] = inr c →
  global_defaults (load_global_defaults str w s r).1 = global_snapshot a b c.
Proof.
  intros Hempty Ha Hb Hc. unfold load_global_defaults.
  rewrite bool_decide_eq_true_2 by done. by rewrite Ha, Hb, Hc, Hempty.
Qed.

(** X2. The global snapshot is captured at most once. Once it holds values,
    no action of a session changes it, and [wmem_max], which only
    [load_global_defaults] reads, is never read again. *)
Theorem global_snapshot_is_frozen
    (str : exn -> string) (acts : list (world * action)) (s : optimizer) (r : run) :
  global_defaults s ≠ ∅ →
  global_defaults (session str acts s r).1 = global_defaults s
  ∧ occurrences wmem_read (trace (session str acts s r).2)
    = occurrences wmem_read (trace r).
Proof.
  revert s r. induction acts as [|[w a] acts IH]; intros s r Hfull; [done|].
  cbn [session].
  destruct (step_keeps_global_snapshot str w a s r Hfull) as [Hg Ho].
  destruct (step str w a s r) as [s' r']. cbn [fst snd] in Hg, Ho.
  destruct (IH s' r') as [Hg' Ho']; [by rewrite Hg|].
  by rewrite Hg', Ho', Hg, Ho.
Qed.

Lemma global_snapshot_lookup a b c :
  format_get "net.core.rmem_max" (global_snapshot a b c) = PyStr.strip a
  ∧ format_get "net.core.wmem_max" (global_snapshot a b c) = PyStr.strip b
  ∧ format_get "net.ipv4.tcp_congestion_control" (global_snapshot a b c)
    = PyStr.strip c
  ∧ global_snapshot a b c ≠ ∅.
Proof.
  unfold format_get, global_snapshot.
  split; [by simplify_map_eq|]. split; [by simplify_map_eq|].
  split; [by simplify_map_eq|]. apply insert_non_empty.
Qed.

(** X3. Reset writes back the text that was read. When the three global
    reads succeeded, then after any session (edits, applies, interface
    switches, earlier resets) reset writes to [rmem_max] and to the
    congestion-control parameter exactly the stripped text that was read at
    capture, to [wmem_max] its own stripped text once the [rmem_max] write is
    accepted, and issues no other kernel-parameter write. *)
Theorem reset_writes_back_the_captured_texts
    (str : exn -> string) (w0 : world) (s0 : optimizer) (r0 : run)
    (a b c : string) (acts : list (world * action)) (w : world)
    (interface : string) :
  global_defaults s0 = ∅ →
  check_output w0 ["sysctl"; "-n"; "net.core.rmem_max"] = inr a →
  check_output w0 ["sysctl"; "-n"; "net.core.wmem_max"] = inr b →
  check_output w0 ["sysctl"; "-n"; "net.ipv4.tcp_congestion_control"] = inr c →
  let s1 := (load_global_defaults str w0 s0 r0).1 in
  let r1 := (load_global_defaults str w0 s0 r0).2 in
  let s2 := (session str acts s1 r1).1 in
  selected_interface s2 = Some interface →
  let rmem := sysctl_w "net.core.rmem_max" (PyStr.strip a) in
  let wmem := sysctl_w "net.core.wmem_max" (PyStr.strip b) in
  let tcp_cc := sysctl_w "net.ipv4.tcp_congestion_control" (PyStr.strip c) in
  List.filter is_kernel_write (attempts (reset_run str w s2))
  = CheckCall rmem
    :: match check_call w rmem with None => [CheckCall wmem] | Some _ => [] end
    ++ [CheckCall tcp_cc].
Proof.
  intros Hempty Ha Hb Hc s1 r1 s2 Hsel rmem wmem tcp_cc.
  pose proof (load_global_defaults_snapshot str w0 s0 r0 a b c Hempty Ha Hb Hc)
    as Hs1.
  fold s1 in Hs1.
  destruct (global_snapshot_lookup a b c) as (La & Lb & Lc & Hne).
  assert (Hs2 : global_defaults s2 = global_snapshot a b c).
  { unfold s2.
    destruct (session_keeps_global_snapshot str acts s1 r1) as [-> _]; [|done].
    by rewrite Hs1. }
  destruct (reset_run_trace str w s2 interface run0 Hsel) as (reads & Hreads & Ht).
  fold (attempts (reset_run str w s2)) in Ht. cbv zeta in Ht.
  rewrite reset_power_save_attempts, reset_buffers_attempts,
    reset_congestion_attempts, Hs2, La, Lb, Lc in Ht.
  fold rmem wmem tcp_cc in Ht. rewrite Ht. cbn [trace run0 app].
  assert (Hr : List.filter is_kernel_write reads = []).
  { apply filter_reads; [done|]. by intros []. }
  change (List.filter is_kernel_write (?x :: ?y :: ?z :: ?l))
    with (List.filter is_kernel_write l).
  assert (Hk : ∀ key value l,
             List.filter is_kernel_write (CheckCall (sysctl_w key value) :: l)
             = CheckCall (sysctl_w key value) :: List.filter is_kernel_write l)
    by reflexivity.
  assert (Hp : List.filter is_kernel_write
                 match dict_get "power_save" None
                         (default ∅ (interface_defaults s2 !! interface)) with
                 | Some b0 => [CheckCall (iw_set_power_save interface (on_off b0))]
                 | None => []
                 end = [])
    by (destruct (dict_get "power_save" None _); reflexivity).
  rewrite List.filter_app, Hp. cbn [app]. unfold rmem at 1. rewrite Hk. f_equal.
  fold rmem. destruct (check_call w rmem); cbn [app]; unfold wmem, tcp_cc;
    rewrite !Hk, Hr; reflexivity.
Qed.

(** *** Apply and reset: guard and verdict *)

(** X4. Without a selected interface apply and reset do nothing but warn.
    When no interface was ever selected, or the selected name is empty, each
    of them attempts no command, prints nothing, leaves the state as it is and
    shows the single warning that no interface is selected. *)
Theorem nothing_is_attempted_without_interface
    (str : exn -> string) (w : world) (s : optimizer) (r : run) :
  current_interface s = None ∨ current_interface s = Some "" →
  trace (apply_settings str w s r) = trace r
  ∧ stdout (apply_settings str w s r) = stdout r
  ∧ dialogs (apply_settings str w s r) = dialogs r ++ [no_interface_warning]
  ∧ (reset_to_defaults str w s r).1 = s
  ∧ trace (reset_to_defaults str w s r).2 = trace r
  ∧ stdout (reset_to_defaults str w s r).2 = stdout r
  ∧ dialogs (reset_to_defaults str w s r).2 = dialogs r ++ [no_interface_warning].
Proof.
  intros Hnone.
  assert (Hsel : selected_interface s = None).
  { unfold selected_interface. by destruct Hnone as [-> | ->]. }
  unfold apply_settings, reset_to_defaults. rewrite Hsel. done.
Qed.

Lemma nothing_is_attempted_without_interface_witness :
  (current_interface
     (on_interface_change sample_str usual_kernel "" initial run0).1 = None
   ∨ current_interface
       (on_interface_change sample_str usual_kernel "" initial run0).1 = Some "")
  ∧ trace (apply_settings sample_str usual_kernel
             (on_interface_change sample_str usual_kernel "" initial run0).1 run0)
    = trace run0.
Proof.
  assert (H : current_interface
                (on_interface_change sample_str usual_kernel "" initial run0).1 = None
              ∨ current_interface
                  (on_interface_change sample_str usual_kernel "" initial run0).1
                = Some "") by (right; reflexivity).
  split; [exact H|].
  exact (proj1 (nothing_is_attempted_without_interface sample_str usual_kernel
                  (on_interface_change sample_str usual_kernel "" initial run0).1
                  run0 H)).
Defined.

Lemma print_all_dialogs msgs r :
  dialogs (foldl (λ r msg, print msg r) r msgs) = dialogs r
  ∧ stdout (foldl (λ r msg, print msg r) r msgs) = stdout r ++ msgs.
Proof.
  revert r. induction msgs as [|msg msgs IH]; intros r.
  - by rewrite app_nil_r.
  - simpl. destruct (IH (print msg r)) as [-> ->]. simpl.
    by rewrite <- app_assoc.
Qed.

Lemma feedback_dialogs failure_line success_text success_line r :
  dialogs (feedback failure_line success_text success_line r)
    = dialogs r ++ [verdict success_text (error_messages r)]
  ∧ stdout (feedback failure_line success_text success_line r)
    = stdout r ++ match error_messages r with
                  | [] => [success_line]
                  | msgs => failure_line :: msgs
                  end.
Proof.
  unfold feedback, verdict. destruct (error_messages r) as [|m ms]; [done|].
  destruct (print_all_dialogs (m :: ms)
              (print failure_line
                 (show (MessageBox Warning "Errors Occurred"
                          (PyStr.join PyStr.nl (m :: ms))) r))) as [-> ->].
  simpl. by rewrite <- app_assoc.
Qed.

Lemma apply_steps_dialogs str w interface s r :
  dialogs (apply_steps str w interface s r) = dialogs r.
Proof.
  assert (H1 : ∀ feature NAME box r0,
             dialogs (apply_offload str w interface feature NAME box r0) = dialogs r0)
    by (intros; unfold apply_offload; by repeat case_match).
  assert (H2 : ∀ box r0,
             dialogs (apply_power_save str w interface box r0) = dialogs r0)
    by (intros; unfold apply_power_save, power_save_fallback; by repeat case_match).
  assert (H3 : ∀ tier r0,
             dialogs (apply_buffers str w interface tier r0) = dialogs r0)
    by (intros; unfold apply_buffers; by repeat case_match).
  assert (H4 : ∀ tcp_cc r0,
             dialogs (apply_congestion str w interface tcp_cc r0) = dialogs r0)
    by (intros; unfold apply_congestion; by repeat case_match).
  unfold apply_steps. by rewrite H4, H3, H2, !H1.
Qed.

Lemma reset_steps_dialogs str w interface s r :
  dialogs (reset_steps str w interface s r) = dialogs r.
Proof.
  assert (H1 : ∀ feature NAME d r0,
             dialogs (reset_offload str w interface feature NAME d r0) = dialogs r0)
    by (intros; unfold reset_offload; by repeat case_match).
  assert (H2 : ∀ d r0,
             dialogs (reset_power_save str w interface d r0) = dialogs r0)
    by (intros; unfold reset_power_save; by repeat case_match).
  assert (H3 : ∀ g r0, dialogs (reset_buffers str w g r0) = dialogs r0)
    by (intros; unfold reset_buffers; by repeat case_match).
  assert (H4 : ∀ g r0, dialogs (reset_congestion str w g r0) = dialogs r0)
    by (intros; unfold reset_congestion; by repeat case_match).
  unfold reset_steps. by rewrite H4, H3, H2, !H1.
Qed.

(** X5. Apply ends with exactly one dialog, and it tells the truth. The
    dialog is the success message exactly when every write that was needed
    succeeded: the three offload writes, both buffer writes, the
    congestion-control write and, where power saving applies, the radio write
    or else the config-file fallback when disabling. Otherwise it is a
    warning that lists the recorded failures one per line, and each of them is
    also printed. *)
Theorem apply_verdict_is_truthful
    (str : exn -> string) (w : world) (s : optimizer) (interface : string) (r : run) :
  selected_interface s = Some interface →
  let box := powerSaveCheckBox s in
  let value := pretty (buffer_value (bufferSlider s)) in
  let ok argv := check_call w argv = None in
  let failed := failures (apply_settings str w s) in
  dialogs (apply_settings str w s r)
    = dialogs r ++ [verdict "Settings applied successfully." failed]
  ∧ (failed = [] ↔
       ok (ethtool_K interface "tso" (off_on (tsoCheckBox s)))
       ∧ ok (ethtool_K interface "gso" (off_on (gsoCheckBox s)))
       ∧ ok (ethtool_K interface "gro" (off_on (groCheckBox s)))
       ∧ (isEnabled box = true →
          ok (iw_set_power_save interface (off_on box))
          ∨ (isChecked box = true
             ∧ open_write w nm_file_path nm_config_str = None))
       ∧ ok (sysctl_w "net.core.rmem_max" value)
       ∧ ok (sysctl_w "net.core.wmem_max" value)
       ∧ ok (sysctl_w "net.ipv4.tcp_congestion_control" (currentText s)))
  ∧ (∀ msg, msg ∈ failed → msg ∈ stdout (apply_settings str w s r)).
Proof.
  intros Hsel box value ok failed.
  destruct (apply_settings_appends str w s r) as [_ He].
  specialize (He ltac:(by rewrite Hsel)). fold failed in He.
  assert (Hf := apply_settings_failures str w s interface Hsel).
  fold failed in Hf.
  rewrite !apply_offload_failures, apply_power_save_failures,
    apply_buffers_failures, apply_congestion_failures in Hf.
  fold box value in Hf.
  split; [|split].
  - unfold apply_settings in *. rewrite Hsel in *.
    destruct (feedback_dialogs "Errors occurred during applying settings:"
                "Settings applied successfully." "All settings applied successfully."
                (apply_steps str w interface s r)) as [-> _].
    rewrite feedback_errors in He. by rewrite He, apply_steps_dialogs.
  - rewrite Hf, !app_nil. unfold ok.
    assert (Hone : ∀ (o : option exn) (f : exn → string),
              match o with Some e => [f e] | None => [] end = [] ↔ o = None)
      by (intros [e|] f; split; done).
    rewrite !Hone.
    assert (Hbuf : match check_call w (sysctl_w "net.core.rmem_max" value) with
                   | Some e => [buffers_failed str e]
                   | None =>
                       match check_call w (sysctl_w "net.core.wmem_max" value) with
                       | Some e => [buffers_failed str e]
                       | None => []
                       end
                   end = []
                   ↔ check_call w (sysctl_w "net.core.rmem_max" value) = None
                     ∧ check_call w (sysctl_w "net.core.wmem_max" value) = None).
    { destruct (check_call w (sysctl_w "net.core.rmem_max" value)),
        (check_call w (sysctl_w "net.core.wmem_max" value)); split; try done;
        by intros [? ?]. }
    rewrite Hbuf.
    assert (Hps : (if isEnabled box
                   then match check_call w (iw_set_power_save interface (off_on box)) with
                        | Some e =>
                            if isChecked box
                            then match open_write w nm_file_path nm_config_str with
                                 | Some e2 => [power_save_fallback_failed str interface e2]
                                 | None => []
                                 end
                            else [power_save_failed str interface e]
                        | None => []
                        end
                   else []) = []
                  ↔ (isEnabled box = true →
                     check_call w (iw_set_power_save interface (off_on box)) = None
                     ∨ (isChecked box = true
                        ∧ open_write w nm_file_path nm_config_str = None))).
    { destruct (isEnabled box); [|by split].
      destruct (check_call w (iw_set_power_save interface (off_on box)));
        [|split; auto].
      destruct (isChecked box), (open_write w nm_file_path nm_config_str);
        split; try done; auto; intros H; by destruct (H eq_refl) as [?|[? ?]]. }
    rewrite Hps. tauto.
  - intros msg Hmsg. unfold apply_settings. rewrite Hsel.
    destruct (feedback_dialogs "Errors occurred during applying settings:"
                "Settings applied successfully." "All settings applied successfully."
                (apply_steps str w interface s r)) as [_ ->].
    unfold apply_settings in He. rewrite Hsel, feedback_errors in He.
    rewrite He. destruct failed as [|m ms]; [by apply elem_of_nil in Hmsg|].
    apply elem_of_app. right. by apply list_elem_of_further.
Qed.

(** *** Reset: every field is tried, and the verdict *)

Lemma reset_steps_errors str w interface s r :
  error_messages (reset_steps str w interface s r)
  = failures (reset_steps str w interface s).
Proof.
  unfold failures, reset_steps.
  rewrite !(appends_errors (f := reset_congestion _ _ _)).
  rewrite !(appends_errors (f := reset_buffers _ _ _)).
  rewrite !(appends_errors (f := reset_power_save _ _ _ _)).
  rewrite !(appends_errors (f := reset_offload _ _ _ _ _ _)).
  reflexivity.
Qed.

Lemma reset_steps_failures str w interface s :
  let defaults := default ∅ (interface_defaults s !! interface) in
  failures (reset_steps str w interface s) =
  failures (reset_offload str w interface "tso" "TSO" defaults) ++
  failures (reset_offload str w interface "gso" "GSO" defaults) ++
  failures (reset_offload str w interface "gro" "GRO" defaults) ++
  failures (reset_power_save str w interface defaults) ++
  failures (reset_buffers str w (global_defaults s)) ++
  failures (reset_congestion str w (global_defaults s)).
Proof.
  unfold failures at 1, reset_steps.
  rewrite !(appends_errors (f := reset_congestion _ _ _)).
  rewrite !(appends_errors (f := reset_buffers _ _ _)).
  rewrite !(appends_errors (f := reset_power_save _ _ _ _)).
  rewrite !(appends_errors (f := reset_offload _ _ _ _ _ _)).
  cbn. by rewrite <- !app_assoc.
Qed.

Lemma reset_offload_failures str w interface feature NAME defaults :
  failures (reset_offload str w interface feature NAME defaults) = []
  ↔ check_call w (ethtool_K interface feature
                    (on_off (truthy (dict_get feature (Some true) defaults)))) = None.
Proof. unfold failures, reset_offload. by case_match. Qed.

Lemma reset_power_save_failures str w interface defaults :
  failures (reset_power_save str w interface defaults) = []
  ↔ ∀ b, dict_get "power_save" None defaults = Some b →
         check_call w (iw_set_power_save interface (on_off b)) = None.
Proof.
  unfold failures, reset_power_save.
  destruct (dict_get "power_save" None defaults) as [b|].
  - cbn [truthy].
    destruct (check_call w (iw_set_power_save interface (on_off b))) eqn:E.
    + split; [done|]. intros H. specialize (H b eq_refl). congruence.
    + split; [|done]. by intros _ b' [= <-].
  - split; [|done]. by intros _ b' Hb'.
Qed.

Lemma reset_buffers_failures str w g :
  failures (reset_buffers str w g) = []
  ↔ check_call w (sysctl_w "net.core.rmem_max" (format_get "net.core.rmem_max" g))
    = None
    ∧ check_call w (sysctl_w "net.core.wmem_max" (format_get "net.core.wmem_max" g))
      = None.
Proof.
  unfold failures, reset_buffers.
  destruct (check_call w (sysctl_w "net.core.rmem_max" _)),
    (check_call w (sysctl_w "net.core.wmem_max" _)); split; try done;
    by intros [? ?].
Qed.

Lemma reset_congestion_failures str w g :
  failures (reset_congestion str w g) = []
  ↔ check_call w (sysctl_w "net.ipv4.tcp_congestion_control"
                    (format_get "net.ipv4.tcp_congestion_control" g)) = None.
Proof. unfold failures, reset_congestion. by case_match. Qed.

(** X6. Reset ends with a truthful verdict and re-displays the snapshot only
    on full success. With the snapshot of the selected interface in the
    store, reset records no failure exactly when every write it needs
    succeeded. In that case it shows the success message, leaves both
    snapshots untouched and puts the four "disable" boxes back to what the
    snapshot says, discarding the user's edits; otherwise it shows the
    failures and leaves the whole state, edits included, as it was. *)
Theorem reset_verdict_and_redisplay
    (str : exn -> string) (w : world) (s : optimizer) (interface : string)
    (snap : gmap string pyval) (r : run) :
  selected_interface s = Some interface →
  interface_defaults s !! interface = Some snap →
  let s' := (reset_to_defaults str w s r).1 in
  let r' := (reset_to_defaults str w s r).2 in
  let failed := failures (reset_steps str w interface s) in
  let ok argv := check_call w argv = None in
  let g := global_defaults s in
  (failed = [] ↔
     ok (ethtool_K interface "tso" (on_off (truthy (dict_get "tso" (Some true) snap))))
     ∧ ok (ethtool_K interface "gso" (on_off (truthy (dict_get "gso" (Some true) snap))))
     ∧ ok (ethtool_K interface "gro" (on_off (truthy (dict_get "gro" (Some true) snap))))
     ∧ (∀ b, dict_get "power_save" None snap = Some b →
             ok (iw_set_power_save interface (on_off b)))
     ∧ ok (sysctl_w "net.core.rmem_max" (format_get "net.core.rmem_max" g))
     ∧ ok (sysctl_w "net.core.wmem_max" (format_get "net.core.wmem_max" g))
     ∧ ok (sysctl_w "net.ipv4.tcp_congestion_control"
             (format_get "net.ipv4.tcp_congestion_control" g)))
  ∧ (∃ later, dialogs r'
              = dialogs r ++ verdict "Settings reset to defaults successfully." failed
                             :: later)
  ∧ (failed ≠ [] →
     s' = s
     ∧ dialogs r'
       = dialogs r ++ [verdict "Settings reset to defaults successfully." failed]
     ∧ error_messages r' = failed)
  ∧ (failed = [] →
     interface_defaults s' = interface_defaults s
     ∧ global_defaults s' = global_defaults s
     ∧ current_interface s' = Some interface
     ∧ tsoCheckBox s' = tsoCheckBox (derived_state interface s)
     ∧ gsoCheckBox s' = gsoCheckBox (derived_state interface s)
     ∧ groCheckBox s' = groCheckBox (derived_state interface s)
     ∧ powerSaveCheckBox s' = powerSaveCheckBox (derived_state interface s)).
Proof.
  intros Hsel Hsnap s' r' failed ok g. subst s' r'.
  split; [|split; [|split]].
  - unfold failed. rewrite reset_steps_failures. cbv zeta. rewrite Hsnap. cbn [default].
    rewrite !app_nil, !reset_offload_failures, reset_power_save_failures,
      reset_buffers_failures, reset_congestion_failures.
    fold g. unfold ok. tauto.
  - unfold reset_to_defaults. rewrite Hsel. cbv zeta.
    rewrite reset_steps_errors. fold failed.
    set (r1 := feedback _ _ _ _).
    assert (Hd : dialogs r1
                 = dialogs r ++ [verdict "Settings reset to defaults successfully." failed]).
    { unfold r1.
      match goal with |- dialogs (feedback ?a ?b ?c ?x) = _ =>
        destruct (feedback_dialogs a b c x) as [-> _] end.
      by rewrite reset_steps_errors, reset_steps_dialogs. }
    destruct failed as [|m ms]; [|exists []; exact Hd].
    unfold load_interface_settings.
    rewrite (capture_interface_cached _ _ _ _ _ _ Hsnap).
    unfold load_buffer_slider, load_tcp_combo.
    repeat case_match; simplify_eq; cbn [snd dialogs show attempt];
      rewrite Hd, <- ?app_assoc; by eexists.
  - intros Hfailed. unfold reset_to_defaults. rewrite Hsel. cbv zeta.
    rewrite reset_steps_errors. fold failed.
    destruct failed as [|m ms] eqn:E; [done|]. cbn [fst snd].
    split; [done|]. rewrite feedback_errors, reset_steps_errors. fold failed.
    split; [|by rewrite E].
    match goal with |- dialogs (feedback ?a ?b ?c ?x) = _ =>
      destruct (feedback_dialogs a b c x) as [-> _] end.
    by rewrite reset_steps_errors, reset_steps_dialogs; fold failed; rewrite E.
  - intros Hok. unfold reset_to_defaults. rewrite Hsel. cbv zeta.
    rewrite reset_steps_errors. fold failed. rewrite Hok.
    set (r1 := feedback _ _ _ _).
    destruct (load_interface_settings_unfold str w interface s r1)
      as (-> & -> & -> & _).
    rewrite (capture_interface_cached _ _ _ _ _ _ Hsnap). cbn [fst].
    split; [done|]. split; [done|]. split; [done|].
    unfold load_interface_settings.
    rewrite (capture_interface_cached _ _ _ _ _ _ Hsnap).
    unfold derived_state. rewrite Hsnap. cbn [default].
    unfold load_buffer_slider, load_tcp_combo.
    by repeat case_match; simplify_eq.
Qed.

(** X7. Reset tries every field, whatever fails. For every pattern of write
    failures reset attempts the three offload writes, the radio write exactly
    when the snapshot says power saving applies, the [rmem_max] write and the
    congestion-control write; each of these that fails leaves its own entry
    among the recorded failures. *)
Theorem reset_steps_are_independent
    (str : exn -> string) (w : world) (s : optimizer) (interface : string) :
  selected_interface s = Some interface →
  let defaults := default ∅ (interface_defaults s !! interface) in
  let g := global_defaults s in
  let flag feature := on_off (truthy (dict_get feature (Some true) defaults)) in
  let rmem := sysctl_w "net.core.rmem_max" (format_get "net.core.rmem_max" g) in
  let tcp_cc := sysctl_w "net.ipv4.tcp_congestion_control"
                  (format_get "net.ipv4.tcp_congestion_control" g) in
  let tried := attempts (reset_run str w s) in
  let failed := failures (reset_steps str w interface s) in
  (CheckCall (ethtool_K interface "tso" (flag "tso")) ∈ tried
   ∧ CheckCall (ethtool_K interface "gso" (flag "gso")) ∈ tried
   ∧ CheckCall (ethtool_K interface "gro" (flag "gro")) ∈ tried
   ∧ CheckCall rmem ∈ tried
   ∧ CheckCall tcp_cc ∈ tried)
  ∧ (∀ b, dict_get "power_save" None defaults = Some b →
          CheckCall (iw_set_power_save interface (on_off b)) ∈ tried)
  ∧ (dict_get "power_save" None defaults = None →
     ∀ value, CheckCall (iw_set_power_save interface value) ∉ tried)
  ∧ ((∀ e, check_call w (ethtool_K interface "tso" (flag "tso")) = Some e →
           "Failed to reset TSO for " +:+ interface +:+ ": " +:+ str e ∈ failed)
     ∧ (∀ e, check_call w (ethtool_K interface "gso" (flag "gso")) = Some e →
             "Failed to reset GSO for " +:+ interface +:+ ": " +:+ str e ∈ failed)
     ∧ (∀ e, check_call w (ethtool_K interface "gro" (flag "gro")) = Some e →
             "Failed to reset GRO for " +:+ interface +:+ ": " +:+ str e ∈ failed)
     ∧ (∀ b e, dict_get "power_save" None defaults = Some b →
               check_call w (iw_set_power_save interface (on_off b)) = Some e →
               "Failed to reset power saving for " +:+ interface +:+ ": " +:+ str e
                 ∈ failed)
     ∧ (∀ e, check_call w rmem = Some e →
             "Failed to reset buffer sizes: " +:+ str e ∈ failed)
     ∧ (∀ e, check_call w tcp_cc = Some e →
             "Failed to reset TCP congestion control: " +:+ str e ∈ failed)).
Proof.
  intros Hsel defaults g flag rmem tcp_cc tried failed.
  destruct (reset_run_trace str w s interface run0 Hsel) as (reads & Hreads & Ht).
  fold (attempts (reset_run str w s)) in Ht. fold tried in Ht. cbv zeta in Ht.
  fold defaults g in Ht.
  rewrite reset_power_save_attempts, reset_buffers_attempts,
    reset_congestion_attempts in Ht.
  fold rmem tcp_cc in Ht. cbn [trace run0 app] in Ht.
  split; [|split; [|split]].
  - rewrite Ht. repeat split; elem_of_list.
  - intros b Hb. rewrite Ht, Hb. elem_of_list.
  - intros Hnone value Hin.
    assert (Hall : Forall (λ ev, ev ≠ CheckCall (iw_set_power_save interface value))
                     tried).
    { rewrite Ht, Hnone. cbn [app].
      repeat (apply Forall_cons_2; [by intros [=]|]).
      apply Forall_app. split.
      - destruct (check_call w rmem); repeat constructor; by intros [=].
      - apply Forall_cons_2; [by intros [=]|].
        eapply Forall_impl; [exact Hreads|]. by intros []. }
    rewrite Forall_forall in Hall. by apply Hall in Hin.
  - unfold failed. rewrite reset_steps_failures. cbv zeta. fold defaults g.
    unfold failures, reset_offload, reset_power_save, reset_buffers,
      reset_congestion. subst flag rmem tcp_cc. cbv beta.
    repeat split.
    + intros e He. rewrite He. elem_of_list.
    + intros e He. rewrite He. elem_of_list.
    + intros e He. rewrite He. elem_of_list.
    + intros b e Hb He. rewrite Hb. cbn [truthy]. rewrite He. elem_of_list.
    + intros e He. rewrite He. elem_of_list.
    + intros e He. rewrite He. elem_of_list.
Qed.

(** *** What every state of a session satisfies *)

Lemma parse_offload_lines_flags lines d :
  (∀ key v, d !! key = Some v → key ∈ ["tso"; "gso"; "gro"] ∧ is_Some v) →
  ∀ key v, foldl parse_offload_line d lines !! key = Some v →
           key ∈ ["tso"; "gso"; "gro"] ∧ is_Some v.
Proof.
  revert d. induction lines as [|line lines IH]; intros d Hd; [exact Hd|].
  cbn [foldl]. apply IH. intros key v. unfold parse_offload_line.
  repeat case_match; try apply Hd;
    (intros Hk; apply lookup_insert_Some in Hk as [[<- <-]|[_ Hk]];
     [split; [elem_of_list|by eexists] | by apply Hd]).
Qed.

Lemma capture_interface_well_formed str w interface s r snap :
  (capture_interface str w interface s r).1 !! interface = Some snap →
  interface_defaults s !! interface = None →
  well_formed_snapshot snap.
Proof.
  intros Hsnap Hfresh. unfold capture_interface in Hsnap. rewrite Hfresh in Hsnap.
  destruct (detect_offload str w interface ∅ r) as [d1 r1] eqn:E1.
  destruct (detect_power_save w interface d1 r1) as [d2 r2] eqn:E2.
  cbn [fst] in Hsnap. rewrite lookup_insert_eq in Hsnap. simplify_eq.
  assert (H1 : ∀ key v, d1 !! key = Some v → key ∈ ["tso"; "gso"; "gro"] ∧ is_Some v).
  { unfold detect_offload in E1. destruct (check_output w _) as [e|output].
    - simplify_eq. intros key v Hk.
      repeat (apply lookup_insert_Some in Hk as [[<- <-]|[_ Hk]];
              [split; [elem_of_list|by eexists]|]).
      by rewrite lookup_empty in Hk.
    - simplify_eq. apply parse_offload_lines_flags. intros key v Hk.
      by rewrite lookup_empty in Hk. }
  assert (H2 : ∃ p, snap = <["power_save" := p]> d1).
  { unfold detect_power_save in E2. repeat case_match; simplify_eq; by eexists. }
  destruct H2 as [p ->]. split.
  - rewrite lookup_insert_eq. by eexists.
  - intros key v Hk. apply lookup_insert_Some in Hk as [[<- <-]|[Hne Hk]].
    + split; [elem_of_list|done].
    + destruct (H1 key v Hk) as [Hin Hv]. split; [|done].
      set_unfold in Hin. set_unfold. tauto.
Qed.

Lemma load_interface_settings_boxes str w interface s r :
  let d := default ∅ ((capture_interface str w interface s r).1 !! interface) in
  let s' := (load_interface_settings str w interface s r).1 in
  tsoCheckBox s' = tsoCheckBox (show_interface_defaults d s)
  ∧ gsoCheckBox s' = gsoCheckBox (show_interface_defaults d s)
  ∧ groCheckBox s' = groCheckBox (show_interface_defaults d s)
  ∧ powerSaveCheckBox s' = powerSaveCheckBox (show_interface_defaults d s).
Proof.
  unfold load_interface_settings.
  destruct (capture_interface str w interface s r) as [idefs r1]. cbn [fst].
  unfold load_buffer_slider, load_tcp_combo.
  by repeat case_match; simplify_eq.
Qed.

Lemma findText_bound text i : findText text = Some i → i < length tcp_items.
Proof.
  unfold findText. intros H.
  destruct (list_find _ _) as [[j x]|] eqn:E; [|done]. cbn in H. simplify_eq.
  apply list_find_Some in E as (Hl & _). by apply lookup_lt_Some in Hl.
Qed.

Lemma load_interface_settings_consistent str w interface s r :
  consistent s → consistent (load_interface_settings str w interface s r).1.
Proof.
  intros (Hwf & Hcur & Hdis & Htcp).
  destruct (load_interface_settings_unfold str w interface s r)
    as (Hi & Hc & _).
  destruct (load_interface_settings_boxes str w interface s r) as (_ & _ & _ & Hb).
  cbv zeta in Hi, Hb.
  destruct (load_interface_settings_widgets str w interface s r) as [_ Ht].
  assert (Hstored := load_interface_settings_stores str w interface s r).
  rewrite Hi in Hstored. destruct Hstored as [snap Hsnap].
  rewrite Hsnap in Hb. cbn [default] in Hb. change (id snap) with snap in Hb.
  unfold consistent. rewrite Hi, Hc, Hb, Ht.
  split; [|split; [|split]].
  - intros i d Hd.
    destruct (interface_defaults s !! interface) as [old|] eqn:Hold.
    + rewrite (capture_interface_cached _ _ _ _ _ _ Hold) in Hd. by eapply Hwf.
    + destruct (decide (i = interface)) as [->|Hne].
      * by eapply capture_interface_well_formed.
      * destruct (capture_interface_fresh str w interface s r Hold) as (x & Hx & _).
        rewrite Hx, lookup_insert_ne in Hd by done. by eapply Hwf.
  - intros i [= <-]. exists snap. split; [done|].
    unfold show_interface_defaults. cbn [powerSaveCheckBox].
    destruct (dict_get "power_save" None snap); cbn; split; try done;
      first [by eexists | by intros [? ?]].
  - unfold show_interface_defaults. cbn [powerSaveCheckBox].
    by destruct (dict_get "power_save" None snap).
  - destruct (check_output w _) as [|output]; [done|].
    destruct (findText _) as [i|] eqn:E; [|done]. by eapply findText_bound.
Qed.

Lemma step_consistent str w a s r :
  consistent s → consistent (step str w a s r).1.
Proof.
  intros Hs. destruct a; cbn [step fst].
  - by apply load_interface_settings_consistent.
  - unfold load_global_defaults. by repeat case_match.
  - done.
  - unfold reset_to_defaults. repeat case_match; cbn [fst]; try done;
      by apply load_interface_settings_consistent.
  - done.
  - done.
  - done.
  - destruct Hs as (Hwf & Hcur & Hdis & Htcp).
    split; [exact Hwf|]. split; [|split; [|exact Htcp]].
    + intros i Hi. destruct (Hcur i Hi) as (d & Hd & Hen). exists d.
      split; [done|]. cbn [edit powerSaveCheckBox]. unfold click.
      by destruct (isEnabled (powerSaveCheckBox s)) eqn:E; cbn; rewrite ?E.
    + cbn [edit powerSaveCheckBox]. unfold click.
      destruct (isEnabled (powerSaveCheckBox s)) eqn:E; cbn; rewrite ?E; by auto.
  - done.
  - destruct Hs as (Hwf & Hcur & Hdis & Htcp).
    split; [exact Hwf|]. split; [exact Hcur|]. split; [exact Hdis|].
    cbn [edit tcpComboBox]. by case_bool_decide.
Qed.

Lemma session_consistent str acts s r :
  consistent s → consistent (session str acts s r).1.
Proof.
  revert s r. induction acts as [|[w a] acts IH]; intros s r Hs; [done|].
  cbn [session]. pose proof (step_consistent str w a s r Hs) as Hs'.
  destruct (step str w a s r) as [s' r']. by apply IH.
Qed.

Lemma initial_consistent : consistent initial.
Proof.
  split; [|split; [|split]].
  - intros i d Hd. cbn in Hd. by rewrite lookup_empty in Hd.
  - by intros i Hi.
  - by intros Hd.
  - cbn. lia.
Qed.

(** X8. Every state of a session is consistent. Every stored snapshot has
    the power-save key, no key besides tso, gso, gro and power_save, and a
    [bool] for each offload flag it holds; the selected interface always has
    a stored snapshot, and the power-save box is enabled exactly when that
    snapshot says power saving applies; a disabled power-save box is
    unchecked; and the algorithm box points at one of its two items. *)
Theorem session_states_are_consistent
    (str : exn -> string) (acts : list (world * action)) :
  consistent (session str acts initial run0).1.
Proof.
  assert (Hgen : ∀ s r, consistent s → consistent (session str acts s r).1).
  { induction acts as [|[w a] acts IH]; intros s r Hs; [done|].
    cbn [session]. pose proof (step_consistent str w a s r Hs) as Hs'.
    destruct (step str w a s r) as [s' r']. by apply IH. }
  apply Hgen. split; [|split; [|split]].
  - intros i d Hd. cbn in Hd. by rewrite lookup_empty in Hd.
  - by intros i Hi.
  - by intros Hd.
  - cbn. lia.
Qed.

(** *** Power saving: detection and the inert control *)

(** X9. Where power saving does not apply it is never touched. In every
    state of a session in which the snapshot of the selected interface marks
    power saving as not applicable, a click on the power-save box changes
    nothing, and neither apply nor reset attempts the radio write or the
    config-file write, whatever the operating system would answer. *)
Theorem power_save_is_left_alone_when_not_applicable
    (str : exn -> string) (acts : list (world * action)) (w : world)
    (s : optimizer) (interface : string) (snap : gmap string pyval) :
  s = (session str acts initial run0).1 →
  selected_interface s = Some interface →
  interface_defaults s !! interface = Some snap →
  dict_get "power_save" None snap = None →
  edit ClickPowerSave s = s
  ∧ (∀ ev, ev ∈ attempts (apply_settings str w s) →
           is_fallback ev = false
           ∧ ∀ value, ev ≠ CheckCall (iw_set_power_save interface value))
  ∧ (∀ ev, ev ∈ attempts (reset_run str w s) →
           is_fallback ev = false
           ∧ ∀ value, ev ≠ CheckCall (iw_set_power_save interface value)).
Proof.
  intros Hs Hsel Hsnap Hna.
  assert (Hcons : consistent s)
    by (rewrite Hs; apply session_consistent, initial_consistent).
  destruct Hcons as (_ & Hcur & Hdis & _).
  assert (Hi : current_interface s = Some interface).
  { unfold selected_interface in Hsel. destruct (current_interface s); [|done].
    case_bool_decide; congruence. }
  destruct (Hcur interface Hi) as (d & Hd & Hen).
  rewrite Hsnap in Hd. injection Hd as <-. rewrite Hna in Hen.
  assert (Hoff : isEnabled (powerSaveCheckBox s) = false).
  { destruct (isEnabled (powerSaveCheckBox s)); [|done].
    by destruct (proj1 Hen eq_refl). }
  specialize (Hdis Hoff).
  split; [|split].
  - unfold edit, click. rewrite Hoff. by destruct s.
  - rewrite (apply_settings_attempts str w _ interface Hsel).
    rewrite apply_power_save_attempts, apply_buffers_attempts, Hoff.
    cbn [app]. intros ev Hin.
    repeat (apply elem_of_cons in Hin as [->|Hin]; [by split|]).
    destruct (check_call w _);
      repeat (apply elem_of_cons in Hin as [->|Hin]; [by split|]);
      by apply elem_of_nil in Hin.
  - destruct (reset_run_trace str w _ interface run0 Hsel) as (reads & Hreads & Ht).
    fold (attempts (reset_run str w s)) in Ht.
    cbv zeta in Ht. rewrite Ht, Hsnap. change (default ∅ (Some snap)) with snap.
    cbn [trace run0 app].
    rewrite reset_power_save_attempts, reset_buffers_attempts,
      reset_congestion_attempts, Hna. cbn [app]. intros ev Hin.
    repeat (apply elem_of_cons in Hin as [->|Hin]; [by split|]).
    apply elem_of_app in Hin as [Hin|Hin].
    + destruct (check_call w _);
        repeat (apply elem_of_cons in Hin as [->|Hin]; [by split|]);
        by apply elem_of_nil in Hin.
    + apply elem_of_cons in Hin as [->|Hin]; [by split|].
      rewrite Forall_forall in Hreads. apply Hreads in Hin.
      by destruct ev.
Qed.

Lemma power_save_is_left_alone_when_not_applicable_witness :
  eth0_undetected = (session sample_str [(silent_ethtool, InterfaceChange "eth0")]
                       initial run0).1
  ∧ selected_interface eth0_undetected = Some "eth0"
  ∧ interface_defaults eth0_undetected !! "eth0" = Some {["power_save" := None]}
  ∧ dict_get "power_save" None ({["power_save" := None]} : gmap string pyval) = None
  ∧ edit ClickPowerSave eth0_undetected = eth0_undetected.
Proof.
  split; [reflexivity|]. split; [reflexivity|]. split; [reflexivity|].
  split; [reflexivity|].
  exact (proj1
    (power_save_is_left_alone_when_not_applicable sample_str
       [(silent_ethtool, InterfaceChange "eth0")] silent_ethtool eth0_undetected
       "eth0" {["power_save" := None]} eq_refl eq_refl eq_refl eq_refl)).
Defined.

(** X10. How power saving is detected. When the snapshot of an interface is
    captured, a failed power-save read is silent: the snapshot records
    not-applicable, the box is disabled and unchecked, and the only warning
    capture can show is the one about offload flags. A successful read
    enables the box and checks it exactly when the answer, stripped and in
    lower case, contains "off"; the snapshot records the opposite as the
    power-save state. *)
Theorem power_save_detection
    (str : exn -> string) (w : world) (interface : string) (s : optimizer) (r : run) :
  interface_defaults s !! interface = None →
  let s' := (load_interface_settings str w interface s r).1 in
  let box := powerSaveCheckBox s' in
  let answer := check_output w ["iw"; "dev"; interface; "get"; "power_save"] in
  ∃ snap,
    interface_defaults s' !! interface = Some snap
    ∧ (∀ e, answer = inl e →
            snap !! "power_save" = Some None
            ∧ isEnabled box = false ∧ isChecked box = false)
    ∧ (∀ output, answer = inr output →
         let off := PyStr.contains "off" (PyStr.lower (PyStr.strip output)) in
         snap !! "power_save" = Some (Some (negb off))
         ∧ isEnabled box = true ∧ isChecked box = off)
    ∧ dialogs (capture_interface str w interface s r).2
      = dialogs r ++ match check_output w ["ethtool"; "-k"; interface] with
                     | inl e => [offload_warning str interface e]
                     | inr _ => []
                     end.
Proof.
  intros Hfresh s' box answer.
  destruct (load_interface_settings_unfold str w interface s r) as (Hi & _).
  destruct (load_interface_settings_boxes str w interface s r) as (_ & _ & _ & Hb).
  cbv zeta in Hi, Hb. fold s' in Hi, Hb. fold box in Hb.
  unfold capture_interface in *. rewrite Hfresh in *.
  destruct (detect_offload str w interface ∅ r) as [d1 r1] eqn:E1.
  destruct (detect_power_save w interface d1 r1) as [d2 r2] eqn:E2.
  cbn [fst snd] in *. rewrite lookup_insert_eq in Hb. cbn [default] in Hb.
  change (id d2) with d2 in Hb.
  exists d2. split; [by rewrite Hi, lookup_insert_eq|].
  unfold detect_power_save in E2. fold answer in E2.
  unfold show_interface_defaults, dict_get in Hb. cbn [powerSaveCheckBox] in Hb.
  split; [|split].
  - intros e He. rewrite He in E2. simplify_eq.
    rewrite lookup_insert_eq in Hb. cbn in Hb. rewrite lookup_insert_eq, Hb. done.
  - intros output Ho. rewrite Ho in E2. cbv zeta.
    destruct (PyStr.contains "off" (PyStr.lower (PyStr.strip output)));
      simplify_eq; rewrite lookup_insert_eq in Hb; cbn in Hb;
      rewrite lookup_insert_eq, Hb; done.
  - assert (dialogs r2 = dialogs r1) as ->.
    { clear Hb. unfold answer in E2.
      destruct (check_output w ["iw"; "dev"; interface; "get"; "power_save"]);
        [by simplify_eq|]. case_match; by simplify_eq. }
    unfold detect_offload in E1.
    destruct (check_output w ["ethtool"; "-k"; interface]); simplify_eq; [done|].
    cbn. by rewrite app_nil_r.
Qed.

Lemma power_save_detection_witness :
  interface_defaults initial !! "wlan0" = None
  ∧ ∃ snap,
      interface_defaults
        (load_interface_settings sample_str (healthy (Some "off") "212992" "cubic")
           "wlan0" initial run0).1 !! "wlan0" = Some snap
      ∧ snap !! "power_save" = Some (Some false).
Proof.
  split; [reflexivity|].
  destruct (power_save_detection sample_str (healthy (Some "off") "212992" "cubic")
              "wlan0" initial run0 eq_refl) as (snap & Hs & _ & Hon & _).
  exists snap. split; [exact Hs|].
  exact (proj1 (Hon _ eq_refl)).
Defined.

(** *** The further properties on the sample sessions *)

Lemma global_snapshot_is_frozen_witness :
  global_defaults globals_loaded ≠ ∅
  ∧ global_defaults (session sample_str eth0_session globals_loaded run0).1
    = global_defaults globals_loaded.
Proof.
  assert (Hne : global_defaults globals_loaded ≠ ∅)
    by exact (proj2 (proj2 (proj2
         (global_snapshot_lookup ("212992" +:+ PyStr.nl) ("212992" +:+ PyStr.nl)
            ("cubic" +:+ PyStr.nl))))).
  split; [exact Hne|].
  exact (proj1 (global_snapshot_is_frozen sample_str eth0_session globals_loaded
                  run0 Hne)).
Defined.

Lemma reset_writes_back_the_captured_texts_witness :
  global_defaults initial = ∅
  ∧ selected_interface
      (session sample_str eth0_session globals_loaded globals_loaded_run).1
    = Some "eth0"
  ∧ List.filter is_kernel_write
      (attempts (reset_run sample_str usual_kernel
                   (session sample_str eth0_session globals_loaded
                      globals_loaded_run).1))
    = [ CheckCall ["sysctl"; "-w"; "net.core.rmem_max=212992"];
        CheckCall ["sysctl"; "-w"; "net.core.wmem_max=212992"];
        CheckCall ["sysctl"; "-w"; "net.ipv4.tcp_congestion_control=cubic"] ].
Proof.
  split; [reflexivity|]. split; [reflexivity|].
  exact (reset_writes_back_the_captured_texts sample_str usual_kernel initial run0
           ("212992" +:+ PyStr.nl) ("212992" +:+ PyStr.nl) ("cubic" +:+ PyStr.nl)
           eth0_session usual_kernel "eth0"
           eq_refl eq_refl eq_refl eq_refl eq_refl).
Defined.

Lemma apply_verdict_is_truthful_witness :
  selected_interface wlan0_tuned = Some "wlan0"
  ∧ dialogs (apply_settings sample_str failing_writes wlan0_tuned run0)
    = [ verdict "Settings applied successfully."
          (failures (apply_settings sample_str failing_writes wlan0_tuned)) ].
Proof.
  split; [reflexivity|].
  exact (proj1 (apply_verdict_is_truthful sample_str failing_writes wlan0_tuned
                  "wlan0" run0 eq_refl)).
Defined.

Lemma reset_verdict_and_redisplay_witness :
  selected_interface wlan0_found_off = Some "wlan0"
  ∧ interface_defaults wlan0_found_off !! "wlan0" = Some wlan0_snapshot
  ∧ ∃ later,
      dialogs (reset_to_defaults sample_str radio_refuses wlan0_found_off run0).2
      = verdict "Settings reset to defaults successfully."
          (failures (reset_steps sample_str radio_refuses "wlan0" wlan0_found_off))
        :: later.
Proof.
  split; [reflexivity|]. split; [reflexivity|].
  exact (proj1 (proj2
    (reset_verdict_and_redisplay sample_str radio_refuses wlan0_found_off "wlan0"
       wlan0_snapshot run0 eq_refl eq_refl))).
Defined.

Lemma reset_steps_are_independent_witness :
  selected_interface wlan0_found_off = Some "wlan0"
  ∧ check_call radio_refuses ["iw"; "dev"; "wlan0"; "set"; "power_save"; "off"]
    = Some (SubprocessError "exit status 1")
  ∧ CheckCall ["sysctl"; "-w"; "net.ipv4.tcp_congestion_control=None"]
      ∈ attempts (reset_run sample_str radio_refuses wlan0_found_off).
Proof.
  split; [reflexivity|]. split; [reflexivity|].
  exact (proj2 (proj2 (proj2 (proj2 (proj1
    (reset_steps_are_independent sample_str radio_refuses wlan0_found_off "wlan0"
       eq_refl)))))).
Defined.

(** *** Apply and the next interface switch *)

Lemma tier_is_read_back tier :
  (1 ≤ tier ≤ 8)%Z →
  slider_value (PyStr.strip (pretty (buffer_value tier) +:+ PyStr.nl)) = inr tier.
Proof.
  intros Ht.
  assert (tier = 1 ∨ tier = 2 ∨ tier = 3 ∨ tier = 4 ∨ tier = 5 ∨ tier = 6
          ∨ tier = 7 ∨ tier = 8)%Z as Hcases by lia.
  repeat destruct Hcases as [->|Hcases]; try subst tier; reflexivity.
Qed.

(** X11. What apply wrote is read back as the same setting. For every tier
    from 1 to 8 the byte text apply writes is a number whose tier is that
    tier again, and each algorithm the box offers is found at its own index.
    So when the kernel reports the buffer size and the algorithm that apply
    wrote, selecting an interface leaves the slider and the algorithm box
    where they are. *)
Theorem applied_settings_survive_interface_change
    (str : exn -> string) (w : world) (interface : string) (s : optimizer) (r : run) :
  (1 ≤ bufferSlider s ≤ 8)%Z →
  tcpComboBox s < length tcp_items →
  check_output w ["sysctl"; "-n"; "net.core.rmem_max"]
    = inr (pretty (buffer_value (bufferSlider s)) +:+ PyStr.nl) →
  check_output w ["sysctl"; "-n"; "net.ipv4.tcp_congestion_control"]
    = inr (currentText s +:+ PyStr.nl) →
  slider_value (pretty (buffer_value (bufferSlider s))) = inr (bufferSlider s)
  ∧ findText (currentText s) = Some (tcpComboBox s)
  ∧ bufferSlider (on_interface_change str w interface s r).1 = bufferSlider s
  ∧ tcpComboBox (on_interface_change str w interface s r).1 = tcpComboBox s.
Proof.
  intros Htier Hidx Hrmem Hcc.
  unfold on_interface_change.
  destruct (load_interface_settings_widgets str w interface s r) as [-> ->].
  rewrite Hrmem, Hcc, tier_is_read_back by done.
  assert (Hcases : tcpComboBox s = 0 ∨ tcpComboBox s = 1) by (cbn in Hidx; lia).
  unfold currentText.
  assert (tier_cases : (bufferSlider s = 1 ∨ bufferSlider s = 2 ∨ bufferSlider s = 3
                        ∨ bufferSlider s = 4 ∨ bufferSlider s = 5 ∨ bufferSlider s = 6
                        ∨ bufferSlider s = 7 ∨ bufferSlider s = 8)%Z) by lia.
  split.
  { repeat destruct tier_cases as [->|tier_cases]; try rewrite tier_cases;
      reflexivity. }
  destruct Hcases as [-> | ->]; cbn; rewrite slider_bound_id by done; done.
Qed.

Lemma applied_settings_survive_interface_change_witness :
  (1 ≤ bufferSlider eth0_heavy_bbr ≤ 8)%Z
  ∧ tcpComboBox eth0_heavy_bbr < length tcp_items
  ∧ bufferSlider
      (on_interface_change sample_str (healthy (Some "on") "4194304" "bbr") "wlan0"
         eth0_heavy_bbr run0).1 = bufferSlider eth0_heavy_bbr.
Proof.
  assert (H1 : (1 ≤ bufferSlider eth0_heavy_bbr ≤ 8)%Z) by (vm_compute; split; discriminate).
  assert (H2 : tcpComboBox eth0_heavy_bbr < length tcp_items) by (vm_compute; lia).
  split; [exact H1|]. split; [exact H2|].
  exact (proj1 (proj2 (proj2
    (applied_settings_survive_interface_change sample_str
       (healthy (Some "on") "4194304" "bbr") "wlan0" eth0_heavy_bbr run0
       H1 H2 eq_refl eq_refl)))).
Defined.

(** X12. Capturing only reads and apply only writes. Selecting an interface
    and loading the global defaults add nothing but reads to the log; apply
    adds nothing but writes; reset adds writes and then, only when none of
    them failed, the reads of the reload. *)
Theorem capture_only_reads_and_apply_only_writes
    (str : exn -> string) (w : world) (interface : string) (s : optimizer) (r : run) :
  (∃ reads,
     trace (on_interface_change str w interface s r).2 = trace r ++ reads
     ∧ Forall (λ ev, is_read ev = true) reads)
  ∧ (∃ reads,
       trace (load_global_defaults str w s r).2 = trace r ++ reads
       ∧ Forall (λ ev, is_read ev = true) reads)
  ∧ (∃ writes,
       trace (apply_settings str w s r) = trace r ++ writes
       ∧ Forall (λ ev, is_read ev = false) writes)
  ∧ (∃ writes reads,
       trace (reset_to_defaults str w s r).2 = trace r ++ writes ++ reads
       ∧ Forall (λ ev, is_read ev = false) writes
       ∧ Forall (λ ev, is_read ev = true) reads
       ∧ (error_messages (reset_to_defaults str w s r).2 ≠ [] → reads = [])).
Proof.
  split; [|split; [|split]].
  - unfold on_interface_change. rewrite load_interface_settings_trace.
    eexists. split; [reflexivity|]. case_match; repeat constructor.
  - unfold load_global_defaults.
    repeat case_match; cbn [snd trace attempt show];
      rewrite <- ?app_assoc; first [ eexists; split; [reflexivity|repeat constructor]
                                  | exists []; split; [by rewrite app_nil_r|constructor] ].
  - exists (attempts (apply_settings str w s)).
    split; [by destruct (apply_settings_appends str w s r)|].
    apply apply_settings_writes.
  - unfold reset_to_defaults.
    destruct (selected_interface s) as [interface'|]; cbv zeta.
    + assert (Ht : ∀ a b c, trace (feedback a b c (reset_steps str w interface' s r))
                   = trace r ++ attempts (reset_steps str w interface' s)).
      { intros. rewrite feedback_trace. unfold attempts.
        rewrite !reset_steps_trace. reflexivity. }
      exists (attempts (reset_steps str w interface' s)).
      destruct (error_messages (reset_steps str w interface' s r)) eqn:E.
      * eexists. split; [|split; [apply reset_steps_writes|split]].
        -- rewrite load_interface_settings_trace, Ht, <- app_assoc. reflexivity.
        -- case_match; repeat constructor.
        -- intros Hne. exfalso. apply Hne.
           destruct (load_interface_settings_unfold str w interface' s
                       (feedback "Errors occurred during resetting to defaults:"
                          "Settings reset to defaults successfully."
                          "All settings reset to defaults successfully."
                          (reset_steps str w interface' s r)))
             as (_ & _ & _ & _ & ->).
           destruct (interface_defaults s !! interface') eqn:Hi.
           ++ rewrite (capture_interface_cached _ _ _ _ _ _ Hi). cbn [snd].
              by rewrite feedback_errors.
           ++ destruct (capture_interface_fresh str w interface' s
                          (feedback "Errors occurred during resetting to defaults:"
                             "Settings reset to defaults successfully."
                             "All settings reset to defaults successfully."
                             (reset_steps str w interface' s r)) Hi)
                as (? & _ & _ & ->).
              by rewrite feedback_errors.
      * exists []. cbn [snd]. rewrite Ht, app_nil_r.
        split; [done|]. split; [apply reset_steps_writes|]. split; [constructor|done].
    + exists [], []. cbn. rewrite !app_nil_r. repeat split; constructor.
Qed.

(** * Properties of the dependency check and of the start *)

Lemma package_map_unknown dep :
  dep ∉ required_commands → package_map !! dep = None.
Proof.
  intros Hdep. unfold package_map. cbn [list_to_map foldr uncurry fst snd].
  unfold required_commands in Hdep. set_unfold in Hdep.
  rewrite !lookup_insert_ne by (intros <-; tauto). apply lookup_empty.
Qed.

Lemma package_map_managers dep m pkg_mgr pkg :
  package_map !! dep = Some m → m !! pkg_mgr = Some pkg →
  pkg_mgr ∈ package_managers.
Proof.
  intros Hm Hp. apply elem_of_list_to_map_2 in Hm.
  repeat (apply elem_of_cons in Hm as [Hm|Hm];
          [ injection Hm as -> ->;
            repeat (apply lookup_insert_Some in Hp as [[<- _]|[_ Hp]];
                    [elem_of_list|]);
            by rewrite lookup_empty in Hp |]).
  by apply elem_of_nil in Hm.
Qed.

(** X13. Which package provides a command. With one of the four known package
    managers, ethtool and iw are installed under their own names, sysctl
    comes with procps on apt-get and procps-ng elsewhere, pkexec with
    policykit-1 on apt-get and polkit elsewhere, and any other command is
    asked for under its own name; with an unknown package manager every
    command is asked for under its own name. The package list keeps the
    order and the length of the list of missing commands. *)
Theorem package_for_each_command (pkg_mgr dep : string) (missing : list string) :
  (pkg_mgr ∈ package_managers →
   package_for pkg_mgr dep =
     if bool_decide (dep = "sysctl")
     then (if bool_decide (pkg_mgr = "apt-get") then "procps" else "procps-ng")
     else if bool_decide (dep = "pkexec")
     then (if bool_decide (pkg_mgr = "apt-get") then "policykit-1" else "polkit")
     else dep)
  ∧ (pkg_mgr ∉ package_managers → package_for pkg_mgr dep = dep)
  ∧ length (map (package_for pkg_mgr) missing) = length missing
  ∧ (∀ i cmd, missing !! i = Some cmd →
              map (package_for pkg_mgr) missing !! i = Some (package_for pkg_mgr cmd)).
Proof.
  split; [|split; [|split]].
  - intros Hmgr. unfold package_for.
    destruct (decide (dep ∈ required_commands)) as [Hdep|Hdep].
    + unfold required_commands, package_managers in *.
      set_unfold in Hdep. set_unfold in Hmgr.
      destruct Hdep as [->|[->|[->|[->|[]]]]];
        destruct Hmgr as [->|[->|[->|[->|[]]]]]; reflexivity.
    + rewrite package_map_unknown by done. cbn [default]. rewrite lookup_empty.
      unfold required_commands in Hdep. set_unfold in Hdep.
      rewrite !bool_decide_eq_false_2 by (intros ->; tauto). done.
  - intros Hmgr. unfold package_for.
    destruct (package_map !! dep) as [m|] eqn:Hm; cbv [default from_option id].
    + destruct (m !! pkg_mgr) as [pkg|] eqn:Hp; [|reflexivity].
      destruct Hmgr. by eapply package_map_managers.
    + rewrite lookup_empty. reflexivity.
  - apply length_map.
  - intros i cmd Hi. by rewrite list_lookup_fmap, Hi.
Qed.

Lemma package_for_each_command_witness :
  "dnf" ∈ package_managers ∧ package_for "dnf" "sysctl" = "procps-ng".
Proof.
  assert (H : "dnf" ∈ package_managers) by elem_of_list.
  split; [exact H|].
  exact (proj1 (package_for_each_command "dnf" "sysctl" []) H).
Defined.

Lemma find_first {A} (P : A → bool) (l : list A) :
  match List.find P l with
  | Some x => ∃ skipped rest,
      l = skipped ++ x :: rest ∧ P x = true ∧ ∀ y, y ∈ skipped → P y = false
  | None => ∀ y, y ∈ l → P y = false
  end.
Proof.
  induction l as [|a l IH]; cbn [List.find].
  - intros y Hy. by apply elem_of_nil in Hy.
  - destruct (P a) eqn:Ha.
    + exists [], l. split; [done|]. split; [done|].
      intros y Hy. by apply elem_of_nil in Hy.
    + destruct (List.find P l) as [x|].
      * destruct IH as (skipped & rest & -> & Hx & Hs).
        exists (a :: skipped), rest. split; [done|]. split; [done|].
        intros y [->|Hy]%elem_of_cons; auto.
      * intros y [->|Hy]%elem_of_cons; auto.
Qed.

(** X14. The package manager is the first installed one. Whatever is installed,
    the manager the installation uses is found by [which], every manager
    that comes before it in the order apt-get, dnf, yum, pacman is not
    installed, and no manager is detected only when none of the four is
    installed. *)
Theorem first_installed_package_manager_is_used (h : host) (sh : shell) :
  match detect_package_manager h sh with
  | Some mgr =>
      ∃ skipped rest,
        ["apt-get"; "dnf"; "yum"; "pacman"] = skipped ++ mgr :: rest
        ∧ is_Some (which h (commands sh) mgr)
        ∧ ∀ other, other ∈ skipped → which h (commands sh) other = None
  | None =>
      ∀ mgr, mgr ∈ ["apt-get"; "dnf"; "yum"; "pacman"] →
             which h (commands sh) mgr = None
  end.
Proof.
  unfold detect_package_manager.
  pose proof (find_first
    (λ mgr, bool_decide (is_Some (which h (commands sh) mgr))) package_managers) as H.
  destruct (List.find _ package_managers) as [mgr|].
  - destruct H as (skipped & rest & Heq & Hm & Hs).
    exists skipped, rest. split; [exact Heq|]. split.
    + by apply bool_decide_eq_true_1 in Hm.
    + intros other Ho. apply Hs in Ho. apply bool_decide_eq_false_1 in Ho.
      destruct (which h (commands sh) other); [|done]. destruct Ho. by eexists.
  - intros mgr Hm. apply H in Hm. apply bool_decide_eq_false_1 in Hm.
    destruct (which h (commands sh) mgr); [|done]. destruct Hm. by eexists.
Qed.

Lemma detect_package_manager_known h sh mgr :
  detect_package_manager h sh = Some mgr → mgr ∈ package_managers.
Proof.
  unfold detect_package_manager. intros H.
  pose proof (find_first
    (λ mgr, bool_decide (is_Some (which h (commands sh) mgr))) package_managers) as F.
  rewrite H in F. destruct F as (skipped & rest & -> & _). elem_of_list.
Qed.

(** X15. The commands of the installation, by package manager. With apt-get the
    program runs apt-get update first and apt-get install -y with the
    packages only when the update exits with status 0; with dnf, yum and
    pacman it runs the one install command. Nothing else is run, and without
    a package manager no command is run at all and the answer is False. *)
Theorem installation_commands (h : host) (missing : list string) (sh : shell) :
  let result := (install_dependencies h missing sh).1 in
  let sh' := (install_dependencies h missing sh).2 in
  (detect_package_manager h sh = None →
   result = Returned false ∧ commands sh' = commands sh)
  ∧ (∀ mgr, detect_package_manager h sh = Some mgr →
       let packages := map (package_for mgr) missing in
       commands sh' = commands sh ++
         if bool_decide (mgr = "apt-get") then
           ["apt-get"; "update"] ::
           match call h (commands sh) ["apt-get"; "update"] with
           | None => [["apt-get"; "install"; "-y"] ++ packages]
           | Some _ => []
           end
         else if bool_decide (mgr = "dnf") then [["dnf"; "install"; "-y"] ++ packages]
         else if bool_decide (mgr = "yum") then [["yum"; "install"; "-y"] ++ packages]
         else [["pacman"; "-S"; "--noconfirm"] ++ packages]).
Proof.
  cbv zeta. unfold install_dependencies. split.
  - intros ->. done.
  - intros mgr Hmgr. rewrite Hmgr.
    apply detect_package_manager_known in Hmgr.
    unfold package_managers in Hmgr. set_unfold in Hmgr.
    unfold run_command, install_failed, install_succeeded, write_out, write_err.
    cbn [commands questions err_lines out_lines].
    destruct Hmgr as [->|[->|[->|[->|[]]]]];
      repeat (case_bool_decide; [try done|try done]);
      repeat case_match; simplify_eq; cbn; rewrite <- ?app_assoc; try done.
Qed.

Lemma installation_commands_witness :
  detect_package_manager (debian_without_ethtool (Clicked true)) shell0
    = Some "apt-get"
  ∧ commands (install_dependencies (debian_without_ethtool (Clicked true))
                ["ethtool"] shell0).2
    = [ ["apt-get"; "update"]; ["apt-get"; "install"; "-y"; "ethtool"] ].
Proof.
  split; [reflexivity|].
  exact (proj2 (installation_commands (debian_without_ethtool (Clicked true))
                  ["ethtool"] shell0) "apt-get" eq_refl).
Defined.

Lemma install_dependencies_cases (h : host) (missing : list string) (sh : shell) :
  let result := (install_dependencies h missing sh).1 in
  let sh' := (install_dependencies h missing sh).2 in
  let told (c : option call_error) : outcome bool :=
    match c with
    | None => Returned true
    | Some (CalledProcessError _) => Returned false
    | Some (OtherError text) => Raised text
    end in
  questions sh' = questions sh
  ∧ ((detect_package_manager h sh = None ∧ result = Returned false
      ∧ commands sh' = commands sh)
     ∨ (∃ c1, detect_package_manager h sh ≠ None
              ∧ commands sh' = commands sh ++ [c1]
              ∧ result = told (call h (commands sh) c1))
     ∨ (∃ c1 c2, detect_package_manager h sh ≠ None
                 ∧ commands sh' = commands sh ++ [c1; c2]
                 ∧ call h (commands sh) c1 = None
                 ∧ result = told (call h (commands sh ++ [c1]) c2))).
Proof.
  cbv zeta. unfold install_dependencies.
  destruct (detect_package_manager h sh) as [mgr|]; [|split; [done|by left]].
  unfold run_command, install_failed, install_succeeded, write_out, write_err.
  cbn [commands questions err_lines out_lines].
  destruct (bool_decide (mgr = "apt-get")).
  - destruct (call h (commands sh) ["apt-get"; "update"]) as [error|] eqn:Hu.
    + split; [by destruct error|]. right. left. eexists.
      split; [done|]. rewrite Hu. by destruct error.
    + destruct (call h (commands sh ++ [["apt-get"; "update"]]) _)
        as [error|] eqn:Hi.
      * split; [by destruct error|]. right. right. eexists _, _.
        split; [done|]. rewrite Hi.
        split; [by destruct error; cbn; rewrite <- app_assoc|].
        split; [done|]. by destruct error.
      * split; [done|]. right. right. eexists _, _.
        split; [done|]. rewrite Hi. cbn. rewrite <- app_assoc. done.
  - destruct (call h (commands sh) (install_cmd mgr _)) as [error|] eqn:Hi.
    + split; [by destruct error|]. right. left. eexists.
      split; [done|]. rewrite Hi. by destruct error.
    + split; [done|]. right. left. eexists. split; [done|]. by rewrite Hi.
Qed.

(** X16. The answer of the installation tells what happened to its commands. The
    installation asks no question and stops at the first command that fails;
    it answers True exactly when it ran at least one command and every
    command it ran exited with status 0, and an exception passes through it
    exactly when the last command it ran raised something other than
    CalledProcessError. *)
Theorem installation_stops_at_first_failure
    (h : host) (missing : list string) (sh : shell) :
  let result := (install_dependencies h missing sh).1 in
  let sh' := (install_dependencies h missing sh).2 in
  ∃ ran,
    commands sh' = commands sh ++ ran
    ∧ questions sh' = questions sh
    ∧ length ran ≤ 2
    ∧ (∀ i cmd, ran !! i = Some cmd → S i < length ran →
                call h (commands sh ++ take i ran) cmd = None)
    ∧ (result = Returned true ↔
       ran ≠ [] ∧ ∀ i cmd, ran !! i = Some cmd →
                           call h (commands sh ++ take i ran) cmd = None)
    ∧ (∀ text, result = Raised text ↔
               ∃ cmd, last ran = Some cmd
                      ∧ call h (commands sh ++ take (length ran - 1) ran) cmd
                        = Some (OtherError text))
    ∧ (ran = [] ↔ detect_package_manager h sh = None).
Proof.
  cbv zeta.
  destruct (install_dependencies_cases h missing sh) as [Hq Hcases].
  cbv zeta in Hq, Hcases.
  destruct Hcases as [(Hd & -> & Hc)|[(c1 & Hd & Hc & ->)|(c1 & c2 & Hd & Hc & H1 & ->)]].
  - exists []. rewrite app_nil_r.
    split; [exact Hc|]. split; [exact Hq|]. split; [cbn; lia|].
    split; [intros i cmd Hi; by rewrite lookup_nil in Hi|].
    split; [split; [done|by intros [? _]]|].
    split; [|done]. intros text. split; [done|]. by intros (cmd & Hl & _).
  - exists [c1]. split; [exact Hc|]. split; [exact Hq|]. split; [cbn; lia|].
    split; [intros i cmd _ Hi; cbn in Hi; lia|].
    split; [|split; [|done]].
    + split.
      * intros Ht. split; [done|]. intros [|i] cmd Hi; cbn in Hi; [|done].
        simplify_eq. cbn. rewrite app_nil_r.
        by destruct (call h (commands sh) cmd) as [[?|?]|].
      * intros [_ H]. specialize (H 0 c1 eq_refl). cbn in H.
        rewrite app_nil_r in H. by rewrite H.
    + intros text. cbn. rewrite app_nil_r. split.
      * intros Ht. exists c1. split; [done|].
        destruct (call h (commands sh) c1) as [[?|?]|]; by simplify_eq.
      * intros (cmd & [= <-] & ->). done.
  - exists [c1; c2]. split; [exact Hc|]. split; [exact Hq|]. split; [cbn; lia|].
    split.
    { intros [|[|i]] cmd Hi Hlt; cbn in Hi, Hlt; try lia. simplify_eq.
      cbn. by rewrite app_nil_r. }
    split; [|split; [|done]].
    + split.
      * intros Ht. split; [done|]. intros [|[|i]] cmd Hi; cbn in Hi; [..|done];
          simplify_eq; cbn; [by rewrite app_nil_r|].
        by destruct (call h (commands sh ++ [c1]) cmd) as [[?|?]|].
      * intros [_ H]. specialize (H 1 c2 eq_refl). cbn in H. by rewrite H.
    + intros text. cbn. split.
      * intros Ht. exists c2. split; [done|].
        destruct (call h (commands sh ++ [c1]) c2) as [[?|?]|]; by simplify_eq.
      * intros (cmd & [= <-] & ->). done.
Qed.

Lemma missing_commands_nil (h : host) (sh : shell) :
  missing_commands h sh = [] ↔
  ∀ cmd, cmd ∈ required_commands → is_Some (which h (commands sh) cmd).
Proof.
  unfold missing_commands. split.
  - intros Hnil cmd Hcmd.
    destruct (which h (commands sh) cmd) as [path|] eqn:Hw; [by eexists|].
    assert (Hin : cmd ∈ List.filter
              (λ cmd, bool_decide (which h (commands sh) cmd = None))
              required_commands).
    { apply list_elem_of_In, filter_In. split; [by apply list_elem_of_In|].
      by apply bool_decide_eq_true_2. }
    rewrite Hnil in Hin. by apply elem_of_nil in Hin.
  - intros Hall.
    destruct (List.filter _ required_commands) as [|cmd l] eqn:Hf; [done|].
    assert (Hin : cmd ∈ cmd :: l) by elem_of_list.
    rewrite <- Hf in Hin. apply list_elem_of_In, filter_In in Hin as [Hin Hb].
    apply list_elem_of_In, Hall in Hin as [path Hp].
    apply bool_decide_eq_true_1 in Hb. congruence.
Qed.

(** The user agreed to the installation: the button Yes, or a typed line
    that in lower case is y, yes or empty. *)
Lemma ask_install_missing_agreed (h : host) (missing : list string) (sh : shell) :
  (ask_install_missing h missing sh).1 = Returned true →
  ∃ msg, question h msg = Clicked true
         ∨ ∃ line, question h msg = Typed line
                   ∧ PyStr.lower line ∈ ["y"; "yes"; ""].
Proof.
  unfold ask_install_missing. cbv zeta.
  set (msg := _ +:+ _). intros H. exists msg.
  destruct (question h msg) as [yes|line|error]; cbn in H; simplify_eq.
  - by left.
  - right. exists line. split; [done|]. by eapply bool_decide_eq_true_1.
Qed.

Lemma ask_install_missing_declined (h : host) (missing : list string) (sh : shell) :
  (∀ msg, question h msg = Clicked false
          ∨ ∃ line, question h msg = Typed line
                    ∧ PyStr.lower line ∉ ["y"; "yes"; ""]) →
  (ask_install_missing h missing sh).1 = Returned false.
Proof.
  unfold ask_install_missing. cbv zeta. set (msg := _ +:+ _). intros H.
  destruct (H msg) as [->|(line & -> & Hl)]; [done|].
  cbn. by rewrite bool_decide_eq_false_2.
Qed.

Lemma ask_install_missing_shell (h : host) (missing : list string) (sh : shell) :
  commands (ask_install_missing h missing sh).2 = commands sh
  ∧ err_lines (ask_install_missing h missing sh).2 = err_lines sh
  ∧ ∃ msg, questions (ask_install_missing h missing sh).2 = questions sh ++ [msg].
Proof.
  unfold ask_install_missing. cbv zeta.
  destruct (question h _); cbn; repeat split; by eexists.
Qed.

Lemma install_dependencies_err_lines (h : host) (missing : list string) (sh : shell) :
  (install_dependencies h missing sh).1 = Returned false →
  ∃ line, err_lines (install_dependencies h missing sh).2 = err_lines sh ++ [line].
Proof.
  unfold install_dependencies, run_command, install_failed, install_succeeded.
  repeat case_match; cbn; intros; simplify_eq; by eexists.
Qed.

Lemma check_dependencies_found (h : host) (sh : shell) :
  (check_dependencies h sh).1 = Returned true →
  ∀ cmd, cmd ∈ required_commands →
         is_Some (which h (commands (check_dependencies h sh).2) cmd).
Proof.
  unfold check_dependencies.
  destruct (missing_commands h sh) as [|cmd0 missing0] eqn:Hmiss.
  { intros _. by apply missing_commands_nil. }
  destruct (ask_install_missing h _ _) as [[[|]|error] sh2]; [|done..].
  destruct (install_dependencies h _ sh2) as [[[|]|error] sh3]; [|done..].
  destruct (missing_commands h sh3) as [|cmd1 missing1] eqn:Hmiss3; [|done].
  intros _. by apply missing_commands_nil.
Qed.

(** X17. The contract of the dependency check. When ethtool, iw, sysctl and
    pkexec are all found, the check answers True and asks, runs and writes
    nothing. An answer True always means that all four are found at the end
    of the check. The check runs a command only after the user agreed to the
    installation (the button Yes, or a typed line that in lower case is y,
    yes or empty); when one of the four is missing and the user declines,
    the answer is False and no command is run. The check asks at most one
    question, and an answer False always comes with a line on stderr. *)
Theorem dependency_check_contract (h : host) (sh : shell) :
  let result := (check_dependencies h sh).1 in
  let sh' := (check_dependencies h sh).2 in
  ((∀ cmd, cmd ∈ ["ethtool"; "iw"; "sysctl"; "pkexec"] →
           is_Some (which h (commands sh) cmd)) →
   result = Returned true ∧ sh' = sh)
  ∧ (result = Returned true →
     ∀ cmd, cmd ∈ ["ethtool"; "iw"; "sysctl"; "pkexec"] →
            is_Some (which h (commands sh') cmd))
  ∧ (commands sh' ≠ commands sh →
     ∃ msg, question h msg = Clicked true
            ∨ ∃ line, question h msg = Typed line
                      ∧ PyStr.lower line ∈ ["y"; "yes"; ""])
  ∧ (¬ (∀ cmd, cmd ∈ ["ethtool"; "iw"; "sysctl"; "pkexec"] →
              is_Some (which h (commands sh) cmd)) →
     (∀ msg, question h msg = Clicked false
             ∨ ∃ line, question h msg = Typed line
                       ∧ PyStr.lower line ∉ ["y"; "yes"; ""]) →
     result = Returned false ∧ commands sh' = commands sh)
  ∧ (questions sh' = questions sh ∨ ∃ msg, questions sh' = questions sh ++ [msg])
  ∧ (result = Returned false →
     ∃ lines, lines ≠ [] ∧ err_lines sh' = err_lines sh ++ lines).
Proof.
  cbv zeta. fold required_commands.
  pose proof (missing_commands_nil h sh) as Hnil.
  unfold check_dependencies.
  destruct (missing_commands h sh) as [|cmd0 missing0] eqn:Hmiss.
  { cbn [fst snd]. split; [done|]. split; [intros _; by apply Hnil|].
    split; [done|]. split; [intros Hnot; destruct Hnot; by apply Hnil|].
    split; [by left|]. done. }
  set (missing := cmd0 :: missing0).
  set (sh1 := write_err _ sh).
  destruct (ask_install_missing_shell h missing sh1) as (Hac & Hae & msg & Haq).
  pose proof (ask_install_missing_agreed h missing sh1) as Hagreed.
  pose proof (ask_install_missing_declined h missing sh1) as Hdeclined.
  destruct (ask_install_missing h missing sh1) as [agreed sh2].
  cbn [fst snd] in Hac, Hae, Haq, Hagreed, Hdeclined.
  split.
  { intros Hall. apply Hnil in Hall. done. }
  destruct agreed as [[|]|error]; cbn [fst snd].
  2:{ split; [done|]. split; [by rewrite Hac|]. split; [by rewrite Hac|].
      split; [right; by exists msg|].
      intros _. rewrite Hae. eexists. split; [|reflexivity]. done. }
  2:{ split; [done|]. split; [by rewrite Hac|].
      split; [intros _ Hd; by apply Hdeclined in Hd|].
      split; [right; by exists msg|]. done. }
  assert (Hnotd : ∀ (P : Prop),
            (∀ msg, question h msg = Clicked false
                    ∨ ∃ line, question h msg = Typed line
                              ∧ PyStr.lower line ∉ ["y"; "yes"; ""]) → P).
  { intros P Hd. by apply Hdeclined in Hd. }
  destruct (install_dependencies_cases h missing sh2) as [Hiq _].
  pose proof (install_dependencies_err_lines h missing sh2) as Hie.
  assert (Hmono : ∃ lines, err_lines (install_dependencies h missing sh2).2
                           = err_lines sh2 ++ lines).
  { unfold install_dependencies, run_command, install_failed, install_succeeded.
    repeat case_match; cbn; first [by exists [] ; rewrite app_nil_r | by eexists]. }
  cbv zeta in Hiq.
  destruct (install_dependencies h missing sh2) as [installed sh3].
  cbn [fst snd] in Hiq, Hie, Hmono.
  assert (Hq3 : ∃ msg, questions sh3 = questions sh ++ [msg]).
  { exists msg. by rewrite Hiq, Haq. }
  destruct installed as [[|]|error]; cbn [fst snd].
  - pose proof (missing_commands_nil h sh3) as Hnil3.
    destruct (missing_commands h sh3) as [|cmd1 missing1]; cbn [fst snd].
    + split; [intros _; by apply Hnil3|]. split; [intros _; by apply Hagreed|].
      split; [intros _; apply Hnotd|]. split; [by right|]. done.
    + split; [done|]. split; [intros _; by apply Hagreed|].
      split; [intros _; apply Hnotd|]. split; [by right|]. intros _.
      destruct Hmono as [lines Hl]. unfold write_err.
      cbn [err_lines]. rewrite Hl, Hae. unfold sh1. cbn.
      rewrite <- !app_assoc. eexists. split; [|reflexivity]. done.
  - split; [done|]. split; [intros _; by apply Hagreed|].
    split; [intros _; apply Hnotd|]. split; [by right|]. intros _.
    destruct Hmono as [lines Hl]. unfold write_err.
    cbn [err_lines]. rewrite Hl, Hae. unfold sh1. cbn.
    rewrite <- !app_assoc. eexists. split; [|reflexivity]. done.
  - split; [done|]. split; [intros _; by apply Hagreed|].
    split; [intros _; apply Hnotd|]. split; [by right|]. done.
Qed.

Lemma dependency_check_contract_witness :
  (check_dependencies (debian_without_ethtool (Clicked true)) shell0).1
    = Returned true
  ∧ ∀ cmd, cmd ∈ ["ethtool"; "iw"; "sysctl"; "pkexec"] →
           is_Some (which (debian_without_ethtool (Clicked true))
                      (commands (check_dependencies
                                   (debian_without_ethtool (Clicked true)) shell0).2)
                      cmd).
Proof.
  split; [reflexivity|].
  exact (proj1 (proj2 (dependency_check_contract
                         (debian_without_ethtool (Clicked true)) shell0))
           eq_refl).
Defined.

(** X18. How the program starts. The window opens exactly when the dependency
    check answered True and the program runs as root, and then every
    required command is installed and nothing was run after the check. The
    exit status is 1 exactly when the check answered False. Without root,
    and with the dependencies ready, the program runs exactly one more
    command, pkexec env with DISPLAY and XAUTHORITY, the interpreter, the
    script and the caller's arguments after the program name, and then exits
    with status 0 whether pkexec succeeded or exited with an error status.
    pkexec is never run when the dependencies are not ready. *)
Theorem main_contract (h : host) (euid : Z) (environ : gmap string string)
    (executable script_path : string) (argv : list string) (sh : shell) :
  let ready := (check_dependencies h sh).1 in
  let checked := (check_dependencies h sh).2 in
  let fin := (main h euid environ executable script_path argv sh).1 in
  let sh' := (main h euid environ executable script_path argv sh).2 in
  let cmd := pkexec_cmd environ executable script_path argv in
  (fin = Window ↔ ready = Returned true ∧ euid = 0%Z)
  ∧ (fin = Window →
     sh' = checked
     ∧ ∀ c, c ∈ ["ethtool"; "iw"; "sysctl"; "pkexec"] →
            is_Some (which h (commands sh') c))
  ∧ (fin = Exit 1 ↔ ready = Returned false)
  ∧ (ready = Returned true → euid ≠ 0%Z →
     commands sh' = commands checked ++ [cmd]
     ∧ (fin = Exit 0 ↔
        ∀ text, call h (commands checked) cmd ≠ Some (OtherError text))
     ∧ (∀ text, fin = Crash text ↔
                call h (commands checked) cmd = Some (OtherError text)))
  ∧ (ready ≠ Returned true → sh' = checked)
  ∧ take 6 cmd = ["pkexec"; "env";
                  "DISPLAY=" +:+ default "" (environ !! "DISPLAY");
                  "XAUTHORITY=" +:+ default "" (environ !! "XAUTHORITY");
                  executable; script_path]
  ∧ drop 6 cmd = drop 1 argv.
Proof.
  cbv zeta. unfold main.
  pose proof (check_dependencies_found h sh) as Hfound.
  unfold required_commands in Hfound.
  destruct (check_dependencies h sh) as [ready checked]. cbn [fst snd] in *.
  destruct ready as [[|]|error].
  - case_bool_decide as Heuid.
    + unfold run_command. cbn [fst snd].
      split; [by destruct (call h (commands checked) _) as [[?|?]|];
              (split; [done|by intros [_ ?]])|].
      split; [by destruct (call h (commands checked) _) as [[?|?]|]|].
      split; [by destruct (call h (commands checked) _) as [[?|?]|]|].
      split; [|split; [done|done]]. intros _ _.
      destruct (call h (commands checked) _) as [[text|text]|] eqn:Hcall;
        cbn [fst snd commands write_out]; (split; [done|]); split.
      * by split.
      * intros t. by split.
      * split; [done|]. intros H. by destruct (H text).
      * intros t. split; intros; by simplify_eq.
      * by split.
      * intros t. by split.
    + assert (euid = 0%Z) as -> by (destruct (decide (euid = 0%Z)); [done|tauto]).
      cbn [fst snd]. split; [done|]. split; [by auto|]. split; [done|].
      split; [done|]. done.
  - cbn [fst snd]. split; [split; [done|by intros [? _]]|]. split; [done|].
    split; [done|]. split; [done|]. done.
  - cbn [fst snd]. split; [split; [done|by intros [? _]]|]. split; [done|].
    split; [done|]. split; [done|]. done.
Qed.

Lemma main_contract_witness :
  (check_dependencies complete_host shell0).1 = Returned true
  ∧ (1000 ≠ 0)%Z
  ∧ commands (main complete_host 1000 {[ "DISPLAY" := ":0" ]}
                "/usr/bin/python3" "/opt/optimizer.py"
                ["optimizer.py"; "--verbose"] shell0).2
    = commands (check_dependencies complete_host shell0).2
      ++ [pkexec_cmd {[ "DISPLAY" := ":0" ]} "/usr/bin/python3" "/opt/optimizer.py"
            ["optimizer.py"; "--verbose"]].
Proof.
  assert (H : (1000 ≠ 0)%Z) by lia.
  split; [reflexivity|]. split; [exact H|].
  exact (proj1 (proj1 (proj2 (proj2 (proj2
    (main_contract complete_host 1000 {[ "DISPLAY" := ":0" ]}
       "/usr/bin/python3" "/opt/optimizer.py" ["optimizer.py"; "--verbose"]
       shell0)))) eq_refl H)).
Defined.

(** *** The start of the window *)

Lemma session_app str acts1 acts2 s r :
  session str (acts1 ++ acts2) s r
  = session str acts2 (session str acts1 s r).1 (session str acts1 s r).2.
Proof.
  revert s r. induction acts1 as [|[w a] acts1 IH]; intros s r; [done|].
  cbn [app session]. destruct (step str w a s r) as [s' r']. apply IH.
Qed.

(** Selecting an interface shows nothing but warnings. *)
Lemma load_interface_settings_dialogs str w interface s r :
  ∃ warnings,
    dialogs (load_interface_settings str w interface s r).2 = dialogs r ++ warnings
    ∧ Forall (λ d, ∃ text, d = MessageBox Warning "Warning" text) warnings.
Proof.
  assert (Hc : ∃ ws, dialogs (capture_interface str w interface s r).2
                     = dialogs r ++ ws
                     ∧ Forall (λ d, ∃ text, d = MessageBox Warning "Warning" text) ws).
  { unfold capture_interface, detect_offload, detect_power_save, offload_warning.
    repeat case_match; simplify_eq; cbn;
      first [ by exists []; rewrite app_nil_r
            | eexists [_]; split; [reflexivity|]; repeat constructor; by eexists ]. }
  destruct Hc as (ws & Hws & Hfa).
  unfold load_interface_settings.
  destruct (capture_interface str w interface s r) as [idefs r1].
  cbn [snd] in Hws.
  set (s1 := show_interface_defaults _ _).
  assert (Hb : ∃ ws, dialogs (load_buffer_slider str w (bufferSlider s1) r1).2
                     = dialogs r1 ++ ws
                     ∧ Forall (λ d, ∃ text, d = MessageBox Warning "Warning" text) ws).
  { unfold load_buffer_slider. cbv zeta.
    repeat case_match; cbn;
      first [ by exists []; rewrite app_nil_r
            | eexists [_]; split; [reflexivity|]; repeat constructor; by eexists ]. }
  destruct Hb as (wb & Hwb & Hfb).
  destruct (load_buffer_slider str w (bufferSlider s1) r1) as [slider r2].
  cbn [snd] in Hwb.
  assert (Ht : ∃ ws, dialogs (load_tcp_combo str w (tcpComboBox s1) r2).2
                     = dialogs r2 ++ ws
                     ∧ Forall (λ d, ∃ text, d = MessageBox Warning "Warning" text) ws).
  { unfold load_tcp_combo. cbv zeta.
    repeat case_match; cbn;
      first [ by exists []; rewrite app_nil_r
            | eexists [_]; split; [reflexivity|]; repeat constructor; by eexists ]. }
  destruct Ht as (wt & Hwt & Hft).
  destruct (load_tcp_combo str w (tcpComboBox s1) r2) as [index r3].
  cbn [snd] in Hwt |- *.
  exists (ws ++ wb ++ wt). split.
  - by rewrite Hwt, Hwb, Hws, <- !app_assoc.
  - by repeat apply Forall_app_2.
Qed.

(** What the interface box's signals add to the log: reads and warnings. *)
Lemma interface_changes_log str w signalled s r :
  let r' := (session str (map (λ text, (w, InterfaceChange text)) signalled) s r).2 in
  (∃ reads, trace r' = trace r ++ reads
            ∧ Forall (λ ev, is_read ev = true) reads)
  ∧ (∃ warnings, dialogs r' = dialogs r ++ warnings
                 ∧ Forall (λ d, ∃ text, d = MessageBox Warning "Warning" text)
                     warnings).
Proof.
  cbv zeta. revert s r.
  induction signalled as [|text signalled IH]; intros s r.
  { split; exists []; by rewrite app_nil_r. }
  cbn [map session step]. unfold on_interface_change.
  pose proof (load_interface_settings_trace str w text s r) as Htr.
  destruct (load_interface_settings_dialogs str w text s r) as (ws & Hws & Hfw).
  destruct (load_interface_settings str w text s r) as [s1 r1].
  cbn [snd] in Htr, Hws.
  destruct (IH s1 r1) as [(reads & Hr & Hfr) (warnings & Hw & Hfws)].
  split.
  - eexists. split; [by rewrite Hr, Htr, <- !app_assoc|].
    repeat apply Forall_app_2; [|by repeat constructor|exact Hfr].
    destruct (interface_defaults s !! text); by repeat constructor.
  - eexists. split; [by rewrite Hw, Hws, <- !app_assoc|].
    by apply Forall_app_2.
Qed.

(** X19. The interface list. The loopback interface is never offered: the
    list holds exactly the names the system lists other than lo, in the
    system's order. Filling the interface box runs the interface-change
    callback for every text the box signals, so the call can read settings
    and show warnings, one after the other, but it writes nothing and shows
    no other dialog; when the box signals nothing the state and the log stay
    as they were. When the names cannot be listed the list is empty, the
    state is untouched, no command is run and one critical dialog reports the
    failure. *)
Theorem loopback_is_never_offered
    (str : exn -> string) (w : world) (listing : exn + list string)
    (signalled : list string) (s : optimizer) (r : run) :
  let available_interfaces := (load_interfaces str w listing signalled s r).1 in
  let s' := (load_interfaces str w listing signalled s r).2.1 in
  let r' := (load_interfaces str w listing signalled s r).2.2 in
  ("lo" ∉ available_interfaces)
  ∧ (∀ names, listing = inr names →
       (∀ iface, iface ∈ available_interfaces ↔ iface ∈ names ∧ iface ≠ "lo")
       ∧ sublist available_interfaces names
       ∧ (s', r') = session str (map (λ text, (w, InterfaceChange text)) signalled) s r
       ∧ (signalled = [] → s' = s ∧ r' = r)
       ∧ (∃ reads, trace r' = trace r ++ reads
                   ∧ Forall (λ ev, is_read ev = true) reads)
       ∧ (∃ warnings, dialogs r' = dialogs r ++ warnings
                      ∧ Forall (λ d, ∃ text, d = MessageBox Warning "Warning" text)
                          warnings))
  ∧ (∀ e, listing = inl e →
       available_interfaces = []
       ∧ s' = s
       ∧ r' = show (MessageBox Critical "Error"
                      ("Failed to list network interfaces:" +:+ PyStr.nl +:+ str e)) r).
Proof.
  cbv zeta.
  assert (Hmem : ∀ names iface,
    iface ∈ List.filter (λ iface, bool_decide (iface ≠ "lo")) names
    ↔ iface ∈ names ∧ iface ≠ "lo").
  { intros names iface. rewrite !list_elem_of_In, filter_In.
    by rewrite bool_decide_eq_true. }
  destruct listing as [e|names]; cbn [load_interfaces fst snd].
  - split; [apply not_elem_of_nil|]. split; [done|]. intros ? [= <-]. done.
  - split; [rewrite Hmem; tauto|]. split; [|done].
    intros ? [= <-]. split; [apply Hmem|]. split.
    { induction names as [|name names IH]; cbn [List.filter]; [constructor|].
      destruct (bool_decide (name ≠ "lo")); by constructor. }
    split; [by destruct (session str _ s r)|].
    split; [by intros ->|].
    apply interface_changes_log.
Qed.

Lemma loopback_is_never_offered_witness :
  (load_interfaces sample_str usual_kernel (inr ["lo"; "eth0"; "wlan0"]) ["eth0"]
     initial run0).1
    = ["eth0"; "wlan0"]
  ∧ sublist (load_interfaces sample_str usual_kernel (inr ["lo"; "eth0"; "wlan0"])
               ["eth0"] initial run0).1
      ["lo"; "eth0"; "wlan0"].
Proof.
  split; [reflexivity|].
  exact (proj1 (proj2 (proj1 (proj2
    (loopback_is_never_offered sample_str usual_kernel
       (inr ["lo"; "eth0"; "wlan0"]) ["eth0"] initial run0))
    _ eq_refl))).
Defined.

Lemma startup_is_session str w names signalled :
  startup str w (inr names) signalled
  = session str
      (map (λ text, (w, InterfaceChange text)) signalled
       ++ match List.filter (λ iface, bool_decide (iface ≠ "lo")) names with
          | first :: _ => [(w, InterfaceChange first)]
          | [] => []
          end
       ++ [(w, LoadGlobalDefaults)])
      initial run0.
Proof.
  unfold startup. cbn [load_interfaces]. rewrite session_app.
  destruct (session str _ initial run0) as [s r]. cbn [fst snd].
  destruct (List.filter _ names) as [|first rest]; cbn [app session step].
  - by destruct (load_global_defaults str w s r).
  - unfold on_interface_change.
    destruct (load_interface_settings str w first s r) as [s1 r1].
    by destruct (load_global_defaults str w s1 r1).
Qed.

Lemma interface_changes_keep_globals str w signalled s r :
  global_defaults
    (session str (map (λ text, (w, InterfaceChange text)) signalled) s r).1
  = global_defaults s.
Proof.
  revert s r. induction signalled as [|text signalled IH]; intros s r; [done|].
  cbn [map session step]. unfold on_interface_change.
  destruct (load_interface_settings_unfold str w text s r) as (_ & _ & Hg & _).
  destruct (load_interface_settings str w text s r) as [s1 r1].
  cbn [fst] in Hg. by rewrite IH.
Qed.

(** X20. The window starts on the first interface. When the system lists an
    interface other than lo, then, whatever the interface box signals while
    it is filled, the window starts with the first such interface selected
    and its snapshot stored, the offload flags and the power-save state of
    that interface have been read exactly once, the state is consistent, and
    the global snapshot holds the three stripped texts when the three global
    reads succeed. *)
Theorem window_starts_on_first_interface
    (str : exn -> string) (w : world) (names signalled : list string)
    (first : string) (rest : list string) :
  List.filter (λ iface, bool_decide (iface ≠ "lo")) names = first :: rest →
  let s := (startup str w (inr names) signalled).1 in
  let r := (startup str w (inr names) signalled).2 in
  first ≠ "lo" ∧ first ∈ names
  ∧ current_interface s = Some first
  ∧ is_Some (interface_defaults s !! first)
  ∧ occurrences (CheckOutput ["ethtool"; "-k"; first]) (trace r) = 1
  ∧ occurrences (CheckOutput ["iw"; "dev"; first; "get"; "power_save"]) (trace r) = 1
  ∧ consistent s
  ∧ (∀ rmem wmem tcp_cc,
       check_output w ["sysctl"; "-n"; "net.core.rmem_max"] = inr rmem →
       check_output w ["sysctl"; "-n"; "net.core.wmem_max"] = inr wmem →
       check_output w ["sysctl"; "-n"; "net.ipv4.tcp_congestion_control"]
         = inr tcp_cc →
       global_defaults s = global_snapshot rmem wmem tcp_cc).
Proof.
  intros Hfirst s r.
  assert (Hin : first ∈ List.filter (λ iface, bool_decide (iface ≠ "lo")) names)
    by (rewrite Hfirst; elem_of_list).
  apply list_elem_of_In, filter_In in Hin as [Hin Hlo].
  apply bool_decide_eq_true_1 in Hlo. apply list_elem_of_In in Hin.
  split; [exact Hlo|]. split; [exact Hin|].
  assert (Hcons : consistent s).
  { unfold s. rewrite startup_is_session. apply session_consistent,
      initial_consistent. }
  set (changes := map (λ text, (w, InterfaceChange text)) signalled).
  set (s0 := (session str changes initial run0).1).
  set (r0 := (session str changes initial run0).2).
  set (s1 := (load_interface_settings str w first s0 r0).1).
  set (r1 := (load_interface_settings str w first s0 r0).2).
  assert (Hs : s = (load_global_defaults str w s1 r1).1
               ∧ r = (load_global_defaults str w s1 r1).2).
  { unfold s, r, startup. cbn [load_interfaces]. rewrite Hfirst.
    fold changes. unfold s1, r1, s0, r0.
    destruct (session str changes initial run0) as [sa ra]. cbn [fst snd].
    destruct (load_interface_settings str w first sa ra) as [sb rb].
    cbn [fst snd]. by destruct (load_global_defaults str w sb rb). }
  destruct Hs as [Hs Hr].
  assert (Hg1 : global_defaults s1 = ∅).
  { unfold s1.
    destruct (load_interface_settings_unfold str w first s0 r0) as (_ & _ & -> & _).
    unfold s0, changes. by rewrite interface_changes_keep_globals. }
  destruct (keeps_books_session str first changes initial run0) as (_ & E0 & I0).
  fold s0 r0 in E0, I0.
  destruct (keeps_books_load str first w first s0 r0) as (_ & E1 & I1).
  fold s1 r1 in E1, I1.
  destruct (keeps_books_step str first w LoadGlobalDefaults s1 r1) as (K2 & E2 & I2).
  cbn [step] in K2, E2, I2. rewrite <- Hs in K2, E2, I2. rewrite <- Hr in E2, I2.
  assert (Hstored : is_Some (interface_defaults s1 !! first))
    by apply load_interface_settings_stores.
  assert (Hstored' : is_Some (interface_defaults s !! first)).
  { destruct Hstored as [snap Hsnap]. exists snap. by apply K2. }
  assert (C0 : captured first initial = 0) by done.
  assert (C1 : captured first s1 = 1).
  { unfold captured. by destruct Hstored as [? ->]. }
  assert (C2 : captured first s = 1).
  { unfold captured. by destruct Hstored' as [? ->]. }
  assert (T0 : ∀ ev, occurrences ev (trace run0) = 0) by done.
  rewrite !T0 in E0, I0.
  split.
  { rewrite Hs. unfold load_global_defaults.
    destruct (load_interface_settings_unfold str w first s0 r0) as (_ & Hc & _).
    fold s1 in Hc. by repeat case_match. }
  split; [exact Hstored'|]. split; [lia|]. split; [lia|].
  split; [exact Hcons|].
  intros rmem wmem tcp_cc H1 H2 H3. rewrite Hs. unfold load_global_defaults.
  rewrite bool_decide_eq_true_2 by done. rewrite H1, H2, H3, Hg1. done.
Qed.

Lemma window_starts_on_first_interface_witness :
  List.filter (λ iface, bool_decide (iface ≠ "lo")) ["lo"; "eth0"; "wlan0"]
    = "eth0" :: ["wlan0"]
  ∧ current_interface
      (startup sample_str usual_kernel (inr ["lo"; "eth0"; "wlan0"]) ["eth0"]).1
    = Some "eth0".
Proof.
  split; [reflexivity|].
  exact (proj1 (proj2 (proj2
    (window_starts_on_first_interface sample_str usual_kernel
       ["lo"; "eth0"; "wlan0"] ["eth0"] "eth0" ["wlan0"] eq_refl)))).
Defined.

(** X21. A start without interfaces. When there is no interface to offer and the
    interface box signals nothing, the window starts with no interface
    selected and an empty snapshot store, it has run nothing but the reads
    of the global snapshot, and apply and reset then attempt nothing. *)
Theorem start_without_interfaces
    (str : exn -> string) (w : world) (listing : exn + list string) :
  (load_interfaces str w listing [] initial run0).1 = [] →
  let s := (startup str w listing []).1 in
  let r := (startup str w listing []).2 in
  current_interface s = None
  ∧ interface_defaults s = ∅
  ∧ (∀ ev, ev ∈ trace r →
           ev ∈ [ CheckOutput ["sysctl"; "-n"; "net.core.rmem_max"];
                  wmem_read;
                  CheckOutput ["sysctl"; "-n"; "net.ipv4.tcp_congestion_control"] ])
  ∧ (∀ w', attempts (apply_settings str w' s) = []
           ∧ attempts (λ r, (reset_to_defaults str w' s r).2) = []).
Proof.
  intros Hnone s r. unfold startup in s, r.
  destruct (load_interfaces str w listing [] initial run0)
    as [ifaces [s0 r0]] eqn:Hl.
  cbn [fst] in Hnone. subst ifaces.
  assert (Htr : s0 = initial ∧ trace r0 = []).
  { unfold load_interfaces in Hl.
    destruct listing; cbn [map session] in Hl; by simplify_eq. }
  destruct Htr as [-> Htr].
  assert (Hs : current_interface s = None ∧ interface_defaults s = ∅).
  { unfold s, load_global_defaults. by repeat case_match. }
  destruct Hs as [Hc Hi]. split; [exact Hc|]. split; [exact Hi|]. split.
  - unfold r, load_global_defaults. intros ev.
    repeat case_match; cbn [snd trace attempt show]; rewrite Htr; cbn;
      intros Hev; set_unfold; tauto.
  - intros w'. unfold attempts, apply_settings, reset_to_defaults,
      selected_interface. rewrite Hc. done.
Qed.

Lemma start_without_interfaces_witness :
  (load_interfaces sample_str usual_kernel (inr ["lo"]) [] initial run0).1 = []
  ∧ current_interface (startup sample_str usual_kernel (inr ["lo"]) []).1 = None.
Proof.
  split; [reflexivity|].
  exact (proj1 (start_without_interfaces sample_str usual_kernel (inr ["lo"])
                  eq_refl)).
Defined.

(** *** The label of the buffer slider *)

(** X22. The slider label agrees with what apply does. For every slider position
    the label names the preset Light exactly when apply writes at most 1 MB
    (1048576 bytes), Heavy exactly when it writes more than 2.5 MB, and
    Balanced in between; the megabyte figure on the label is the figure
    apply prints after it has set the buffers; different positions have
    different labels; and the label [initUI] starts with is the label of the
    slider's start position. *)
Theorem buffer_label_agrees_with_apply
    (str : exn -> string) (w : world) (interface : string) (value : Z) :
  (1 ≤ value ≤ 8)%Z →
  (preset value = "Light" ↔ (buffer_value value ≤ 1048576)%Z)
  ∧ (preset value = "Balanced" ↔ (1048576 < buffer_value value ≤ 2621440)%Z)
  ∧ (preset value = "Heavy" ↔ (2621440 < buffer_value value)%Z)
  ∧ (∃ figure,
       update_buffer_label value = figure +:+ " MB (" +:+ preset value +:+ ")"
       ∧ (failures (apply_buffers str w interface value) = [] →
          printed (apply_buffers str w interface value)
          = ["Successfully set buffer sizes to " +:+ figure +:+ " MB on "
             +:+ interface +:+ "."]))
  ∧ (∀ other, (1 ≤ other ≤ 8)%Z →
              update_buffer_label other = update_buffer_label value →
              other = value)
  ∧ update_buffer_label (bufferSlider initial) = "2.0 MB (Balanced)".
Proof.
  intros Hvalue.
  assert (Hb : buffer_value value = (value * 524288)%Z).
  { unfold buffer_value.
    replace (value * 1048576)%Z with (value * 524288 * 2)%Z by lia.
    by rewrite Z.quot_mul by lia. }
  rewrite Hb. unfold preset.
  split; [|split; [|split; [|split; [|split]]]].
  - repeat case_bool_decide; split; intros; first [done | lia].
  - repeat case_bool_decide; split; intros; first [done | lia].
  - repeat case_bool_decide; split; intros; first [done | lia].
  - exists (PyStr.str_half value). split; [reflexivity|].
    unfold failures, printed, apply_buffers. cbv zeta.
    by repeat case_match.
  - intros other Hother.
    assert (Hv : value ∈ [1; 2; 3; 4; 5; 6; 7; 8]%Z) by (set_unfold; lia).
    assert (Ho : other ∈ [1; 2; 3; 4; 5; 6; 7; 8]%Z) by (set_unfold; lia).
    clear Hvalue Hother Hb. set_unfold in Hv. set_unfold in Ho.
    destruct Hv as [->|[->|[->|[->|[->|[->|[->|[->|[]]]]]]]]];
      destruct Ho as [->|[->|[->|[->|[->|[->|[->|[->|[]]]]]]]]];
      intros H; first [reflexivity | by vm_compute in H].
  - reflexivity.
Qed.

Lemma buffer_label_agrees_with_apply_witness :
  (1 ≤ 8 ≤ 8)%Z ∧ (preset 8 = "Heavy" ↔ (2621440 < buffer_value 8)%Z).
Proof.
  assert (H : (1 ≤ 8 ≤ 8)%Z) by lia.
  split; [exact H|].
  exact (proj1 (proj2 (proj2
    (buffer_label_agrees_with_apply sample_str usual_kernel "eth0" 8 H)))).
Defined.
